(** * Verification of the physics system of Hubs

    Source: [src/systems/physics-system.js], the class [PhysicsSystem]
    that synchronises scene objects with the physics worker through a
    transferable buffer.

    The JavaScript object [this] is the record [PhysicsSystem]; everything
    the methods touch outside of [this] (scene objects, the worker's inbox,
    the console, [window]) is the record [World].  A method is a function
    on [World]; a method that can throw returns a [Completion]. *)

From stdpp Require Import gmap strings list fin_maps.
From Stdlib Require Import ZArith Lia.

Open Scope Z_scope.

(** ** JavaScript values used by the system *)

(** Property keys of a plain object.  [obj[n]] with an integer [n] uses the
    canonical numeric string of [n], written [KeyNum n]; every other key
    (an identifier after a dot, or the string of a non-number such as
    [undefined]) is a [KeyName]. *)
Inductive PropKey : Type :=
  | KeyNum (n : Z)
  | KeyName (s : string).

#[global] Instance PropKey_eq_dec : EqDecision PropKey.
Proof. solve_decision. Defined.

#[global] Instance PropKey_countable : Countable PropKey.
Proof.
  refine (inj_countable'
    (fun k => match k with KeyNum n => inl n | KeyName s => inr s end)
    (fun x => match x with inl n => KeyNum n | inr s => KeyName s end) _).
  by intros [].
Defined.

(** A value that is an integer or [undefined] ([None]), used as a key. *)
Definition toPropertyKey (v : option Z) : PropKey :=
  match v with
  | Some n => KeyNum n
  | None => KeyName "undefined"
  end.

Inductive JsError : Type := TypeError | RangeError.

(** Result of running a method: it returns, or it throws and leaves the
    world as it was at the throw. *)
Inductive Completion (A : Type) : Type :=
  | Normal (a : A)
  | Throw (e : JsError) (a : A).
Arguments Normal {A} a.
Arguments Throw {A} e a.

(** The world a method leaves behind, whichever way it ended. *)
Definition worldOf {A} (c : Completion A) : A :=
  match c with
  | Normal a => a
  | Throw _ a => a
  end.

(** Whether a method returned, and the error it threw otherwise. *)
Definition returns {A} (c : Completion A) : bool :=
  match c with
  | Normal _ => true
  | Throw _ _ => false
  end.

Definition thrown {A} (c : Completion A) : option JsError :=
  match c with
  | Normal _ => None
  | Throw e _ => Some e
  end.

Definition andThen {A} (c : Completion A) (k : A -> Completion A) : Completion A :=
  match c with
  | Normal a => k a
  | Throw e a => Throw e a
  end.

Notation "'let!' x := c 'in' k" := (andThen c (fun x => k))
  (at level 10, x name, c at level 100, k at level 200).

(** ** External collaborators *)

(** CONSTANTS.TYPE of three-ammo. *)
Inductive BodyType : Type := DYNAMIC | STATIC | KINEMATIC.

#[global] Instance BodyType_eq_dec : EqDecision BodyType.
Proof. solve_decision. Defined.

(** CONSTANTS.BUFFER_CONFIG of three-ammo; the buffer schema in [tick]
    gives 26 words per body. *)
Class BUFFER_CONFIG : Type := {
  BODY_DATA_SIZE : Z;
  MAX_BODIES : Z
}.

(** Numbers and the operations of THREE.Matrix4 that [tick] calls.  A
    [Num] is a JavaScript value produced by a numeric read, so it includes
    [undefined] (read out of range).  A Matrix4 is its [elements] array. *)
Class THREE : Type := {
  Num : Type;
  undefinedNum : Num;
  zeroNum : Num;
  decodeFloat32 : Z -> Num;
  encodeFloat32 : Num -> Z;
  Vector3 : Type;
  Quaternion : Type;
  compose : Vector3 -> Quaternion -> Vector3 -> list Num;
  decompose : list Num -> Vector3 * Quaternion * Vector3;
  getInverse : list Num -> list Num;
  multiplyMatrices : list Num -> list Num -> list Num
}.

Abbreviation ObjRef := positive (only parsing).

Section Model.
Context {three : THREE} {cfg : BUFFER_CONFIG}.

Local Abbreviation Matrix4 := (list Num) (only parsing).

(** ** Data model *)

Record Object3D : Type := {
  position : Vector3;
  quaternion : Quaternion;
  scale : Vector3;
  matrix : Matrix4;
  matrixWorld : Matrix4;
  parent : option ObjRef
}.

(** The option bag of a body; [tick] reads only [type]. *)
Record BodyOptions : Type := {
  type : option BodyType
}.

(** A body or shape helper queued until the worker is ready. *)
Record Helper : Type := {
  helper_id : Z;
  alive : bool
}.

(** The debug line mesh with its geometry. *)
Record DebugMesh : Type := {
  attached : bool;
  drawCount : option Z;
  positionNeedsUpdate : bool;
  colorNeedsUpdate : bool
}.

(** Messages posted to the worker, oldest first. *)
Inductive Posted : Type :=
  | Post_INIT
  | Post_ADD_BODY (uuid : Z)
  | Post_UPDATE_BODY (uuid : Z)
  | Post_REMOVE_BODY (uuid : Z)
  | Post_ADD_SHAPES (bodyUuid shapesUuid : Z)
  | Post_REMOVE_SHAPES (bodyUuid shapesUuid : Z)
  | Post_ADD_CONSTRAINT (constraintId bodyUuid targetUuid : Z)
  | Post_REMOVE_CONSTRAINT (constraintId : Z)
  | Post_TRANSFER_DATA (buffer : list Z)
  | Post_SET_DEBUG (enable : bool)
  | Post_RESET_DYNAMIC_BODY (uuid : Z)
  | Post_ACTIVATE_BODY (uuid : Z).

(** [event.data] of a message received from the worker. *)
Inductive Message : Type :=
  | READY
  | BODY_READY (uuid index : Z)
  | SHAPES_READY (bodyUuid shapesUuid : Z)
  | TRANSFER_DATA (objectMatricesFloatArray : list Z) (stepDuration : Num)
  | OTHER.

(** The fields of [this].  [objectMatrices] is the ArrayBuffer behind
    [objectMatricesFloatArray] and [objectMatricesIntArray], as 32-bit
    words; it is empty while the buffer is transferred to the worker. *)
Record PhysicsSystem : Type := {
  bodyHelpers : list Helper;
  shapeHelpers : list Helper;
  bodyUuids : list Z;
  uuidToIndex : gmap PropKey Z;
  indexToUuid : gmap PropKey Z;
  object3Ds : gmap PropKey ObjRef;
  bodyOptions : gmap PropKey BodyOptions;
  bodyLinearVelocities : gmap PropKey Num;
  bodyAngularVelocities : gmap PropKey Num;
  shapeUuids : list Z;
  shapes : gmap PropKey (list Z);
  collisions : gmap PropKey (list (option Z));
  debugRequested : bool;
  debugEnabled : bool;
  stepDuration : Num;
  ready : bool;
  nextBodyUuid : Z;
  nextShapeUuid : Z;
  objectMatrices : list Z;
  debugMesh : option DebugMesh
}.

(** [this] and its surroundings: the scene objects by reference, the
    messages posted to the worker, console warnings, the [init2] calls
    made on helpers, whether [window.SharedArrayBuffer] exists, and word 0
    of the shared debug buffer (the cursor the worker advances). *)
Record World : Type := {
  this : PhysicsSystem;
  objects : gmap ObjRef Object3D;
  posted : list Posted;
  warnings : list string;
  init2Calls : list Z;
  hasSharedArrayBuffer : bool;
  debugIndex : Z
}.

(** Field updates. *)
Definition set_bodyHelpers (v : list Helper) (s : PhysicsSystem) : PhysicsSystem :=
  Build_PhysicsSystem v (shapeHelpers s) (bodyUuids s) (uuidToIndex s)
    (indexToUuid s) (object3Ds s) (bodyOptions s) (bodyLinearVelocities s)
    (bodyAngularVelocities s) (shapeUuids s) (shapes s) (collisions s)
    (debugRequested s) (debugEnabled s) (stepDuration s) (ready s)
    (nextBodyUuid s) (nextShapeUuid s) (objectMatrices s) (debugMesh s).

Definition set_shapeHelpers (v : list Helper) (s : PhysicsSystem) : PhysicsSystem :=
  Build_PhysicsSystem (bodyHelpers s) v (bodyUuids s) (uuidToIndex s)
    (indexToUuid s) (object3Ds s) (bodyOptions s) (bodyLinearVelocities s)
    (bodyAngularVelocities s) (shapeUuids s) (shapes s) (collisions s)
    (debugRequested s) (debugEnabled s) (stepDuration s) (ready s)
    (nextBodyUuid s) (nextShapeUuid s) (objectMatrices s) (debugMesh s).

Definition set_bodyUuids (v : list Z) (s : PhysicsSystem) : PhysicsSystem :=
  Build_PhysicsSystem (bodyHelpers s) (shapeHelpers s) v (uuidToIndex s)
    (indexToUuid s) (object3Ds s) (bodyOptions s) (bodyLinearVelocities s)
    (bodyAngularVelocities s) (shapeUuids s) (shapes s) (collisions s)
    (debugRequested s) (debugEnabled s) (stepDuration s) (ready s)
    (nextBodyUuid s) (nextShapeUuid s) (objectMatrices s) (debugMesh s).

Definition set_uuidToIndex (v : gmap PropKey Z) (s : PhysicsSystem) : PhysicsSystem :=
  Build_PhysicsSystem (bodyHelpers s) (shapeHelpers s) (bodyUuids s) v
    (indexToUuid s) (object3Ds s) (bodyOptions s) (bodyLinearVelocities s)
    (bodyAngularVelocities s) (shapeUuids s) (shapes s) (collisions s)
    (debugRequested s) (debugEnabled s) (stepDuration s) (ready s)
    (nextBodyUuid s) (nextShapeUuid s) (objectMatrices s) (debugMesh s).

Definition set_indexToUuid (v : gmap PropKey Z) (s : PhysicsSystem) : PhysicsSystem :=
  Build_PhysicsSystem (bodyHelpers s) (shapeHelpers s) (bodyUuids s)
    (uuidToIndex s) v (object3Ds s) (bodyOptions s) (bodyLinearVelocities s)
    (bodyAngularVelocities s) (shapeUuids s) (shapes s) (collisions s)
    (debugRequested s) (debugEnabled s) (stepDuration s) (ready s)
    (nextBodyUuid s) (nextShapeUuid s) (objectMatrices s) (debugMesh s).

Definition set_object3Ds (v : gmap PropKey ObjRef) (s : PhysicsSystem) : PhysicsSystem :=
  Build_PhysicsSystem (bodyHelpers s) (shapeHelpers s) (bodyUuids s)
    (uuidToIndex s) (indexToUuid s) v (bodyOptions s) (bodyLinearVelocities s)
    (bodyAngularVelocities s) (shapeUuids s) (shapes s) (collisions s)
    (debugRequested s) (debugEnabled s) (stepDuration s) (ready s)
    (nextBodyUuid s) (nextShapeUuid s) (objectMatrices s) (debugMesh s).

Definition set_bodyOptions (v : gmap PropKey BodyOptions) (s : PhysicsSystem) : PhysicsSystem :=
  Build_PhysicsSystem (bodyHelpers s) (shapeHelpers s) (bodyUuids s)
    (uuidToIndex s) (indexToUuid s) (object3Ds s) v (bodyLinearVelocities s)
    (bodyAngularVelocities s) (shapeUuids s) (shapes s) (collisions s)
    (debugRequested s) (debugEnabled s) (stepDuration s) (ready s)
    (nextBodyUuid s) (nextShapeUuid s) (objectMatrices s) (debugMesh s).

Definition set_bodyLinearVelocities (v : gmap PropKey Num) (s : PhysicsSystem) : PhysicsSystem :=
  Build_PhysicsSystem (bodyHelpers s) (shapeHelpers s) (bodyUuids s)
    (uuidToIndex s) (indexToUuid s) (object3Ds s) (bodyOptions s) v
    (bodyAngularVelocities s) (shapeUuids s) (shapes s) (collisions s)
    (debugRequested s) (debugEnabled s) (stepDuration s) (ready s)
    (nextBodyUuid s) (nextShapeUuid s) (objectMatrices s) (debugMesh s).

Definition set_bodyAngularVelocities (v : gmap PropKey Num) (s : PhysicsSystem) : PhysicsSystem :=
  Build_PhysicsSystem (bodyHelpers s) (shapeHelpers s) (bodyUuids s)
    (uuidToIndex s) (indexToUuid s) (object3Ds s) (bodyOptions s)
    (bodyLinearVelocities s) v (shapeUuids s) (shapes s) (collisions s)
    (debugRequested s) (debugEnabled s) (stepDuration s) (ready s)
    (nextBodyUuid s) (nextShapeUuid s) (objectMatrices s) (debugMesh s).

Definition set_shapes (v : gmap PropKey (list Z)) (s : PhysicsSystem) : PhysicsSystem :=
  Build_PhysicsSystem (bodyHelpers s) (shapeHelpers s) (bodyUuids s)
    (uuidToIndex s) (indexToUuid s) (object3Ds s) (bodyOptions s)
    (bodyLinearVelocities s) (bodyAngularVelocities s) (shapeUuids s) v
    (collisions s) (debugRequested s) (debugEnabled s) (stepDuration s)
    (ready s) (nextBodyUuid s) (nextShapeUuid s) (objectMatrices s)
    (debugMesh s).

Definition set_collisions (v : gmap PropKey (list (option Z))) (s : PhysicsSystem) : PhysicsSystem :=
  Build_PhysicsSystem (bodyHelpers s) (shapeHelpers s) (bodyUuids s)
    (uuidToIndex s) (indexToUuid s) (object3Ds s) (bodyOptions s)
    (bodyLinearVelocities s) (bodyAngularVelocities s) (shapeUuids s)
    (shapes s) v (debugRequested s) (debugEnabled s) (stepDuration s)
    (ready s) (nextBodyUuid s) (nextShapeUuid s) (objectMatrices s)
    (debugMesh s).

Definition set_debugRequested (v : bool) (s : PhysicsSystem) : PhysicsSystem :=
  Build_PhysicsSystem (bodyHelpers s) (shapeHelpers s) (bodyUuids s)
    (uuidToIndex s) (indexToUuid s) (object3Ds s) (bodyOptions s)
    (bodyLinearVelocities s) (bodyAngularVelocities s) (shapeUuids s)
    (shapes s) (collisions s) v (debugEnabled s) (stepDuration s) (ready s)
    (nextBodyUuid s) (nextShapeUuid s) (objectMatrices s) (debugMesh s).

Definition set_debugEnabled (v : bool) (s : PhysicsSystem) : PhysicsSystem :=
  Build_PhysicsSystem (bodyHelpers s) (shapeHelpers s) (bodyUuids s)
    (uuidToIndex s) (indexToUuid s) (object3Ds s) (bodyOptions s)
    (bodyLinearVelocities s) (bodyAngularVelocities s) (shapeUuids s)
    (shapes s) (collisions s) (debugRequested s) v (stepDuration s) (ready s)
    (nextBodyUuid s) (nextShapeUuid s) (objectMatrices s) (debugMesh s).

Definition set_stepDuration (v : Num) (s : PhysicsSystem) : PhysicsSystem :=
  Build_PhysicsSystem (bodyHelpers s) (shapeHelpers s) (bodyUuids s)
    (uuidToIndex s) (indexToUuid s) (object3Ds s) (bodyOptions s)
    (bodyLinearVelocities s) (bodyAngularVelocities s) (shapeUuids s)
    (shapes s) (collisions s) (debugRequested s) (debugEnabled s) v (ready s)
    (nextBodyUuid s) (nextShapeUuid s) (objectMatrices s) (debugMesh s).

Definition set_ready (v : bool) (s : PhysicsSystem) : PhysicsSystem :=
  Build_PhysicsSystem (bodyHelpers s) (shapeHelpers s) (bodyUuids s)
    (uuidToIndex s) (indexToUuid s) (object3Ds s) (bodyOptions s)
    (bodyLinearVelocities s) (bodyAngularVelocities s) (shapeUuids s)
    (shapes s) (collisions s) (debugRequested s) (debugEnabled s)
    (stepDuration s) v (nextBodyUuid s) (nextShapeUuid s) (objectMatrices s)
    (debugMesh s).

Definition set_nextBodyUuid (v : Z) (s : PhysicsSystem) : PhysicsSystem :=
  Build_PhysicsSystem (bodyHelpers s) (shapeHelpers s) (bodyUuids s)
    (uuidToIndex s) (indexToUuid s) (object3Ds s) (bodyOptions s)
    (bodyLinearVelocities s) (bodyAngularVelocities s) (shapeUuids s)
    (shapes s) (collisions s) (debugRequested s) (debugEnabled s)
    (stepDuration s) (ready s) v (nextShapeUuid s) (objectMatrices s)
    (debugMesh s).

Definition set_nextShapeUuid (v : Z) (s : PhysicsSystem) : PhysicsSystem :=
  Build_PhysicsSystem (bodyHelpers s) (shapeHelpers s) (bodyUuids s)
    (uuidToIndex s) (indexToUuid s) (object3Ds s) (bodyOptions s)
    (bodyLinearVelocities s) (bodyAngularVelocities s) (shapeUuids s)
    (shapes s) (collisions s) (debugRequested s) (debugEnabled s)
    (stepDuration s) (ready s) (nextBodyUuid s) v (objectMatrices s)
    (debugMesh s).

Definition set_objectMatrices (v : list Z) (s : PhysicsSystem) : PhysicsSystem :=
  Build_PhysicsSystem (bodyHelpers s) (shapeHelpers s) (bodyUuids s)
    (uuidToIndex s) (indexToUuid s) (object3Ds s) (bodyOptions s)
    (bodyLinearVelocities s) (bodyAngularVelocities s) (shapeUuids s)
    (shapes s) (collisions s) (debugRequested s) (debugEnabled s)
    (stepDuration s) (ready s) (nextBodyUuid s) (nextShapeUuid s) v
    (debugMesh s).

Definition set_debugMesh (v : option DebugMesh) (s : PhysicsSystem) : PhysicsSystem :=
  Build_PhysicsSystem (bodyHelpers s) (shapeHelpers s) (bodyUuids s)
    (uuidToIndex s) (indexToUuid s) (object3Ds s) (bodyOptions s)
    (bodyLinearVelocities s) (bodyAngularVelocities s) (shapeUuids s)
    (shapes s) (collisions s) (debugRequested s) (debugEnabled s)
    (stepDuration s) (ready s) (nextBodyUuid s) (nextShapeUuid s)
    (objectMatrices s) v.

Definition set_this (v : PhysicsSystem) (s : World) : World :=
  Build_World v (objects s) (posted s) (warnings s) (init2Calls s)
    (hasSharedArrayBuffer s) (debugIndex s).

Definition set_objects (v : gmap ObjRef Object3D) (s : World) : World :=
  Build_World (this s) v (posted s) (warnings s) (init2Calls s)
    (hasSharedArrayBuffer s) (debugIndex s).

Definition set_posted (v : list Posted) (s : World) : World :=
  Build_World (this s) (objects s) v (warnings s) (init2Calls s)
    (hasSharedArrayBuffer s) (debugIndex s).

Definition set_warnings (v : list string) (s : World) : World :=
  Build_World (this s) (objects s) (posted s) v (init2Calls s)
    (hasSharedArrayBuffer s) (debugIndex s).

Definition set_init2Calls (v : list Z) (s : World) : World :=
  Build_World (this s) (objects s) (posted s) (warnings s) v
    (hasSharedArrayBuffer s) (debugIndex s).

Definition set_debugIndex (v : Z) (s : World) : World :=
  Build_World (this s) (objects s) (posted s) (warnings s) (init2Calls s)
    (hasSharedArrayBuffer s) v.


Definition update_this (f : PhysicsSystem -> PhysicsSystem) (w : World) : World :=
  set_this (f (this w)) w.

Definition postMessage (m : Posted) (w : World) : World :=
  set_posted (posted w ++ [m]) w.

(** ** Typed-array views on the transfer buffer *)

(** The Int32Array view reads a word as a signed integer. *)
Definition toInt32 (word : Z) : Z := (word + 2 ^ 31) mod 2 ^ 32 - 2 ^ 31.

Definition byteLength (buffer : list Z) : Z := 4 * Z.of_nat (length buffer).

(** [index * BODY_DATA_SIZE]; an [undefined] index gives NaN ([None]). *)
Definition slotOffset (index : option Z) : option Z :=
  (fun i => i * BODY_DATA_SIZE) <$> index.

Definition plusOffset (offset : option Z) (j : Z) : option Z :=
  (fun o => o + j) <$> offset.

(** [array[n]] on a typed array: [undefined] out of range or at NaN. *)
Definition wordAt (buffer : list Z) (n : option Z) : option Z :=
  match n with
  | Some n => if decide (0 <= n) then buffer !! Z.to_nat n else None
  | None => None
  end.

Definition floatAt (buffer : list Z) (n : option Z) : Num :=
  from_option decodeFloat32 undefinedNum (wordAt buffer n).

Definition intAt (buffer : list Z) (n : option Z) : option Z :=
  toInt32 <$> wordAt buffer n.

(** Matrix4.fromArray(array, offset): sixteen reads of the float view. *)
Definition fromArray (buffer : list Z) (offset : option Z) : Matrix4 :=
  (fun i => floatAt buffer (plusOffset offset i)) <$> seqZ 0 16.

(** Float32Array.prototype.set(elements, offset): a NaN offset is 0; a
    negative offset or a source that does not fit is a RangeError
    ([None]). *)
Definition float32Set (buffer : list Z) (elements : Matrix4) (offset : option Z)
  : option (list Z) :=
  let n := default 0 offset in
  if decide (n < 0 \/ Z.of_nat (length buffer) < n + Z.of_nat (length elements))
  then None
  else Some (take (Z.to_nat n) buffer ++ (encodeFloat32 <$> elements)
             ++ drop (Z.to_nat n + length elements) buffer).

(** ** Scene objects *)

Definition set_pose (p : Vector3) (q : Quaternion) (o : Object3D) : Object3D :=
  {| position := p; quaternion := q; scale := scale o; matrix := matrix o;
     matrixWorld := matrixWorld o; parent := parent o |}.

Definition set_matrices (m mw : Matrix4) (o : Object3D) : Object3D :=
  {| position := position o; quaternion := quaternion o; scale := scale o;
     matrix := m; matrixWorld := mw; parent := parent o |}.

(** The object behind a value that is a reference or [undefined]. *)
Definition deref (objs : gmap ObjRef Object3D) (r : option ObjRef)
  : option (ObjRef * Object3D) :=
  match r with
  | Some r => (fun o => (r, o)) <$> objs !! r
  | None => None
  end.

(** Modelled from the spec: Object3D.updateMatrices, which is defined
    outside of physics-system.js.  The spec describes it as the scene
    object's method to recompute its world transform from its parent
    chain: the ancestors are brought up to date first, the local matrix is
    composed from position, orientation and scale, and the world matrix is
    the parent's world matrix times the local one. *)
Fixpoint updateMatricesChain (fuel : nat) (r : ObjRef)
    (objs : gmap ObjRef Object3D) : gmap ObjRef Object3D :=
  match fuel with
  | O => objs
  | S fuel' =>
      match objs !! r with
      | None => objs
      | Some o =>
          let objs1 :=
            match parent o with
            | Some p => updateMatricesChain fuel' p objs
            | None => objs
            end in
          let local := compose (position o) (quaternion o) (scale o) in
          let world :=
            match deref objs1 (parent o) with
            | Some (_, po) => multiplyMatrices (matrixWorld po) local
            | None => local
            end in
          <[r := set_matrices local world o]> objs1
      end
  end.

Definition updateMatrices (r : ObjRef) (objs : gmap ObjRef Object3D)
  : gmap ObjRef Object3D :=
  updateMatricesChain (S (size objs)) r objs.

(** ** Construction and messages from the worker *)

(** The constructor.  The fresh buffer is transferred to the worker with
    the INIT message, so it is detached locally from the start. *)
Definition constructor (sharedArrayBuffer : bool) (scene : gmap ObjRef Object3D)
  : World :=
  {| this :=
       {| bodyHelpers := []; shapeHelpers := []; bodyUuids := [];
          uuidToIndex := ∅; indexToUuid := ∅; object3Ds := ∅;
          bodyOptions := ∅; bodyLinearVelocities := ∅;
          bodyAngularVelocities := ∅; shapeUuids := []; shapes := ∅;
          collisions := ∅; debugRequested := false; debugEnabled := false;
          stepDuration := zeroNum; ready := false; nextBodyUuid := 0;
          nextShapeUuid := 0; objectMatrices := []; debugMesh := None |};
     objects := scene; posted := [Post_INIT]; warnings := [];
     init2Calls := []; hasSharedArrayBuffer := sharedArrayBuffer;
     debugIndex := 0 |}.

(** [if (helper.alive) helper.init2()] over a queue.  [init2] belongs to the
    helper's component: the call is recorded, and what the component then
    asks of the system are method calls of their own. *)
Definition init2Alive (helpers : list Helper) (w : World) : World :=
  set_init2Calls
    (init2Calls w ++ (helper_id <$> filter (fun h => alive h = true) helpers)) w.

(** [this.ammoWorker.onmessage]. *)
Definition onmessage (data : Message) (w : World) : Completion World :=
  match data with
  | READY =>
      let w := update_this (set_ready true) w in
      let w := init2Alive (bodyHelpers (this w)) w in
      let w := init2Alive (shapeHelpers (this w)) w in
      let w := update_this (set_shapeHelpers []) w in
      Normal (update_this (set_bodyHelpers []) w)
  | BODY_READY uuid index =>
      let w := update_this (fun s => set_bodyUuids (bodyUuids s ++ [uuid]) s) w in
      let w := update_this
                 (fun s => set_uuidToIndex (<[KeyNum uuid := index]> (uuidToIndex s)) s) w in
      Normal (update_this
                (fun s => set_indexToUuid (<[KeyNum index := uuid]> (indexToUuid s)) s) w)
  | SHAPES_READY bodyUuid shapesUuid =>
      match shapes (this w) !! KeyNum bodyUuid with
      | Some l =>
          Normal (update_this
                    (fun s => set_shapes (<[KeyNum bodyUuid := l ++ [shapesUuid]]> (shapes s)) s) w)
      | None => Throw TypeError w
      end
  | TRANSFER_DATA array duration =>
      let w := update_this (set_objectMatrices array) w in
      Normal (update_this (set_stepDuration duration) w)
  | OTHER => Normal w
  end.

(** ** Debug rendering *)

Definition setDebug (debug : bool) (w : World) : World :=
  update_this (set_debugRequested debug) w.

Definition newDebugMesh : DebugMesh :=
  {| attached := false; drawCount := None;
     positionNeedsUpdate := false; colorNeedsUpdate := false |}.

Definition set_attached (b : bool) (m : DebugMesh) : DebugMesh :=
  {| attached := b; drawCount := drawCount m;
     positionNeedsUpdate := positionNeedsUpdate m;
     colorNeedsUpdate := colorNeedsUpdate m |}.

Definition warnNoSharedArrayBuffer : string :=
  "Physics debug rendering only available in browsers that support SharedArrayBuffers.".

Definition enableDebug (w : World) : World :=
  if hasSharedArrayBuffer w then
    let w := update_this (set_debugEnabled true) w in
    let w :=
      match debugMesh (this w) with
      | Some _ => w
      | None => set_debugIndex 0 (update_this (set_debugMesh (Some newDebugMesh)) w)
      end in
    match debugMesh (this w) with
    | Some m =>
        if attached m then w
        else postMessage (Post_SET_DEBUG true)
               (update_this (set_debugMesh (Some (set_attached true m))) w)
    | None => w
    end
  else
    update_this (set_debugRequested false)
      (set_warnings (warnings w ++ [warnNoSharedArrayBuffer]) w).

Definition disableDebug (w : World) : World :=
  let w := update_this (set_debugEnabled false) w in
  match debugMesh (this w) with
  | Some m =>
      postMessage (Post_SET_DEBUG false)
        (update_this (set_debugMesh (Some (set_attached false m))) w)
  | None => w
  end.

(** ** The tick *)

(** Lines 164-169: for a body of type DYNAMIC the transform of its slot is
    brought into the space of the object's parent and decomposed into the
    object's position and quaternion; the decomposed scale is dropped. *)
Definition applySimulationTransform (object3D : option ObjRef)
    (offset : option Z) (w : World) : Completion World :=
  let matrix := fromArray (objectMatrices (this w)) offset in
  match deref (objects w) object3D with
  | None => Throw TypeError w
  | Some (r, o) =>
      match deref (objects w) (parent o) with
      | None => Throw TypeError w
      | Some (_, p) =>
          let inverse := getInverse (matrixWorld p) in
          let transform := multiplyMatrices inverse matrix in
          let '(pos, quat, _) := decompose transform in
          Normal (set_objects (<[r := set_pose pos quat o]> (objects w)) w)
      end
  end.

(** Lines 171-172: recompute the world matrix and store it in the slot. *)
Definition writeWorldTransform (object3D : option ObjRef)
    (offset : option Z) (w : World) : Completion World :=
  match deref (objects w) object3D with
  | None => Throw TypeError w
  | Some (r, _) =>
      let w := set_objects (updateMatrices r (objects w)) w in
      match deref (objects w) (Some r) with
      | None => Throw TypeError w
      | Some (_, o) =>
          match float32Set (objectMatrices (this w)) (matrixWorld o) offset with
          | None => Throw RangeError w
          | Some buffer => Normal (update_this (set_objectMatrices buffer) w)
          end
      end
  end.

(** Lines 174-183: refresh the cached velocities that are tracked. *)
Definition readVelocities (uuid : Z) (offset : option Z) (w : World) : World :=
  let w :=
    if decide (is_Some (bodyLinearVelocities (this w) !! KeyNum uuid)) then
      update_this
        (fun s => set_bodyLinearVelocities
                    (<[KeyNum uuid := floatAt (objectMatrices s) (plusOffset offset 16)]>
                       (bodyLinearVelocities s)) s) w
    else w in
  if decide (is_Some (bodyAngularVelocities (this w) !! KeyNum uuid)) then
    update_this
      (fun s => set_bodyAngularVelocities
                  (<[KeyNum uuid := floatAt (objectMatrices s) (plusOffset offset 17)]>
                     (bodyAngularVelocities s)) s) w
  else w.

(** Lines 187-192: the entries [j = 18 .. BODY_DATA_SIZE - 1] of the slot,
    read through the integer view; each entry other than -1 pushes
    [indexToUuid[collidingIndex]], which is [undefined] ([None]) when the
    index has no handle. *)
Definition scanCollisions (buffer : list Z) (offset : option Z)
    (indexToUuid : gmap PropKey Z) : list (option Z) :=
  flat_map
    (fun j =>
       let collidingIndex := intAt buffer (plusOffset offset j) in
       if decide (collidingIndex <> Some (-1))
       then [indexToUuid !! toPropertyKey collidingIndex]
       else [])
    (seqZ 18 (BODY_DATA_SIZE - 18)).

(** Lines 185-192. *)
Definition rebuildCollisions (uuid : Z) (offset : option Z) (w : World)
  : Completion World :=
  match collisions (this w) !! KeyNum uuid with
  | None => Throw TypeError w
  | Some _ =>
      Normal (update_this
                (fun s => set_collisions
                            (<[KeyNum uuid :=
                                 scanCollisions (objectMatrices s) offset (indexToUuid s)]>
                               (collisions s)) s) w)
  end.

(** One iteration of the loop over [bodyUuids], lines 160-192. *)
Definition tickBody (uuid : Z) (w : World) : Completion World :=
  let index := uuidToIndex (this w) !! KeyNum uuid in
  let offset := slotOffset index in
  match bodyOptions (this w) !! KeyNum uuid with
  | None => Throw TypeError w
  | Some options =>
      let type := default DYNAMIC (type options) in
      let object3D := object3Ds (this w) !! KeyNum uuid in
      let! w := (if decide (type = DYNAMIC)
                 then applySimulationTransform object3D offset w
                 else Normal w) in
      let! w := writeWorldTransform object3D offset w in
      rebuildCollisions uuid offset (readVelocities uuid offset w)
  end.

Fixpoint tickBodies (uuids : list Z) (w : World) : Completion World :=
  match uuids with
  | [] => Normal w
  | uuid :: rest => let! w := tickBody uuid w in tickBodies rest w
  end.

(** Lines 195-198: post the buffer and transfer it, which detaches it. *)
Definition transferBuffer (w : World) : World :=
  update_this (set_objectMatrices [])
    (postMessage (Post_TRANSFER_DATA (objectMatrices (this w))) w).

Definition set_drawn (count : Z) (dirty : bool) (m : DebugMesh) : DebugMesh :=
  {| attached := attached m; drawCount := Some count;
     positionNeedsUpdate := if dirty then true else positionNeedsUpdate m;
     colorNeedsUpdate := if dirty then true else colorNeedsUpdate m |}.

(** Lines 202-210. *)
Definition debugRendering (w : World) : Completion World :=
  if debugEnabled (this w) then
    match debugMesh (this w) with
    | None => Throw TypeError w
    | Some m =>
        let index := debugIndex w in
        Normal (set_debugIndex 0
                  (update_this
                     (set_debugMesh (Some (set_drawn index (bool_decide (index <> 0)) m))) w))
    end
  else Normal w.

(** Lines 142-148. *)
Definition syncDebug (w : World) : World :=
  if decide (debugRequested (this w) <> debugEnabled (this w)) then
    if debugRequested (this w) then enableDebug w else disableDebug w
  else w.

(** Lines 158-199. *)
Definition exchangeBuffer (w : World) : Completion World :=
  if decide (byteLength (objectMatrices (this w)) <> 0)
  then let! w := tickBodies (bodyUuids (this w)) w in
       Normal (transferBuffer w)
  else Normal w.

Definition tick (w : World) : Completion World :=
  if ready (this w) then
    let w := syncDebug w in
    let! w := exchangeBuffer w in
    debugRendering w
  else Normal w.

(** ** Bodies, shapes and constraints *)

Definition addBody (object3D : ObjRef) (options : BodyOptions) (w : World)
  : Z * World :=
  let uuid := nextBodyUuid (this w) in
  let w := postMessage (Post_ADD_BODY uuid) w in
  let w := update_this (fun s => set_object3Ds (<[KeyNum uuid := object3D]> (object3Ds s)) s) w in
  let w := update_this (fun s => set_bodyOptions (<[KeyNum uuid := options]> (bodyOptions s)) s) w in
  let w := update_this (fun s => set_collisions (<[KeyNum uuid := []]> (collisions s)) s) w in
  let w := update_this
             (fun s => set_bodyLinearVelocities
                         (<[KeyNum uuid := zeroNum]> (bodyLinearVelocities s)) s) w in
  let w := update_this
             (fun s => set_bodyAngularVelocities
                         (<[KeyNum uuid := zeroNum]> (bodyAngularVelocities s)) s) w in
  (uuid, update_this (set_nextBodyUuid (uuid + 1)) w).

Definition updateBody (uuid : Z) (options : BodyOptions) (w : World) : World :=
  let w := update_this (fun s => set_bodyOptions (<[KeyNum uuid := options]> (bodyOptions s)) s) w in
  postMessage (Post_UPDATE_BODY uuid) w.

(** Array.prototype.indexOf; [None] is -1. *)
Fixpoint indexOf (x : Z) (l : list Z) : option nat :=
  match l with
  | [] => None
  | y :: l' => if decide (y = x) then Some O else S <$> indexOf x l'
  end.

(** [l.splice(idx, 1)]. *)
Definition splice1 (idx : nat) (l : list Z) : list Z :=
  take idx l ++ drop (S idx) l.

Definition removeAt (idx : option nat) (l : list Z) : list Z :=
  match idx with
  | Some i => splice1 i l
  | None => l
  end.

Definition removeBody (uuid : Z) (w : World) : World :=
  let w := update_this
             (fun s => set_indexToUuid
                         (delete (toPropertyKey (uuidToIndex s !! KeyNum uuid))
                            (indexToUuid s)) s) w in
  let w := update_this (fun s => set_uuidToIndex (delete (KeyNum uuid) (uuidToIndex s)) s) w in
  let w := update_this (fun s => set_object3Ds (delete (KeyNum uuid) (object3Ds s)) s) w in
  let w := update_this (fun s => set_bodyOptions (delete (KeyNum uuid) (bodyOptions s)) s) w in
  let w := update_this (fun s => set_collisions (delete (KeyNum uuid) (collisions s)) s) w in
  let w := update_this
             (fun s => set_bodyLinearVelocities
                         (delete (KeyNum uuid) (bodyLinearVelocities s)) s) w in
  let w := update_this
             (fun s => set_bodyAngularVelocities
                         (delete (KeyNum uuid) (bodyAngularVelocities s)) s) w in
  let w := update_this
             (fun s => set_bodyUuids (removeAt (indexOf uuid (bodyUuids s)) (bodyUuids s)) s) w in
  postMessage (Post_REMOVE_BODY uuid) w.

Definition addShapes (bodyUuid : Z) (w : World) : Z * World :=
  let uuid := nextShapeUuid (this w) in
  let w := postMessage (Post_ADD_SHAPES bodyUuid uuid) w in
  let w :=
    match shapes (this w) !! KeyNum bodyUuid with
    | Some _ => w
    | None => update_this (fun s => set_shapes (<[KeyNum bodyUuid := []]> (shapes s)) s) w
    end in
  let w :=
    update_this
      (fun s => set_shapes
                  (<[KeyNum bodyUuid := default [] (shapes s !! KeyNum bodyUuid) ++ [uuid]]>
                     (shapes s)) s) w in
  (uuid, update_this (set_nextShapeUuid (uuid + 1)) w).

(** Line 260 tests [this.shapes.bodyUuid], the property whose name is the
    word bodyUuid, and not [this.shapes[bodyUuid]]. *)
Definition removeShapes (bodyUuid shapesUuid : Z) (w : World) : Completion World :=
  let w := postMessage (Post_REMOVE_SHAPES bodyUuid shapesUuid) w in
  match shapes (this w) !! KeyName "bodyUuid" with
  | Some _ =>
      match shapes (this w) !! KeyNum bodyUuid with
      | None => Throw TypeError w
      | Some l =>
          Normal (update_this
                    (fun s => set_shapes
                                (<[KeyNum bodyUuid := removeAt (indexOf shapesUuid l) l]>
                                   (shapes s)) s) w)
      end
  | None => Normal w
  end.

Definition addConstraint (constraintId bodyUuid targetUuid : Z) (w : World) : World :=
  postMessage (Post_ADD_CONSTRAINT constraintId bodyUuid targetUuid) w.

Definition removeConstraint (constraintId : Z) (w : World) : World :=
  postMessage (Post_REMOVE_CONSTRAINT constraintId) w.

Definition registerBodyHelper (bodyHelper : Helper) (w : World) : World :=
  if ready (this w) then set_init2Calls (init2Calls w ++ [helper_id bodyHelper]) w
  else update_this (fun s => set_bodyHelpers (bodyHelpers s ++ [bodyHelper]) s) w.

Definition registerShapeHelper (shapeHelper : Helper) (w : World) : World :=
  if ready (this w) then set_init2Calls (init2Calls w ++ [helper_id shapeHelper]) w
  else update_this (fun s => set_shapeHelpers (shapeHelpers s ++ [shapeHelper]) s) w.

(** [!!this.uuidToIndex[uuid]]: a number is truthy when it is not 0, and
    [undefined] is falsy. *)
Definition bodyInitialized (uuid : Z) (w : World) : bool :=
  match uuidToIndex (this w) !! KeyNum uuid with
  | Some index => bool_decide (index <> 0)
  | None => false
  end.

Definition getLinearVelocity (uuid : Z) (w : World) : option Num :=
  bodyLinearVelocities (this w) !! KeyNum uuid.

Definition getAngularVelocity (uuid : Z) (w : World) : option Num :=
  bodyAngularVelocities (this w) !! KeyNum uuid.

Definition resetDynamicBody (uuid : Z) (w : World) : World :=
  postMessage (Post_RESET_DYNAMIC_BODY uuid) w.

Definition activateBody (uuid : Z) (w : World) : World :=
  postMessage (Post_ACTIVATE_BODY uuid) w.

(** ** Properties stated by the specification *)

(** The registry calls of the specification: [bind] is the arrival of
    BODY_READY, [unbind] is [removeBody]. *)
Inductive RegistryCall : Type :=
  | Bind (uuid index : Z)
  | Unbind (uuid : Z).

Definition registryStep (c : RegistryCall) (w : World) : World :=
  match c with
  | Bind uuid index => worldOf (onmessage (BODY_READY uuid index) w)
  | Unbind uuid => removeBody uuid w
  end.

Definition registryRun (cs : list RegistryCall) (w : World) : World :=
  foldl (fun w c => registryStep c w) w cs.

(** Every [Bind] of the sequence meets a handle and a slot that are both
    unbound when it arrives. *)
Fixpoint freshBinds (cs : list RegistryCall) (w : World) : bool :=
  match cs with
  | [] => true
  | c :: cs' =>
      match c with
      | Bind uuid index =>
          bool_decide (uuidToIndex (this w) !! KeyNum uuid = None)
          && bool_decide (indexToUuid (this w) !! KeyNum index = None)
      | Unbind _ => true
      end && freshBinds cs' (registryStep c w)
  end.

(** The two maps are inverse to each other. *)
Definition mutuallyInverse (s : PhysicsSystem) : Prop :=
  forall uuid index : Z,
    uuidToIndex s !! KeyNum uuid = Some index <->
    indexToUuid s !! KeyNum index = Some uuid.

(** A live handle resolved to its slot and back is the same handle. *)
Definition handlesRoundTrip (s : PhysicsSystem) : Prop :=
  forall uuid index : Z,
    uuid ∈ bodyUuids s ->
    uuidToIndex s !! KeyNum uuid = Some index ->
    indexToUuid s !! KeyNum index = Some uuid.

(** No two handles of the live body list resolve to the same slot. *)
Definition slotsDistinct (s : PhysicsSystem) : Prop :=
  forall u1 u2 index : Z,
    u1 ∈ bodyUuids s -> u2 ∈ bodyUuids s ->
    uuidToIndex s !! KeyNum u1 = Some index ->
    uuidToIndex s !! KeyNum u2 = Some index -> u1 = u2.

(** The live body list holds exactly the bound handles, each once. *)
Definition liveListExact (s : PhysicsSystem) : Prop :=
  NoDup (bodyUuids s) /\
  forall uuid : Z, uuid ∈ bodyUuids s <-> is_Some (uuidToIndex s !! KeyNum uuid).

(** Both maps have numeric keys only. *)
Definition numericKeys (s : PhysicsSystem) : Prop :=
  forall name : string,
    uuidToIndex s !! KeyName name = None /\ indexToUuid s !! KeyName name = None.

(** The invariant of the registry under the protocol. *)
Definition registryConsistent (s : PhysicsSystem) : Prop :=
  mutuallyInverse s /\ liveListExact s /\ numericKeys s.

(** The collision scan as the specification words it: the entries of the
    field in order, halting at the first sentinel, keeping the handle of
    each entry whose slot is bound and skipping a stale one. *)
Fixpoint specScan (entries : list Z) (indexToUuid : gmap PropKey Z) : list Z :=
  match entries with
  | [] => []
  | e :: rest =>
      if decide (e = -1) then []
      else match indexToUuid !! KeyNum e with
           | Some uuid => uuid :: specScan rest indexToUuid
           | None => specScan rest indexToUuid
           end
  end.

(** What one entry of the collision field contributes to the list, given
    as the value read (lines 189-191). *)
Definition pushed (indexToUuid : gmap PropKey Z) (collidingIndex : option Z)
  : list (option Z) :=
  if decide (collidingIndex <> Some (-1))
  then [indexToUuid !! toPropertyKey collidingIndex]
  else [].

(** The collision field of a slot, read through the integer view. *)
Definition collisionField (buffer : list Z) (index : Z) : list Z :=
  toInt32 <$> take (Z.to_nat (BODY_DATA_SIZE - 18))
                (drop (Z.to_nat (index * BODY_DATA_SIZE + 18)) buffer).


Definition poseOf (o : Object3D) : Vector3 * Quaternion :=
  (position o, quaternion o).

(** What [updateMatrices] must not touch. *)
Definition placement (o : Object3D) :=
  (position o, quaternion o, scale o, parent o).

Definition isTransfer (m : Posted) : bool :=
  match m with
  | Post_TRANSFER_DATA _ => true
  | _ => false
  end.

Definition isSetDebug (m : Posted) : bool :=
  match m with
  | Post_SET_DEBUG _ => true
  | _ => false
  end.

(** What the loop over the bodies works on: the transfer buffer, the
    collision lists, the cached velocities and the scene objects. *)
Definition simulationState (w : World) :=
  (objectMatrices (this w), collisions (this w),
   bodyLinearVelocities (this w), bodyAngularVelocities (this w), objects w).

(** The world with the fields of [simulationState] blanked and the
    TRANSFER_DATA messages dropped: what the exchange of the buffer must
    leave alone. *)
Definition outsideSimulation (w : World) : World :=
  set_objects ∅
    (set_posted (filter (fun m => isTransfer m = false) (posted w))
       (update_this
          (fun s => set_objectMatrices []
                      (set_collisions ∅
                         (set_bodyLinearVelocities ∅
                            (set_bodyAngularVelocities ∅ s)))) w)).

(** The debug state: the flag, the mesh, the SET_DEBUG messages posted
    and the warnings. *)
Definition debugState (w : World) :=
  (debugEnabled (this w), debugMesh (this w),
   filter (fun m => isSetDebug m = true) (posted w), warnings w).

Definition mapCompletion {A} (f : A -> A) (c : Completion A) : Completion A :=
  match c with
  | Normal a => Normal (f a)
  | Throw e a => Throw e (f a)
  end.

(** The world after the downgrade of a debug request (lines 97-99). *)
Definition downgraded (w : World) : World :=
  update_this (set_debugRequested false)
    (set_warnings (warnings w ++ [warnNoSharedArrayBuffer]) w).

(** ** Sessions *)

(** What happens to the system from outside: a message from the worker, a
    method call, or a step of its surroundings (the application moves
    scene objects, the worker advances the debug cursor).  A method that
    throws leaves the system as it was at the throw, and the session goes
    on. *)
Inductive Call : Type :=
  | Receive (data : Message)
  | Tick
  | SetDebug (debug : bool)
  | EnableDebug
  | DisableDebug
  | AddBody (object3D : ObjRef) (options : BodyOptions)
  | UpdateBody (uuid : Z) (options : BodyOptions)
  | RemoveBody (uuid : Z)
  | AddShapes (bodyUuid : Z)
  | RemoveShapes (bodyUuid shapesUuid : Z)
  | AddConstraint (constraintId bodyUuid targetUuid : Z)
  | RemoveConstraint (constraintId : Z)
  | RegisterBodyHelper (bodyHelper : Helper)
  | RegisterShapeHelper (shapeHelper : Helper)
  | ResetDynamicBody (uuid : Z)
  | ActivateBody (uuid : Z)
  | SceneChanges (scene : gmap ObjRef Object3D)
  | WorkerDraws (cursor : Z).

Definition call (c : Call) (w : World) : World :=
  match c with
  | Receive data => worldOf (onmessage data w)
  | Tick => worldOf (tick w)
  | SetDebug debug => setDebug debug w
  | EnableDebug => enableDebug w
  | DisableDebug => disableDebug w
  | AddBody object3D options => (addBody object3D options w).2
  | UpdateBody uuid options => updateBody uuid options w
  | RemoveBody uuid => removeBody uuid w
  | AddShapes bodyUuid => (addShapes bodyUuid w).2
  | RemoveShapes bodyUuid shapesUuid => worldOf (removeShapes bodyUuid shapesUuid w)
  | AddConstraint constraintId bodyUuid targetUuid =>
      addConstraint constraintId bodyUuid targetUuid w
  | RemoveConstraint constraintId => removeConstraint constraintId w
  | RegisterBodyHelper bodyHelper => registerBodyHelper bodyHelper w
  | RegisterShapeHelper shapeHelper => registerShapeHelper shapeHelper w
  | ResetDynamicBody uuid => resetDynamicBody uuid w
  | ActivateBody uuid => activateBody uuid w
  | SceneChanges scene => set_objects scene w
  | WorkerDraws cursor => set_debugIndex cursor w
  end.

(** The system after a sequence of calls on a fresh instance. *)
Definition session (sharedArrayBuffer : bool) (scene : gmap ObjRef Object3D)
    (cs : list Call) : World :=
  foldl (fun w c => call c w) (constructor sharedArrayBuffer scene) cs.

Definition deliversBuffer (c : Call) : bool :=
  match c with
  | Receive (TRANSFER_DATA _ _) => true
  | _ => false
  end.

(** Buffers received from the worker, posted to it, and held (0 or 1). *)
Definition buffersReceived (cs : list Call) : nat :=
  length (filter (fun c => deliversBuffer c = true) cs).

Definition buffersPosted (w : World) : nat :=
  length (filter (fun m => isTransfer m = true) (posted w)).

Definition buffersHeld (w : World) : nat :=
  if decide (byteLength (objectMatrices (this w)) = 0) then 0%nat else 1%nat.

(** The fields that only the lifecycle methods and the message handler
    write. *)
Definition controlState (w : World) :=
  (bodyHelpers (this w), shapeHelpers (this w), bodyUuids (this w),
   uuidToIndex (this w), indexToUuid (this w), object3Ds (this w),
   bodyOptions (this w), shapes (this w), ready (this w),
   nextBodyUuid (this w), nextShapeUuid (this w), init2Calls w,
   hasSharedArrayBuffer w).

(** No map keyed by handles or slots has a key that is a name. *)
Definition namesAbsent (w : World) : Prop :=
  forall name : string,
    uuidToIndex (this w) !! KeyName name = None /\
    indexToUuid (this w) !! KeyName name = None /\
    shapes (this w) !! KeyName name = None.

(** No body is registered under a handle that [addBody] has yet to
    issue. *)
Definition handlesFresh (w : World) : Prop :=
  forall h : Z,
    nextBodyUuid (this w) <= h ->
    object3Ds (this w) !! KeyNum h = None /\
    collisions (this w) !! KeyNum h = None /\
    bodyLinearVelocities (this w) !! KeyNum h = None /\
    bodyAngularVelocities (this w) !! KeyNum h = None.

(** Debug rendering is on only with the debug mesh in the scene. *)
Definition debugMeshReady (w : World) : Prop :=
  debugEnabled (this w) = true ->
  exists m, debugMesh (this w) = Some m /\ attached m = true.

End Model.

(** ** A concrete platform for running the scenarios

    Numbers are exact integers ([None] is [undefined] or NaN, which absorb
    arithmetic), stored in the buffer as two's-complement words.  Matrices
    are multiplied as THREE does (column-major); the inverse is the one of
    a rigid motion, and an orientation is kept as the rotation block.  The
    theorems below do not depend on this choice: they hold for every
    instance of [THREE]. *)
Module IntegerModel.

Definition num : Type := option Z.

Definition lift2 (f : Z -> Z -> Z) (a b : num) : num :=
  match a, b with
  | Some x, Some y => Some (f x y)
  | _, _ => None
  end.

Definition el (m : list num) (i : nat) : num := mjoin (m !! i).

Definition sum4 (f : nat -> num) : num :=
  lift2 Z.add (lift2 Z.add (f 0%nat) (f 1%nat)) (lift2 Z.add (f 2%nat) (f 3%nat)).

Definition mul (a b : list num) : list num :=
  (fun n => let i := (n mod 4)%nat in
            let j := (n / 4)%nat in
            sum4 (fun k => lift2 Z.mul (el a (i + 4 * k)) (el b (k + 4 * j))))
    <$> seq 0 16.

Definition rigidInverse (m : list num) : list num :=
  (fun n => let i := (n mod 4)%nat in
            let j := (n / 4)%nat in
            if decide (i = 3)%nat then Some (if decide (j = 3)%nat then 1 else 0)
            else if decide (j = 3)%nat then
              lift2 Z.sub (Some 0)
                (lift2 Z.add
                   (lift2 Z.add (lift2 Z.mul (el m (4 * i)) (el m 12))
                      (lift2 Z.mul (el m (1 + 4 * i)) (el m 13)))
                   (lift2 Z.mul (el m (2 + 4 * i)) (el m 14)))
            else el m (j + 4 * i))
    <$> seq 0 16.

Definition vec : Type := num * num * num.

Definition split (m : list num) : vec * list num * vec :=
  ((el m 12, el m 13, el m 14),
   (fun n => el m (n mod 3 + 4 * (n / 3))) <$> seq 0 9,
   (Some 1, Some 1, Some 1)).

Definition join (p : vec) (q : list num) (s : vec) : list num :=
  (fun n => let i := (n mod 4)%nat in
            let j := (n / 4)%nat in
            if decide (i = 3)%nat then Some (if decide (j = 3)%nat then 1 else 0)
            else if decide (j = 3)%nat then
              match i with
              | O => p.1.1
              | S O => p.1.2
              | _ => p.2
              end
            else lift2 Z.mul (el q (i + 3 * j))
                   (match j with
                    | O => s.1.1
                    | S O => s.1.2
                    | _ => s.2
                    end))
    <$> seq 0 16.

Definition encode (x : num) : Z :=
  match x with
  | Some n => n mod 2 ^ 32
  | None => 2143289344
  end.

#[export] Instance three : THREE := {|
  Num := num;
  undefinedNum := None;
  zeroNum := Some 0;
  decodeFloat32 := fun w => Some (toInt32 w);
  encodeFloat32 := encode;
  Vector3 := vec;
  Quaternion := list num;
  compose := join;
  decompose := split;
  getInverse := rigidInverse;
  multiplyMatrices := mul
|}.

#[export] Instance cfg : BUFFER_CONFIG := {|
  BODY_DATA_SIZE := 26;
  MAX_BODIES := 8
|}.

Definition identity : list num :=
  (fun n => Some (if decide (n mod 5 = 0)%nat then 1 else 0)) <$> seq 0 16.

Definition translation (x y z : Z) : list num :=
  join (Some x, Some y, Some z) (split identity).1.2 (Some 1, Some 1, Some 1).

(** A scene: the root [1] with the identity world transform and eight
    children [2 .. 9] at the origin. *)
Definition root : Object3D :=
  {| position := (Some 0, Some 0, Some 0); quaternion := (split identity).1.2;
     scale := (Some 1, Some 1, Some 1); matrix := identity;
     matrixWorld := identity; parent := None |}.

Definition child : Object3D :=
  {| position := (Some 0, Some 0, Some 0); quaternion := (split identity).1.2;
     scale := (Some 1, Some 1, Some 1); matrix := identity;
     matrixWorld := identity; parent := Some 1%positive |}.

Definition scene : gmap ObjRef Object3D :=
  <[1%positive := root]>
    (list_to_map ((fun i => (Pos.of_nat (i + 2), child)) <$> seq 0 8)).

(** A buffer of [MAX_BODIES] slots, all zero but for slot 3, which holds
    the given transform and collision entries. *)
Definition slot (m : list num) (coll : list Z) : list Z :=
  (encode <$> m) ++ [0; 0] ++ ((fun c => c mod 2 ^ 32) <$> coll).

Definition bufferWithSlot3 (m : list num) (coll : list Z) : list Z :=
  replicate 78 0 ++ slot m coll ++ replicate 104 0.

Definition noCollisions : list Z := replicate 8 (-1).

(** The system after READY, with [n] bodies of the given type added, body
    [i] for the child [i + 2]. *)
Definition started (n : nat) (t : option BodyType) : World :=
  foldl (fun w i => (addBody (Pos.of_nat (i + 2)) {| type := t |} w).2)
    (worldOf (onmessage READY (constructor false scene))) (seq 0 n).

(** Eight bodies added, handle 7 acknowledged at slot 3, and the buffer
    received back from the worker. *)
Definition scenario1 (t : option BodyType) (m : list num) : World :=
  worldOf (onmessage (TRANSFER_DATA (bufferWithSlot3 m noCollisions) (Some 16))
             (worldOf (onmessage (BODY_READY 7 3) (started 8 t)))).

(** As before, with handle 5 acknowledged at slot 5 and the given
    collision entries in slot 3. *)
Definition scenario2 (coll : list Z) : World :=
  worldOf (onmessage (TRANSFER_DATA (bufferWithSlot3 identity coll) (Some 16))
             (worldOf (onmessage (BODY_READY 5 5)
                (worldOf (onmessage (BODY_READY 7 3) (started 8 (Some KINEMATIC))))))).

(** A body added and removed before its BODY_READY arrives. *)
Definition scenario5 : World :=
  worldOf (onmessage (TRANSFER_DATA (bufferWithSlot3 identity noCollisions) (Some 16))
             (worldOf (onmessage (BODY_READY 0 3) (removeBody 0 (started 1 None))))).

Definition dynamicWorld : World := scenario1 None (translation 1 2 3).


Definition collidingWorld : World := scenario2 (5 :: replicate 7 (-1)).

Definition leadingSentinelWorld : World :=
  scenario2 (-1 :: 5 :: replicate 6 (-1)).

Definition staleEntryWorld : World := scenario2 (9 :: replicate 7 (-1)).

(** A registry sequence that reuses slot 3 after its handle is removed,
    and one that binds slot 0 twice. *)
Definition reuseSequence : list RegistryCall :=
  [Bind 0 3; Bind 1 0; Unbind 0; Bind 2 3].

Definition clashSequence : list RegistryCall := [Bind 1 0; Bind 2 0].

Definition clashed : PhysicsSystem :=
  this (registryRun clashSequence (constructor false scene)).

(** A ready system whose buffer is still with the worker. *)
Definition waitingWorld : World :=
  worldOf (onmessage (BODY_READY 0 3) (started 1 None)).

(** Two bodies added, and the worker acknowledging handle 1 twice. *)
Definition doublyAcknowledged : World :=
  worldOf (onmessage (BODY_READY 1 3)
             (worldOf (onmessage (BODY_READY 1 3) (started 2 None)))).

Definition freshWorld : World := constructor true scene.

Definition readyWorld : World := worldOf (onmessage READY freshWorld).

(** A ready system with shared memory after the tick that carries out a
    debug request, and the same once the worker has drawn 12 vertices. *)
Definition debuggingWorld : World := worldOf (tick (setDebug true readyWorld)).

Definition drawingWorld : World := set_debugIndex 12 debuggingWorld.

Definition drawnMesh : DebugMesh :=
  {| attached := true; drawCount := Some 0;
     positionNeedsUpdate := false; colorNeedsUpdate := false |}.

(** A buffer of [MAX_BODIES] slots, all zero. *)
Definition emptyBuffer : list Z := replicate 208 0.

Definition aliveHelper : Helper := {| helper_id := 1; alive := true |}.

(** A session that turns debug rendering on and draws twice. *)
Definition debugSession : list Call :=
  [Receive READY; SetDebug true; Tick; WorkerDraws 12; Tick].

End IntegerModel.

Set Warnings "-clear-no-such-hyp".

(** * Proofs *)

Section Registry.
Context {three : THREE} {cfg : BUFFER_CONFIG}.

(** ** [indexOf] and [splice] *)

Lemma indexOf_None (x : Z) (l : list Z) : indexOf x l = None <-> x ∉ l.
Proof.
  induction l as [|y l IH]; cbn.
  - split; [intros _; apply not_elem_of_nil | done].
  - case_decide as Hy.
    + subst. split; [done | intros []; left].
    + rewrite fmap_None, IH, not_elem_of_cons. naive_solver.
Qed.

Lemma removeAt_absent (x : Z) (l : list Z) : x ∉ l -> removeAt (indexOf x l) l = l.
Proof. intros H. apply indexOf_None in H. by rewrite H. Qed.

(** Removing the first occurrence, as a recursion on the list. *)
Lemma removeAt_cons (x y : Z) (l : list Z) :
  removeAt (indexOf x (y :: l)) (y :: l) =
  if decide (y = x) then l else y :: removeAt (indexOf x l) l.
Proof.
  cbn. case_decide; [done |].
  destruct (indexOf x l); done.
Qed.

Lemma elem_of_removeAt (x y : Z) (l : list Z) :
  NoDup l -> y ∈ removeAt (indexOf x l) l <-> y ∈ l /\ y <> x.
Proof.
  induction l as [|z l IH]; intros Hnd.
  - cbn. split; [intros H; by apply elem_of_nil in H | intros [H _]; done].
  - rewrite removeAt_cons. apply NoDup_cons in Hnd as [Hz Hnd].
    case_decide as Hzx.
    + subst z. rewrite elem_of_cons. split.
      * intros H. split; [by right | intros ->; done].
      * intros [[->|H] Hne]; done.
    + rewrite !elem_of_cons, IH by done. naive_solver.
Qed.

Lemma NoDup_removeAt (x : Z) (l : list Z) :
  NoDup l -> NoDup (removeAt (indexOf x l) l).
Proof.
  induction l as [|z l IH]; intros Hnd; [done |].
  rewrite removeAt_cons. apply NoDup_cons in Hnd as [Hz Hnd].
  case_decide; [done |].
  apply NoDup_cons. split; [| by apply IH].
  rewrite elem_of_removeAt by done. naive_solver.
Qed.

(** ** What [removeBody] and BODY_READY do to the registry *)

Lemma removeBody_uuidToIndex (uuid : Z) (w : World) :
  uuidToIndex (this (removeBody uuid w)) = delete (KeyNum uuid) (uuidToIndex (this w)).
Proof. done. Qed.

Lemma removeBody_indexToUuid (uuid : Z) (w : World) :
  indexToUuid (this (removeBody uuid w)) =
  delete (toPropertyKey (uuidToIndex (this w) !! KeyNum uuid)) (indexToUuid (this w)).
Proof. done. Qed.

Lemma removeBody_bodyUuids (uuid : Z) (w : World) :
  bodyUuids (this (removeBody uuid w)) =
  removeAt (indexOf uuid (bodyUuids (this w))) (bodyUuids (this w)).
Proof. done. Qed.

Lemma BODY_READY_world (uuid index : Z) (w : World) :
  exists w', onmessage (BODY_READY uuid index) w = Normal w' /\
    bodyUuids (this w') = bodyUuids (this w) ++ [uuid] /\
    uuidToIndex (this w') = <[KeyNum uuid := index]> (uuidToIndex (this w)) /\
    indexToUuid (this w') = <[KeyNum index := uuid]> (indexToUuid (this w)) /\
    bodyOptions (this w') = bodyOptions (this w) /\
    object3Ds (this w') = object3Ds (this w) /\
    collisions (this w') = collisions (this w).
Proof. eexists. split; [reflexivity |]. by repeat split. Qed.

Lemma constructor_consistent (sab : bool) (scene : gmap ObjRef Object3D) :
  registryConsistent (this (constructor sab scene)).
Proof.
  repeat split; cbn; try done.
  - apply NoDup_nil_2.
  - intros H. by apply elem_of_nil in H.
  - intros [? H]. done.
Qed.

Lemma removeBody_consistent (uuid : Z) (w : World) :
  registryConsistent (this w) -> registryConsistent (this (removeBody uuid w)).
Proof.
  intros (Hinv & [Hnd Hlive] & Hkeys).
  split; [| split; [split |]].
  - intros h i. rewrite removeBody_uuidToIndex, removeBody_indexToUuid.
    destruct (uuidToIndex (this w) !! KeyNum uuid) as [j|] eqn:Hj; cbn.
    + rewrite !lookup_delete_Some. split.
      * intros [Hne Hh]. split; [| by apply Hinv].
        intros [= ->]. apply Hne. f_equal.
        apply Hinv in Hh, Hj. congruence.
      * intros [Hne Hi]. apply Hinv in Hi. split; [| done].
        intros [= ->]. apply Hne. f_equal. congruence.
    + rewrite (lookup_delete_ne (indexToUuid (this w))) by done.
      rewrite lookup_delete_Some. split.
      * intros [_ Hh]. by apply Hinv.
      * intros Hi. apply Hinv in Hi. split; [| done]. intros [= ->]. congruence.
  - rewrite removeBody_bodyUuids. by apply NoDup_removeAt.
  - intros h. rewrite removeBody_bodyUuids, removeBody_uuidToIndex.
    rewrite elem_of_removeAt by done. rewrite Hlive.
    unfold is_Some. setoid_rewrite lookup_delete_Some. naive_solver.
  - intros name. rewrite removeBody_uuidToIndex, removeBody_indexToUuid.
    destruct (Hkeys name) as [H1 H2].
    rewrite lookup_delete_ne by done. split; [done |].
    apply lookup_delete_None. by right.
Qed.

Lemma BODY_READY_consistent (uuid index : Z) (w : World) :
  registryConsistent (this w) ->
  uuidToIndex (this w) !! KeyNum uuid = None ->
  indexToUuid (this w) !! KeyNum index = None ->
  registryConsistent (this (worldOf (onmessage (BODY_READY uuid index) w))).
Proof.
  intros (Hinv & [Hnd Hlive] & Hkeys) Hu Hi.
  destruct (BODY_READY_world uuid index w) as (w' & -> & Hb & Hui & Hiu & _).
  cbn [worldOf]. split; [| split; [split |]].
  - intros h i. rewrite Hui, Hiu, !lookup_insert_Some. split.
    + intros [[[= ->] ->]|[Hne Hh]]; [by left |].
      right. split; [| by apply Hinv].
      intros [= ->]. apply Hinv in Hh. congruence.
    + intros [[[= ->] ->]|[Hne Hh]]; [by left |].
      right. split; [| by apply Hinv].
      intros [= ->]. apply Hinv in Hh. congruence.
  - rewrite Hb. apply NoDup_app. split; [done |]. split; [| apply NoDup_singleton].
    intros x Hx Hx'. apply list_elem_of_singleton in Hx'. subst x.
    apply Hlive in Hx as [? Hx]. congruence.
  - intros h. rewrite Hb, Hui, elem_of_app, list_elem_of_singleton, Hlive.
    unfold is_Some. setoid_rewrite lookup_insert_Some.
    destruct (decide (h = uuid)) as [->|Hne].
    { split; [intros _; exists index; by left | intros _; by right]. }
    split.
    + intros [[x Hx]|?]; [| done]. exists x. right. split; [congruence | done].
    + intros [x [[[= ?] _]|[_ Hx]]]; [done |]. left. by exists x.
  - intros name. rewrite Hui, Hiu. destruct (Hkeys name).
    by rewrite !lookup_insert_ne.
Qed.

Lemma registryRun_cons (c : RegistryCall) (cs : list RegistryCall) (w : World) :
  registryRun (c :: cs) w = registryRun cs (registryStep c w).
Proof. reflexivity. Qed.

Lemma freshBinds_cons (c : RegistryCall) (cs : list RegistryCall) (w : World) :
  freshBinds (c :: cs) w = true ->
  match c with
  | Bind uuid index =>
      uuidToIndex (this w) !! KeyNum uuid = None /\
      indexToUuid (this w) !! KeyNum index = None
  | Unbind _ => True
  end /\ freshBinds cs (registryStep c w) = true.
Proof.
  intros H. change (freshBinds (c :: cs) w) with
    (match c with
     | Bind uuid index =>
         bool_decide (uuidToIndex (this w) !! KeyNum uuid = None)
         && bool_decide (indexToUuid (this w) !! KeyNum index = None)
     | Unbind _ => true
     end && freshBinds cs (registryStep c w)) in H.
  apply andb_true_iff in H as [Hc Hcs]. split; [| done].
  destruct c; [| done].
  apply andb_true_iff in Hc as [H1 H2].
  by apply bool_decide_eq_true in H1, H2.
Qed.

Lemma registryRun_consistent (cs : list RegistryCall) (w : World) :
  registryConsistent (this w) -> freshBinds cs w = true ->
  registryConsistent (this (registryRun cs w)).
Proof.
  revert w. induction cs as [|c cs IH]; intros w Hw Hfresh; [exact Hw |].
  apply freshBinds_cons in Hfresh as [Hc Hcs].
  rewrite registryRun_cons. apply IH; [| exact Hcs].
  destruct c as [uuid index|uuid].
  - destruct Hc. by apply BODY_READY_consistent.
  - by apply removeBody_consistent.
Qed.

Lemma mutuallyInverse_slotsDistinct (s : PhysicsSystem) :
  mutuallyInverse s -> slotsDistinct s.
Proof.
  intros Hinv u1 u2 i _ _ H1 H2. apply Hinv in H1, H2. congruence.
Qed.

Lemma removeBody_this (uuid : Z) (w : World) :
  this (removeBody uuid w) =
  {| bodyHelpers := bodyHelpers (this w);
     shapeHelpers := shapeHelpers (this w);
     bodyUuids := removeAt (indexOf uuid (bodyUuids (this w))) (bodyUuids (this w));
     uuidToIndex := delete (KeyNum uuid) (uuidToIndex (this w));
     indexToUuid :=
       delete (toPropertyKey (uuidToIndex (this w) !! KeyNum uuid))
         (indexToUuid (this w));
     object3Ds := delete (KeyNum uuid) (object3Ds (this w));
     bodyOptions := delete (KeyNum uuid) (bodyOptions (this w));
     bodyLinearVelocities := delete (KeyNum uuid) (bodyLinearVelocities (this w));
     bodyAngularVelocities := delete (KeyNum uuid) (bodyAngularVelocities (this w));
     shapeUuids := shapeUuids (this w);
     shapes := shapes (this w);
     collisions := delete (KeyNum uuid) (collisions (this w));
     debugRequested := debugRequested (this w);
     debugEnabled := debugEnabled (this w);
     stepDuration := stepDuration (this w);
     ready := ready (this w);
     nextBodyUuid := nextBodyUuid (this w);
     nextShapeUuid := nextShapeUuid (this w);
     objectMatrices := objectMatrices (this w);
     debugMesh := debugMesh (this w) |}.
Proof. reflexivity. Qed.

(** C8. [removeBody] is idempotent on the registry: in a system whose live
    body list has no duplicate and whose slot-to-handle map has numeric
    keys only (both hold as long as every handle is acknowledged at most
    once), a second [removeBody] of the same handle leaves every field of
    [this] and every scene object as the first call left them; and for a
    handle that was never bound the first call already leaves both maps
    and the live body list untouched.  [removeBody] cannot throw. *)
Theorem removeBody_idempotent (uuid : Z) (w : World) :
  NoDup (bodyUuids (this w)) ->
  indexToUuid (this w) !! KeyName "undefined" = None ->
  this (removeBody uuid (removeBody uuid w)) = this (removeBody uuid w) /\
  objects (removeBody uuid (removeBody uuid w)) = objects (removeBody uuid w) /\
  (uuidToIndex (this w) !! KeyNum uuid = None ->
   uuid ∉ bodyUuids (this w) ->
   uuidToIndex (this (removeBody uuid w)) = uuidToIndex (this w) /\
   indexToUuid (this (removeBody uuid w)) = indexToUuid (this w) /\
   bodyUuids (this (removeBody uuid w)) = bodyUuids (this w)).
Proof.
  intros Hnd Hundef. split; [| split].
  - rewrite (removeBody_this uuid (removeBody uuid w)), (removeBody_this uuid w).
    cbn [bodyHelpers shapeHelpers bodyUuids uuidToIndex indexToUuid object3Ds
         bodyOptions bodyLinearVelocities bodyAngularVelocities shapeUuids
         shapes collisions debugRequested debugEnabled stepDuration ready
         nextBodyUuid nextShapeUuid objectMatrices debugMesh].
    rewrite lookup_delete_eq. cbn [toPropertyKey].
    rewrite !delete_delete_eq.
    f_equal.
    + apply removeAt_absent. rewrite elem_of_removeAt by done. naive_solver.
    + apply delete_id. apply lookup_delete_None. by right.
  - reflexivity.
  - intros Hu Hnot. rewrite removeBody_uuidToIndex, removeBody_indexToUuid,
      removeBody_bodyUuids, Hu. cbn [toPropertyKey].
    rewrite !delete_id by done. by rewrite removeAt_absent.
Qed.

(** The slot-to-handle map keeps numeric keys under every message and
    under [removeBody]. *)
Lemma numericKeys_onmessage (data : Message) (w : World) :
  numericKeys (this w) -> numericKeys (this (worldOf (onmessage data w))).
Proof.
  intros H name. destruct (H name) as [H1 H2].
  destruct data; cbn; try done.
  - by rewrite !lookup_insert_ne.
  - by destruct (shapes (this w) !! KeyNum bodyUuid).
Qed.

Lemma numericKeys_removeBody (uuid : Z) (w : World) :
  numericKeys (this w) -> numericKeys (this (removeBody uuid w)).
Proof.
  intros H name. destruct (H name) as [H1 H2].
  rewrite removeBody_uuidToIndex, removeBody_indexToUuid.
  rewrite lookup_delete_ne by done. split; [done |].
  apply lookup_delete_None. by right.
Qed.

(** The live body list stays free of duplicates as long as no handle is
    acknowledged while it is listed. *)
Lemma NoDup_bodyUuids_removeBody (uuid : Z) (w : World) :
  NoDup (bodyUuids (this w)) -> NoDup (bodyUuids (this (removeBody uuid w))).
Proof. intros H. rewrite removeBody_bodyUuids. by apply NoDup_removeAt. Qed.

Lemma NoDup_bodyUuids_BODY_READY (uuid index : Z) (w : World) :
  NoDup (bodyUuids (this w)) -> uuid ∉ bodyUuids (this w) ->
  NoDup (bodyUuids (this (worldOf (onmessage (BODY_READY uuid index) w)))).
Proof.
  intros Hnd Hnew.
  destruct (BODY_READY_world uuid index w) as (w' & -> & Hb & _).
  cbn [worldOf]. rewrite Hb. apply NoDup_app. split; [done |]. split; [| apply NoDup_singleton].
  intros x Hx Hx'. apply list_elem_of_singleton in Hx'. by subst x.
Qed.

(** C3. A BODY_READY that arrives after [removeBody] of its handle is not
    ignored: the handler appends the handle to the live body list and
    binds it in both maps, although the body's options, object and
    collision list are gone. *)
Theorem late_BODY_READY_binds (uuid index : Z) (w : World) :
  let w' := worldOf (onmessage (BODY_READY uuid index) (removeBody uuid w)) in
  onmessage (BODY_READY uuid index) (removeBody uuid w) = Normal w' /\
  uuid ∈ bodyUuids (this w') /\
  uuidToIndex (this w') !! KeyNum uuid = Some index /\
  indexToUuid (this w') !! KeyNum index = Some uuid /\
  bodyOptions (this w') !! KeyNum uuid = None /\
  object3Ds (this w') !! KeyNum uuid = None /\
  collisions (this w') !! KeyNum uuid = None.
Proof.
  destruct (BODY_READY_world uuid index (removeBody uuid w))
    as (w1 & Hm & Hb & Hui & Hiu & Ho & Hobj & Hc).
  rewrite Hm. cbn [worldOf]. split; [done |].
  rewrite Hb, Hui, Hiu, Ho, Hobj, Hc. repeat split.
  - apply elem_of_app. right. apply list_elem_of_singleton. done.
  - apply lookup_insert_eq.
  - apply lookup_insert_eq.
  - cbn. apply lookup_delete_eq.
  - cbn. apply lookup_delete_eq.
  - cbn. apply lookup_delete_eq.
Qed.

(** [bodyInitialized] answers whether the handle is bound to a slot other
    than slot 0. *)
Lemma bodyInitialized_true (uuid : Z) (w : World) :
  bodyInitialized uuid w = true <->
  exists index, uuidToIndex (this w) !! KeyNum uuid = Some index /\ index <> 0.
Proof.
  unfold bodyInitialized.
  destruct (uuidToIndex (this w) !! KeyNum uuid) as [i|].
  - rewrite bool_decide_eq_true. split; [eauto | intros (? & [= <-] & ?); done].
  - split; [done | intros (? & ? & ?); done].
Qed.

(** [removeShapes] leaves the shape lists alone unless the shapes object
    has a property named bodyUuid; no method creates one. *)
Lemma removeShapes_shapes (bodyUuid shapesUuid : Z) (w : World) :
  shapes (this w) !! KeyName "bodyUuid" = None ->
  removeShapes bodyUuid shapesUuid w =
  Normal (postMessage (Post_REMOVE_SHAPES bodyUuid shapesUuid) w).
Proof. intros H. unfold removeShapes. cbn. by rewrite H. Qed.

(** C4, as amended. Starting from the constructor, after any sequence of
    BODY_READY bindings and [removeBody] calls in which every BODY_READY
    binds a handle and a slot that are both unbound when it arrives, the
    two maps are inverse to each other, every live handle round-trips
    through its slot, no two live handles share a slot, and the live body
    list holds exactly the bound handles. *)
Theorem registry_bijective_when_binds_fresh (sab : bool)
    (scene : gmap ObjRef Object3D) (cs : list RegistryCall) :
  freshBinds cs (constructor sab scene) = true ->
  let s := this (registryRun cs (constructor sab scene)) in
  mutuallyInverse s /\ handlesRoundTrip s /\ slotsDistinct s /\ liveListExact s.
Proof.
  intros Hfresh s.
  destruct (registryRun_consistent cs (constructor sab scene)
              (constructor_consistent sab scene) Hfresh) as (Hinv & Hlive & _).
  split; [exact Hinv |]. split; [| split; [| exact Hlive]].
  - intros h i _ Hh. by apply Hinv.
  - by apply mutuallyInverse_slotsDistinct.
Qed.

End Registry.

Section Tick.
Context {three : THREE} {cfg : BUFFER_CONFIG}.

Lemma worldOf_andThen {A} (c : Completion A) (k : A -> Completion A) :
  worldOf (andThen c k) =
  match c with
  | Normal a => worldOf (k a)
  | Throw _ a => a
  end.
Proof. by destruct c. Qed.

(** ** The loop over the bodies leaves the rest of the world alone *)

Lemma applySimulationTransform_outside (object3D : option ObjRef)
    (offset : option Z) (w : World) :
  outsideSimulation (worldOf (applySimulationTransform object3D offset w)) =
  outsideSimulation w.
Proof.
  unfold applySimulationTransform.
  destruct (deref (objects w) object3D) as [[r o]|]; [| done].
  destruct (deref (objects w) (parent o)) as [[? p]|]; [| done].
  destruct (decompose _) as [[pos quat] ?]. done.
Qed.

Lemma writeWorldTransform_outside (object3D : option ObjRef)
    (offset : option Z) (w : World) :
  outsideSimulation (worldOf (writeWorldTransform object3D offset w)) =
  outsideSimulation w.
Proof.
  unfold writeWorldTransform.
  destruct (deref (objects w) object3D) as [[r o]|]; [| done].
  destruct (deref _ (Some r)) as [[? o']|]; [| done].
  destruct (float32Set _ _ _); done.
Qed.

Lemma readVelocities_outside (uuid : Z) (offset : option Z) (w : World) :
  outsideSimulation (readVelocities uuid offset w) = outsideSimulation w.
Proof.
  unfold readVelocities. repeat case_decide; done.
Qed.

Lemma rebuildCollisions_outside (uuid : Z) (offset : option Z) (w : World) :
  outsideSimulation (worldOf (rebuildCollisions uuid offset w)) =
  outsideSimulation w.
Proof.
  unfold rebuildCollisions.
  destruct (collisions (this w) !! KeyNum uuid); done.
Qed.

Lemma tickBody_outside (uuid : Z) (w : World) :
  outsideSimulation (worldOf (tickBody uuid w)) = outsideSimulation w.
Proof.
  unfold tickBody.
  destruct (bodyOptions (this w) !! KeyNum uuid) as [options|]; [| done].
  rewrite worldOf_andThen.
  pose proof (applySimulationTransform_outside
                (object3Ds (this w) !! KeyNum uuid)
                (slotOffset (uuidToIndex (this w) !! KeyNum uuid)) w) as Ha.
  destruct (decide (default DYNAMIC (type options) = DYNAMIC)) as [Hdyn|Hdyn].
  - destruct (applySimulationTransform _ _ w) as [w1|e w1]; cbn [worldOf] in *;
      [| done].
    rewrite worldOf_andThen, <- Ha.
    pose proof (writeWorldTransform_outside
                  (object3Ds (this w) !! KeyNum uuid)
                  (slotOffset (uuidToIndex (this w) !! KeyNum uuid)) w1) as Hw.
    destruct (writeWorldTransform _ _ w1) as [w2|e w2]; cbn [worldOf] in *;
      [| done].
    by rewrite rebuildCollisions_outside, readVelocities_outside.
  - rewrite worldOf_andThen.
    pose proof (writeWorldTransform_outside
                  (object3Ds (this w) !! KeyNum uuid)
                  (slotOffset (uuidToIndex (this w) !! KeyNum uuid)) w) as Hw.
    destruct (writeWorldTransform _ _ w) as [w2|e w2]; cbn [worldOf] in *;
      [| done].
    by rewrite rebuildCollisions_outside, readVelocities_outside.
Qed.

Lemma tickBodies_outside (uuids : list Z) (w : World) :
  outsideSimulation (worldOf (tickBodies uuids w)) = outsideSimulation w.
Proof.
  revert w. induction uuids as [|uuid rest IH]; intros w; [done |].
  cbn [tickBodies]. rewrite worldOf_andThen.
  pose proof (tickBody_outside uuid w) as H.
  destruct (tickBody uuid w) as [w1|e w1]; cbn [worldOf] in *; [| done].
  by rewrite IH.
Qed.

Lemma transferBuffer_outside (w : World) :
  outsideSimulation (transferBuffer w) = outsideSimulation w.
Proof.
  transitivity
    (set_posted
       (filter (fun m => isTransfer m = false)
          (posted w ++ [Post_TRANSFER_DATA (objectMatrices (this w))]))
       (outsideSimulation w)); [reflexivity |].
  rewrite filter_app.
  change (filter (fun m => isTransfer m = false)
            [Post_TRANSFER_DATA (objectMatrices (this w))]) with (@nil Posted).
  rewrite app_nil_r. reflexivity.
Qed.

Lemma exchangeBuffer_outside (w : World) :
  outsideSimulation (worldOf (exchangeBuffer w)) = outsideSimulation w.
Proof.
  unfold exchangeBuffer. case_decide as Hlen; [| done].
  rewrite worldOf_andThen.
  pose proof (tickBodies_outside (bodyUuids (this w)) w) as Hb.
  destruct (tickBodies _ w) as [w1|e w1]; cbn [worldOf] in *; [| done].
  rewrite <- Hb. apply transferBuffer_outside.
Qed.

(** ** The debug steps leave the simulation alone *)

Lemma enableDebug_simulation (w : World) :
  simulationState (enableDebug w) = simulationState w /\
  bodyUuids (this (enableDebug w)) = bodyUuids (this w) /\
  exists extra, posted (enableDebug w) = posted w ++ extra /\
                Forall (fun m => isTransfer m = false) extra.
Proof.
  destruct w as [s objs msgs ws calls sab cursor]. destruct s.
  unfold enableDebug. cbn. destruct sab; cbn.
  - destruct debugMesh0 as [m|]; cbn.
    + destruct (attached m); cbn.
      * repeat split. exists []. by rewrite app_nil_r.
      * repeat split. eexists. split; [done |]. by repeat constructor.
    + repeat split. eexists. split; [done |]. by repeat constructor.
  - repeat split. exists []. by rewrite app_nil_r.
Qed.

Lemma disableDebug_simulation (w : World) :
  simulationState (disableDebug w) = simulationState w /\
  bodyUuids (this (disableDebug w)) = bodyUuids (this w) /\
  exists extra, posted (disableDebug w) = posted w ++ extra /\
                Forall (fun m => isTransfer m = false) extra.
Proof.
  destruct w as [s objs msgs ws calls sab cursor]. destruct s.
  unfold disableDebug. cbn. destruct debugMesh0; cbn.
  - repeat split. eexists. split; [done |]. by repeat constructor.
  - repeat split. exists []. by rewrite app_nil_r.
Qed.

Lemma syncDebug_simulation (w : World) :
  simulationState (syncDebug w) = simulationState w /\
  bodyUuids (this (syncDebug w)) = bodyUuids (this w) /\
  exists extra, posted (syncDebug w) = posted w ++ extra /\
                Forall (fun m => isTransfer m = false) extra.
Proof.
  unfold syncDebug. case_decide.
  - destruct (debugRequested (this w));
      [apply enableDebug_simulation | apply disableDebug_simulation].
  - repeat split. exists []. by rewrite app_nil_r.
Qed.

Lemma debugRendering_simulation (w : World) :
  simulationState (worldOf (debugRendering w)) = simulationState w /\
  posted (worldOf (debugRendering w)) = posted w.
Proof.
  unfold debugRendering. destruct (debugEnabled (this w)); [| done].
  by destruct (debugMesh (this w)).
Qed.

(** C7. A tick that finds the transfer buffer detached (byte length 0)
    leaves the buffer, every collision list, the cached velocities and
    every scene object as they were, and whatever it posts to the worker
    holds no TRANSFER_DATA message: the work of that tick is dropped. *)
Theorem tick_skips_detached_buffer (w : World) :
  byteLength (objectMatrices (this w)) = 0 ->
  let w' := worldOf (tick w) in
  simulationState w' = simulationState w /\
  exists extra, posted w' = posted w ++ extra /\
                Forall (fun m => isTransfer m = false) extra.
Proof.
  intros Hlen. unfold tick. destruct (ready (this w)).
  - destruct (syncDebug_simulation w) as (Hs & _ & extra & Hp & Hextra).
    assert (exchangeBuffer (syncDebug w) = Normal (syncDebug w)) as ->.
    { unfold exchangeBuffer.
      assert (objectMatrices (this (syncDebug w)) = objectMatrices (this w)) as ->
        by exact (f_equal (fun x => x.1.1.1.1) Hs).
      by case_decide. }
    cbn [andThen].
    destruct (debugRendering_simulation (syncDebug w)) as [Hs' Hp'].
    cbn zeta. rewrite Hs', Hp', Hs, Hp. eauto.
  - cbn. split; [done |]. exists []. by rewrite app_nil_r.
Qed.

(** ** The warnings are not read by the tick *)

Lemma mapCompletion_andThen {A} (g : A -> A) (c : Completion A)
    (k k' : A -> Completion A) :
  (forall a, k' (g a) = mapCompletion g (k a)) ->
  andThen (mapCompletion g c) k' = mapCompletion g (andThen c k).
Proof. intros H. destruct c; cbn; [apply H | done]. Qed.

Lemma applySimulationTransform_warnings (ws : list string)
    (object3D : option ObjRef) (offset : option Z) (w : World) :
  applySimulationTransform object3D offset (set_warnings ws w) =
  mapCompletion (set_warnings ws) (applySimulationTransform object3D offset w).
Proof.
  unfold applySimulationTransform.
  change (objects (set_warnings ws w)) with (objects w).
  change (this (set_warnings ws w)) with (this w).
  destruct (deref (objects w) object3D) as [[r o]|]; [| done].
  destruct (deref (objects w) (parent o)) as [[? p]|]; [| done].
  destruct (decompose _) as [[pos quat] ?]. done.
Qed.

Lemma writeWorldTransform_warnings (ws : list string)
    (object3D : option ObjRef) (offset : option Z) (w : World) :
  writeWorldTransform object3D offset (set_warnings ws w) =
  mapCompletion (set_warnings ws) (writeWorldTransform object3D offset w).
Proof.
  unfold writeWorldTransform.
  change (objects (set_warnings ws w)) with (objects w).
  destruct (deref (objects w) object3D) as [[r o]|]; [| done].
  change (objects (set_objects ?x _)) with x.
  destruct (deref _ (Some r)) as [[? o']|]; [| done].
  change (this (set_objects ?x (set_warnings ws w))) with (this w).
  change (this (set_objects ?x w)) with (this w).
  destruct (float32Set _ _ _); done.
Qed.

Lemma readVelocities_warnings (ws : list string) (uuid : Z)
    (offset : option Z) (w : World) :
  readVelocities uuid offset (set_warnings ws w) =
  set_warnings ws (readVelocities uuid offset w).
Proof.
  unfold readVelocities.
  change (this (set_warnings ws w)) with (this w).
  destruct (decide (is_Some (bodyLinearVelocities (this w) !! KeyNum uuid))).
  - change (bodyAngularVelocities (this (update_this ?f ?x)))
      with (bodyAngularVelocities (this w)).
    by destruct (decide (is_Some (bodyAngularVelocities (this w) !! KeyNum uuid))).
  - change (this (set_warnings ws w)) with (this w).
    by destruct (decide (is_Some (bodyAngularVelocities (this w) !! KeyNum uuid))).
Qed.

Lemma rebuildCollisions_warnings (ws : list string) (uuid : Z)
    (offset : option Z) (w : World) :
  rebuildCollisions uuid offset (set_warnings ws w) =
  mapCompletion (set_warnings ws) (rebuildCollisions uuid offset w).
Proof.
  unfold rebuildCollisions.
  change (this (set_warnings ws w)) with (this w).
  by destruct (collisions (this w) !! KeyNum uuid).
Qed.

Lemma tickBody_warnings (ws : list string) (uuid : Z) (w : World) :
  tickBody uuid (set_warnings ws w) =
  mapCompletion (set_warnings ws) (tickBody uuid w).
Proof.
  unfold tickBody.
  change (this (set_warnings ws w)) with (this w).
  destruct (bodyOptions (this w) !! KeyNum uuid) as [options|]; [| done].
  assert ((if decide (default DYNAMIC (type options) = DYNAMIC)
           then applySimulationTransform (object3Ds (this w) !! KeyNum uuid)
                  (slotOffset (uuidToIndex (this w) !! KeyNum uuid))
                  (set_warnings ws w)
           else Normal (set_warnings ws w)) =
          mapCompletion (set_warnings ws)
            (if decide (default DYNAMIC (type options) = DYNAMIC)
             then applySimulationTransform (object3Ds (this w) !! KeyNum uuid)
                    (slotOffset (uuidToIndex (this w) !! KeyNum uuid)) w
             else Normal w)) as ->.
  { case_decide; [apply applySimulationTransform_warnings | done]. }
  apply mapCompletion_andThen. intros w1.
  rewrite writeWorldTransform_warnings.
  apply mapCompletion_andThen. intros w2.
  by rewrite readVelocities_warnings, rebuildCollisions_warnings.
Qed.

Lemma tickBodies_warnings (ws : list string) (uuids : list Z) (w : World) :
  tickBodies uuids (set_warnings ws w) =
  mapCompletion (set_warnings ws) (tickBodies uuids w).
Proof.
  revert w. induction uuids as [|uuid rest IH]; intros w; [done |].
  cbn [tickBodies]. rewrite tickBody_warnings.
  apply mapCompletion_andThen. intros w1. apply IH.
Qed.

Lemma exchangeBuffer_warnings (ws : list string) (w : World) :
  exchangeBuffer (set_warnings ws w) =
  mapCompletion (set_warnings ws) (exchangeBuffer w).
Proof.
  unfold exchangeBuffer.
  change (this (set_warnings ws w)) with (this w).
  case_decide; [| done].
  rewrite tickBodies_warnings.
  apply mapCompletion_andThen. intros w1. done.
Qed.

Lemma debugRendering_warnings (ws : list string) (w : World) :
  debugRendering (set_warnings ws w) =
  mapCompletion (set_warnings ws) (debugRendering w).
Proof.
  unfold debugRendering.
  change (this (set_warnings ws w)) with (this w).
  destruct (debugEnabled (this w)); [| done].
  by destruct (debugMesh (this w)).
Qed.

(** ** The debug flags through a tick *)

Lemma exchangeBuffer_debug (w : World) :
  let w' := worldOf (exchangeBuffer w) in
  debugEnabled (this w') = debugEnabled (this w) /\
  debugRequested (this w') = debugRequested (this w) /\
  debugMesh (this w') = debugMesh (this w) /\
  warnings w' = warnings w /\
  filter (fun m => isSetDebug m = true) (posted w') =
  filter (fun m => isSetDebug m = true) (posted w).
Proof.
  pose proof (exchangeBuffer_outside w) as H. cbn zeta.
  split; [exact (f_equal (fun x => debugEnabled (this x)) H) |].
  split; [exact (f_equal (fun x => debugRequested (this x)) H) |].
  split; [exact (f_equal (fun x => debugMesh (this x)) H) |].
  split; [exact (f_equal warnings H) |].
  apply (f_equal (fun x => filter (fun m => isSetDebug m = true) (posted x))) in H.
  cbn in H. rewrite !list_filter_filter in H.
  rewrite (list_filter_iff (fun m => isSetDebug m = true)
             (fun m => isSetDebug m = true /\ isTransfer m = false) (posted w)),
    (list_filter_iff (fun m => isSetDebug m = true)
       (fun m => isSetDebug m = true /\ isTransfer m = false)); [exact H | |];
    intros []; cbn; naive_solver.
Qed.

Lemma debugRendering_debug (w : World) :
  let w' := worldOf (debugRendering w) in
  debugEnabled (this w') = debugEnabled (this w) /\
  debugRequested (this w') = debugRequested (this w) /\
  warnings w' = warnings w /\
  posted w' = posted w.
Proof.
  unfold debugRendering. destruct (debugEnabled (this w)) eqn:He; [| done].
  destruct (debugMesh (this w)); [| done]. done.
Qed.

Lemma tick_ready_debug (w : World) :
  ready (this w) = true ->
  let w' := worldOf (tick w) in
  debugEnabled (this w') = debugEnabled (this (syncDebug w)) /\
  debugRequested (this w') = debugRequested (this (syncDebug w)) /\
  warnings w' = warnings (syncDebug w).
Proof.
  intros Hr. unfold tick. rewrite Hr. cbn zeta. rewrite worldOf_andThen.
  destruct (exchangeBuffer_debug (syncDebug w)) as (H1 & H2 & _ & H3 & _).
  destruct (exchangeBuffer (syncDebug w)) as [w1|e w1]; cbn [worldOf] in *;
    [| done].
  destruct (debugRendering_debug w1) as (G1 & G2 & G3 & _).
  cbn zeta in *. by rewrite G1, G2, G3.
Qed.

Lemma syncDebug_enabled (w : World) :
  hasSharedArrayBuffer w = true ->
  debugEnabled (this (syncDebug w)) = debugRequested (this w).
Proof.
  intros Hsab. unfold syncDebug. case_decide as Hne.
  - destruct (debugRequested (this w)) eqn:Hreq.
    + unfold enableDebug. rewrite Hsab.
      destruct w as [s objs msgs ws calls sab cursor]. destruct s. cbn.
      destruct debugMesh0 as [m|]; cbn; [by destruct (attached m) | done].
    + unfold disableDebug.
      destruct w as [s objs msgs ws calls sab cursor]. destruct s. cbn.
      by destruct debugMesh0.
  - destruct (debugRequested (this w)), (debugEnabled (this w)); done.
Qed.

Lemma enableDebug_downgrades (w : World) :
  hasSharedArrayBuffer w = false -> enableDebug w = downgraded w.
Proof. intros H. unfold enableDebug. by rewrite H. Qed.

Lemma syncDebug_settled (w : World) :
  debugRequested (this w) = debugEnabled (this w) -> syncDebug w = w.
Proof. intros H. unfold syncDebug. by case_decide. Qed.

(** C9. Where [window.SharedArrayBuffer] is missing, [enableDebug] does
    not throw and only downgrades the request: the pending flag is reset,
    the debug flag stays as it was (disabled), one warning is reported,
    and nothing of the simulation or of the posted messages changes.  A
    ready tick that finds the request therefore runs as the tick of the
    downgraded world, which is the tick of a world that never asked for
    debug rendering, but for the warning. *)
Theorem debug_request_downgraded_without_shared_memory (w : World) :
  hasSharedArrayBuffer w = false ->
  debugEnabled (this w) = false ->
  enableDebug w = downgraded w /\
  debugEnabled (this (downgraded w)) = false /\
  debugRequested (this (downgraded w)) = false /\
  warnings (downgraded w) = warnings w ++ [warnNoSharedArrayBuffer] /\
  simulationState (downgraded w) = simulationState w /\
  posted (downgraded w) = posted w /\
  (ready (this w) = true ->
   tick (setDebug true w) = tick (downgraded w) /\
   tick (downgraded w) =
   mapCompletion (set_warnings (warnings w ++ [warnNoSharedArrayBuffer]))
     (tick (setDebug false w))).
Proof.
  intros Hsab Hen.
  split; [by apply enableDebug_downgrades |].
  split; [exact Hen |]. do 4 (split; [reflexivity |]).
  intros Hr. split.
  - unfold tick.
    change (ready (this (setDebug true w))) with (ready (this w)).
    change (ready (this (downgraded w))) with (ready (this w)).
    rewrite Hr. cbn zeta.
    rewrite (syncDebug_settled (downgraded w)) by (symmetry; exact Hen).
    assert (syncDebug (setDebug true w) = downgraded w) as ->; [| done].
    unfold syncDebug.
    change (debugRequested (this (setDebug true w))) with true.
    change (debugEnabled (this (setDebug true w))) with (debugEnabled (this w)).
    rewrite Hen. rewrite decide_True by done.
    rewrite enableDebug_downgrades by exact Hsab. reflexivity.
  - change (downgraded w)
      with (set_warnings (warnings w ++ [warnNoSharedArrayBuffer]) (setDebug false w)).
    generalize (warnings w ++ [warnNoSharedArrayBuffer]). intros ws.
    assert (debugRequested (this (setDebug false w)) =
            debugEnabled (this (setDebug false w))) as Heq
      by (symmetry; exact Hen).
    revert Heq. generalize (setDebug false w). intros w0 Heq.
    unfold tick.
    change (ready (this (set_warnings ws w0))) with (ready (this w0)).
    destruct (ready (this w0)); [| done]. cbn zeta.
    rewrite (syncDebug_settled w0) by exact Heq.
    rewrite (syncDebug_settled (set_warnings ws w0)) by exact Heq.
    rewrite exchangeBuffer_warnings.
    apply mapCompletion_andThen. intros w1. apply debugRendering_warnings.
Qed.

(** ** Only the tick acts on a debug request *)

Lemma filter_snoc_other (m : Posted) (l : list Posted) :
  isSetDebug m = false ->
  filter (fun m => isSetDebug m = true) (l ++ [m]) =
  filter (fun m => isSetDebug m = true) l.
Proof.
  intros H. rewrite filter_app, (filter_cons_False _ m) by congruence.
  apply app_nil_r.
Qed.

Lemma onmessage_debugState (data : Message) (w : World) :
  debugState (worldOf (onmessage data w)) = debugState w.
Proof.
  destruct data; try done.
  cbn. by destruct (shapes (this w) !! KeyNum bodyUuid).
Qed.

Lemma addBody_debugState (object3D : ObjRef) (options : BodyOptions) (w : World) :
  debugState (addBody object3D options w).2 = debugState w.
Proof.
  unfold debugState. cbn.
  by rewrite (filter_snoc_other (Post_ADD_BODY _) (posted w)).
Qed.

Lemma updateBody_debugState (uuid : Z) (options : BodyOptions) (w : World) :
  debugState (updateBody uuid options w) = debugState w.
Proof.
  unfold debugState. cbn.
  by rewrite (filter_snoc_other (Post_UPDATE_BODY _) (posted w)).
Qed.

Lemma removeBody_debugState (uuid : Z) (w : World) :
  debugState (removeBody uuid w) = debugState w.
Proof.
  unfold debugState. cbn.
  by rewrite (filter_snoc_other (Post_REMOVE_BODY _) (posted w)).
Qed.

Lemma addShapes_debugState (bodyUuid : Z) (w : World) :
  debugState (addShapes bodyUuid w).2 = debugState w.
Proof.
  unfold debugState, addShapes. cbn.
  destruct (shapes (this w) !! KeyNum bodyUuid); cbn;
    by rewrite (filter_snoc_other (Post_ADD_SHAPES _ _) (posted w)).
Qed.

Lemma removeShapes_debugState (bodyUuid shapesUuid : Z) (w : World) :
  debugState (worldOf (removeShapes bodyUuid shapesUuid w)) = debugState w.
Proof.
  unfold debugState, removeShapes. cbn.
  destruct (shapes (this w) !! KeyName "bodyUuid"); cbn;
    [destruct (shapes (this w) !! KeyNum bodyUuid); cbn |];
    by rewrite (filter_snoc_other (Post_REMOVE_SHAPES _ _) (posted w)).
Qed.

Lemma tick_not_ready (w : World) : ready (this w) = false -> tick w = Normal w.
Proof. intros H. unfold tick. by rewrite H. Qed.

Lemma debugRendering_mesh (w : World) :
  let w' := worldOf (debugRendering w) in
  attached <$> debugMesh (this w') = attached <$> debugMesh (this w) /\
  (debugEnabled (this w) = false -> debugMesh (this w') = debugMesh (this w)).
Proof.
  unfold debugRendering. destruct (debugEnabled (this w)); [| done].
  destruct (debugMesh (this w)) as [m|] eqn:Hm; cbn; rewrite ?Hm; by split.
Qed.

Lemma tick_ready_switch (w : World) :
  ready (this w) = true ->
  let w' := worldOf (tick w) in
  attached <$> debugMesh (this w') = attached <$> debugMesh (this (syncDebug w)) /\
  (debugEnabled (this (syncDebug w)) = false ->
   debugMesh (this w') = debugMesh (this (syncDebug w))) /\
  filter (fun m => isSetDebug m = true) (posted w') =
  filter (fun m => isSetDebug m = true) (posted (syncDebug w)).
Proof.
  intros Hr. unfold tick. rewrite Hr. cbn zeta. rewrite worldOf_andThen.
  destruct (exchangeBuffer_debug (syncDebug w)) as (H1 & _ & H2 & _ & H3).
  cbn zeta in H1, H2, H3.
  destruct (exchangeBuffer (syncDebug w)) as [w1|e w1]; cbn [worldOf] in *.
  2: { by rewrite H2, H3. }
  destruct (debugRendering_mesh w1) as [G1 G2].
  destruct (debugRendering_debug w1) as (_ & _ & _ & G3).
  cbn zeta in G1, G2, G3. rewrite G1, G3, H2, H3. split; [done |]. split; [| done].
  intros He. rewrite G2 by congruence. exact H2.
Qed.

Lemma syncDebug_enables (w : World) :
  hasSharedArrayBuffer w = true ->
  debugRequested (this w) = true ->
  debugEnabled (this w) = false ->
  (exists m, debugMesh (this (syncDebug w)) = Some m /\ attached m = true) /\
  posted (syncDebug w) =
    posted w ++ (if default false (attached <$> debugMesh (this w)) then []
                 else [Post_SET_DEBUG true]) /\
  warnings (syncDebug w) = warnings w.
Proof.
  intros Hsab Hreq Hen. unfold syncDebug. rewrite Hreq, Hen.
  rewrite decide_True by done. unfold enableDebug. rewrite Hsab.
  destruct w as [s objs msgs ws calls sab cursor]. destruct s. cbn.
  destruct debugMesh0 as [m|]; cbn.
  - destruct (attached m) eqn:Hm; cbn.
    + split; [by exists m |]. by rewrite app_nil_r.
    + split; [by eexists |]. done.
  - split; [by eexists |]. done.
Qed.

Lemma syncDebug_disables (w : World) :
  debugRequested (this w) = false ->
  debugEnabled (this w) = true ->
  debugEnabled (this (syncDebug w)) = false /\
  debugMesh (this (syncDebug w)) = set_attached false <$> debugMesh (this w) /\
  posted (syncDebug w) =
    posted w ++ match debugMesh (this w) with
                | Some _ => [Post_SET_DEBUG false]
                | None => []
                end /\
  warnings (syncDebug w) = warnings w.
Proof.
  intros Hreq Hen. unfold syncDebug. rewrite Hreq, Hen.
  rewrite decide_True by done. unfold disableDebug.
  destruct w as [s objs msgs ws calls sab cursor]. destruct s. cbn.
  destruct debugMesh0 as [m|]; cbn; [done |]. by rewrite app_nil_r.
Qed.

(** C10. [setDebug] only records the request: putting the old value of
    [debugRequested] back gives the world before the call, so the debug
    flag, the mesh, the messages posted and the warnings are untouched.
    A tick before READY returns at once and changes nothing.  The first
    tick of a ready system carries the request out.  With shared memory
    the debug flag takes the requested value; a request to enable leaves
    the debug mesh created and in the scene and tells the worker to
    enable (once, unless the mesh was in the scene already); a request to
    disable takes the mesh out of the scene and tells the worker to
    disable if there is a mesh.  A request that asks for what is already
    the case changes neither the flag, nor whether the mesh is in the
    scene, nor the messages or the warnings.  Without shared memory the
    flag stays disabled, the mesh and the messages are untouched, and a
    request to enable is answered by the warning. *)
Theorem setDebug_deferred_to_ready_tick (flag : bool) (w : World) :
  update_this (set_debugRequested (debugRequested (this w))) (setDebug flag w) = w /\
  debugRequested (this (setDebug flag w)) = flag /\
  debugState (setDebug flag w) = debugState w /\
  (ready (this w) = false -> tick (setDebug flag w) = Normal (setDebug flag w)) /\
  (ready (this w) = true ->
   let w' := worldOf (tick (setDebug flag w)) in
   (hasSharedArrayBuffer w = true -> debugEnabled (this w') = flag) /\
   (hasSharedArrayBuffer w = true -> flag = true -> debugEnabled (this w) = false ->
    (exists m, debugMesh (this w') = Some m /\ attached m = true) /\
    filter (fun m => isSetDebug m = true) (posted w') =
      filter (fun m => isSetDebug m = true) (posted w)
      ++ (if default false (attached <$> debugMesh (this w)) then []
          else [Post_SET_DEBUG true]) /\
    warnings w' = warnings w) /\
   (flag = false -> debugEnabled (this w) = true ->
    debugEnabled (this w') = false /\
    debugMesh (this w') = set_attached false <$> debugMesh (this w) /\
    filter (fun m => isSetDebug m = true) (posted w') =
      filter (fun m => isSetDebug m = true) (posted w)
      ++ match debugMesh (this w) with
         | Some _ => [Post_SET_DEBUG false]
         | None => []
         end /\
    warnings w' = warnings w) /\
   (flag = debugEnabled (this w) ->
    debugEnabled (this w') = debugEnabled (this w) /\
    attached <$> debugMesh (this w') = attached <$> debugMesh (this w) /\
    filter (fun m => isSetDebug m = true) (posted w') =
      filter (fun m => isSetDebug m = true) (posted w) /\
    warnings w' = warnings w) /\
   (hasSharedArrayBuffer w = false -> debugEnabled (this w) = false ->
    debugEnabled (this w') = false /\
    debugMesh (this w') = debugMesh (this w) /\
    filter (fun m => isSetDebug m = true) (posted w') =
      filter (fun m => isSetDebug m = true) (posted w) /\
    warnings w' = if flag then warnings w ++ [warnNoSharedArrayBuffer]
                  else warnings w)).
Proof.
  split; [by destruct w as [[] ? ? ? ? ? ?] |].
  do 2 (split; [reflexivity |]).
  split; [intros Hr; by apply tick_not_ready |].
  intros Hr. cbn zeta.
  destruct (tick_ready_debug (setDebug flag w) Hr) as (He & _ & Hw).
  destruct (tick_ready_switch (setDebug flag w) Hr) as (Ha & Hm & Hp).
  cbn zeta in He, Hw, Ha, Hm, Hp. rewrite He, Hw, Hp.
  assert (syncDebug (setDebug flag w) = setDebug flag w ->
          attached <$> debugMesh (this (worldOf (tick (setDebug flag w)))) =
            attached <$> debugMesh (this w) /\
          (debugEnabled (this w) = false ->
           debugMesh (this (worldOf (tick (setDebug flag w)))) = debugMesh (this w)))
    as Hsame.
  { intros Hs. rewrite Hs in Ha, Hm. split; [exact Ha |]. exact Hm. }
  split; [intros Hsab; by rewrite syncDebug_enabled |].
  split; [| split; [| split]].
  - intros Hsab -> Hen.
    destruct (syncDebug_enables (setDebug true w) Hsab eq_refl Hen)
      as ((m & Hmesh & Hatt) & Hposted & Hwarn).
    rewrite Hposted, Hwarn, filter_app. split; [| split; [| done]].
    + rewrite Hmesh in Ha. cbn in Ha.
      destruct (debugMesh (this (worldOf (tick (setDebug true w))))) as [m'|];
        [| discriminate Ha].
      exists m'. split; [done |]. cbn in Ha. congruence.
    + f_equal.
      change (debugMesh (this (setDebug true w))) with (debugMesh (this w)).
      by destruct (default false (attached <$> debugMesh (this w))).
  - intros -> Hen.
    destruct (syncDebug_disables (setDebug false w) eq_refl Hen)
      as (Hoff & Hmesh & Hposted & Hwarn).
    rewrite Hoff, Hposted, Hwarn, filter_app, (Hm Hoff), Hmesh.
    change (debugMesh (this (setDebug false w))) with (debugMesh (this w)).
    do 2 (split; [done |]). split; [| done].
    f_equal. by destruct (debugMesh (this w)).
  - intros Hflag.
    assert (syncDebug (setDebug flag w) = setDebug flag w) as Hs
      by (apply syncDebug_settled; exact Hflag).
    destruct (Hsame Hs) as [Hatt _]. rewrite Hs. by rewrite Hatt.
  - intros Hsab Hen. destruct flag.
    + assert (syncDebug (setDebug true w) = downgraded w) as Hs.
      { unfold syncDebug.
        change (debugRequested (this (setDebug true w))) with true.
        change (debugEnabled (this (setDebug true w))) with (debugEnabled (this w)).
        rewrite Hen, decide_True by done.
        by rewrite enableDebug_downgrades. }
      rewrite Hs in Hm |- *.
      split; [done |]. split; [exact (Hm Hen) |]. done.
    + assert (syncDebug (setDebug false w) = setDebug false w) as Hs
        by (apply syncDebug_settled; symmetry; exact Hen).
      destruct (Hsame Hs) as [_ Hmesh]. rewrite Hs.
      split; [exact Hen |]. split; [exact (Hmesh Hen) |]. done.
Qed.

(** ** Poses through one iteration of the loop *)

Lemma updateMatricesChain_placement (fuel : nat) (r r' : ObjRef)
    (objs : gmap ObjRef Object3D) :
  placement <$> updateMatricesChain fuel r objs !! r' = placement <$> objs !! r'.
Proof.
  revert r objs. induction fuel as [|fuel IH]; intros r objs; [done |].
  cbn [updateMatricesChain].
  destruct (objs !! r) as [o|] eqn:Ho; [| done].
  destruct (decide (r = r')) as [->|Hne].
  - by rewrite lookup_insert_eq, Ho.
  - rewrite lookup_insert_ne by done.
    destruct (parent o); [apply IH | done].
Qed.

Lemma updateMatrices_placement (r r' : ObjRef) (objs : gmap ObjRef Object3D) :
  placement <$> updateMatrices r objs !! r' = placement <$> objs !! r'.
Proof. apply updateMatricesChain_placement. Qed.

Lemma writeWorldTransform_placement (object3D : option ObjRef)
    (offset : option Z) (w : World) (r' : ObjRef) :
  placement <$> objects (worldOf (writeWorldTransform object3D offset w)) !! r' =
  placement <$> objects w !! r'.
Proof.
  unfold writeWorldTransform.
  destruct (deref (objects w) object3D) as [[r o]|]; [| done].
  change (objects (set_objects ?x _)) with x.
  destruct (deref _ (Some r)) as [[? o']|]; cbn [worldOf].
  - change (this (set_objects ?x w)) with (this w).
    destruct (float32Set _ _ _); apply updateMatrices_placement.
  - apply updateMatrices_placement.
Qed.

Lemma readVelocities_keeps (uuid : Z) (offset : option Z) (w : World) :
  objects (readVelocities uuid offset w) = objects w /\
  objectMatrices (this (readVelocities uuid offset w)) = objectMatrices (this w) /\
  indexToUuid (this (readVelocities uuid offset w)) = indexToUuid (this w) /\
  collisions (this (readVelocities uuid offset w)) = collisions (this w).
Proof. unfold readVelocities. by repeat case_decide. Qed.

Lemma rebuildCollisions_objects (uuid : Z) (offset : option Z) (w : World) :
  objects (worldOf (rebuildCollisions uuid offset w)) = objects w /\
  objectMatrices (this (worldOf (rebuildCollisions uuid offset w))) =
  objectMatrices (this w).
Proof.
  unfold rebuildCollisions. by destruct (collisions (this w) !! KeyNum uuid).
Qed.

(** After the transform of the slot has been written (or skipped), the
    rest of the iteration keeps every placement. *)
Lemma tickBody_rest_placement (uuid : Z) (object3D : option ObjRef)
    (offset : option Z) (w : World) (r' : ObjRef) :
  placement <$>
    objects (worldOf (let! w := writeWorldTransform object3D offset w in
                      rebuildCollisions uuid offset (readVelocities uuid offset w)))
    !! r' =
  placement <$> objects w !! r'.
Proof.
  rewrite worldOf_andThen.
  pose proof (writeWorldTransform_placement object3D offset w r') as Hw.
  destruct (writeWorldTransform object3D offset w) as [w2|e w2];
    cbn [worldOf] in *; [| done].
  destruct (rebuildCollisions_objects uuid offset (readVelocities uuid offset w2))
    as [-> _].
  destruct (readVelocities_keeps uuid offset w2) as [-> _]. done.
Qed.

Lemma placement_pose (a b : option Object3D) :
  placement <$> a = placement <$> b ->
  poseOf <$> a = poseOf <$> b /\ scale <$> a = scale <$> b.
Proof.
  destruct a as [[]|], b as [[]|]; cbn; intros [=]; subst; done.
Qed.


(** ** The collision scan *)

Lemma flat_map_fmap {A B C} (f : B -> list C) (h : A -> B) (l : list A) :
  flat_map f (h <$> l) = flat_map (fun x => f (h x)) l.
Proof. induction l as [|x l IH]; cbn; [done | by rewrite IH]. Qed.

Lemma flat_map_agree {A B} (f g : A -> list B) (l : list A) :
  (forall x, f x = g x) -> flat_map f l = flat_map g l.
Proof. intros H. induction l as [|x l IH]; cbn; [done | by rewrite H, IH]. Qed.

Lemma scan_words (indexToUuid : gmap PropKey Z) (buffer : list Z) (k a : nat) :
  (0 < k -> a + k <= length buffer)%nat ->
  flat_map (fun i : nat => pushed indexToUuid (toInt32 <$> buffer !! (a + i)%nat))
    (seq 0 k) =
  (fun e => indexToUuid !! KeyNum e) <$>
    filter (fun e => e <> -1) (toInt32 <$> take k (drop a buffer)).
Proof.
  revert a. induction k as [|k IH]; intros a Hlen; [done |].
  assert (a < length buffer)%nat as Ha by lia.
  destruct (lookup_lt_is_Some_2 buffer a Ha) as [x Hx].
  rewrite (drop_S buffer x a Hx). cbn [take fmap list_fmap seq flat_map].
  rewrite Nat.add_0_r, Hx. cbn [fmap option_fmap option_map].
  rewrite <- (fmap_S_seq 0 k), flat_map_fmap.
  rewrite (flat_map_agree _
             (fun i : nat => pushed indexToUuid (toInt32 <$> buffer !! (S a + i)%nat))).
  2: { intros i. by rewrite Nat.add_succ_r. }
  rewrite IH by lia.
  unfold pushed at 1. rewrite filter_cons.
  destruct (decide (toInt32 x = -1)) as [Hx1|Hx1].
  - rewrite decide_False by (rewrite Hx1; intros H; by apply H).
    rewrite decide_False by (intros H; by apply H). done.
  - rewrite decide_True by congruence. rewrite decide_True by done. done.
Qed.

(** The scan of a slot that lies within the buffer: every entry of the
    collision field other than -1, in order, looked up in the
    slot-to-handle map. *)
Lemma scanCollisions_in_range (buffer : list Z) (index : Z)
    (indexToUuid : gmap PropKey Z) :
  0 <= index * BODY_DATA_SIZE ->
  index * BODY_DATA_SIZE + BODY_DATA_SIZE <= Z.of_nat (length buffer) ->
  scanCollisions buffer (slotOffset (Some index)) indexToUuid =
  (fun e => indexToUuid !! KeyNum e) <$>
    filter (fun e => e <> -1) (collisionField buffer index).
Proof.
  intros Hlo Hhi. unfold scanCollisions, collisionField, seqZ.
  rewrite flat_map_fmap.
  rewrite <- (scan_words indexToUuid buffer) by lia.
  apply flat_map_agree. intros i.
  unfold intAt, wordAt, plusOffset, slotOffset. cbn [fmap option_fmap option_map].
  destruct (decide (0 <= index * BODY_DATA_SIZE + (Z.of_nat i + 18)))
    as [_|Hneg]; [| lia].
  unfold pushed.
  by replace (Z.to_nat (index * BODY_DATA_SIZE + (Z.of_nat i + 18)))
    with (Z.to_nat (index * BODY_DATA_SIZE + 18) + i)%nat by lia.
Qed.

(** On a field whose live entries come first, are all bound, and are
    followed by sentinels only, the scan of the code and the scan of the
    specification agree. *)
Lemma scan_agrees_when_terminated (indexToUuid : gmap PropKey Z)
    (live : list Z) (k : nat) :
  Forall (fun e => e <> -1 /\ is_Some (indexToUuid !! KeyNum e)) live ->
  (fun e => indexToUuid !! KeyNum e) <$>
    filter (fun e => e <> -1) (live ++ replicate k (-1)) =
  Some <$> specScan (live ++ replicate k (-1)) indexToUuid.
Proof.
  induction 1 as [|e live [He [u Hu]] _ IH]; cbn [app].
  - induction k as [|k IHk]; [done |].
    cbn [replicate specScan]. rewrite filter_cons_False by (intros H; by apply H).
    rewrite decide_True by done. destruct k; [done |].
    cbn [replicate specScan] in IHk. by rewrite decide_True in IHk by done.
  - rewrite filter_cons_True by done. cbn [specScan fmap list_fmap].
    rewrite decide_False by done. rewrite Hu. cbn [fmap list_fmap].
    by rewrite <- IH.
Qed.

Lemma rebuildCollisions_Normal (uuid : Z) (offset : option Z) (w w' : World) :
  rebuildCollisions uuid offset w = Normal w' ->
  collisions (this w') !! KeyNum uuid =
  Some (scanCollisions (objectMatrices (this w)) offset (indexToUuid (this w))) /\
  objectMatrices (this w') = objectMatrices (this w).
Proof.
  unfold rebuildCollisions.
  destruct (collisions (this w) !! KeyNum uuid); [| done].
  intros [= <-]. split; [apply lookup_insert_eq | done].
Qed.

(** An iteration that completes ends with the rebuild of the collision
    list, run with the registry it started with. *)
Lemma tickBody_Normal_rebuild (uuid : Z) (w w' : World) :
  tickBody uuid w = Normal w' ->
  exists w3,
    rebuildCollisions uuid (slotOffset (uuidToIndex (this w) !! KeyNum uuid)) w3 =
    Normal w' /\
    indexToUuid (this w3) = indexToUuid (this w).
Proof.
  unfold tickBody.
  destruct (bodyOptions (this w) !! KeyNum uuid) as [options|]; [| done].
  set (offset := slotOffset (uuidToIndex (this w) !! KeyNum uuid)).
  set (object3D := object3Ds (this w) !! KeyNum uuid).
  intros Hrun.
  assert (exists w1, indexToUuid (this w1) = indexToUuid (this w) /\
            (let! w := writeWorldTransform object3D offset w1 in
             rebuildCollisions uuid offset (readVelocities uuid offset w)) =
            Normal w') as (w1 & Hi1 & Hrun1).
  { case_decide.
    - pose proof (applySimulationTransform_outside object3D offset w) as Ha.
      destruct (applySimulationTransform object3D offset w) as [w1|e w1];
        [| done].
      exists w1. split; [| exact Hrun].
      exact (f_equal (fun x => indexToUuid (this x)) Ha).
    - by exists w. }
  pose proof (writeWorldTransform_outside object3D offset w1) as Hw.
  destruct (writeWorldTransform object3D offset w1) as [w2|e w2]; [| done].
  cbn [andThen worldOf] in *.
  exists (readVelocities uuid offset w2). split; [exact Hrun1 |].
  destruct (readVelocities_keeps uuid offset w2) as (_ & _ & -> & _).
  rewrite <- Hi1. exact (f_equal (fun x => indexToUuid (this x)) Hw).
Qed.

(** C2, as amended.  An iteration of the loop that completes, for a handle
    bound to a slot that lies within the buffer, leaves as the handle's
    collision list (whatever it held before) the entries of the slot's
    collision field other than -1, all of them and in order, each mapped
    through the slot-to-handle map; an entry whose slot is not bound
    contributes [undefined] ([None]).  Where the live entries of the field
    come first, are all bound, and only sentinels follow, this is the
    list of handles the specification describes. *)
Theorem tickBody_collisions (uuid index : Z) (w w' : World) :
  tickBody uuid w = Normal w' ->
  uuidToIndex (this w) !! KeyNum uuid = Some index ->
  0 <= index * BODY_DATA_SIZE ->
  index * BODY_DATA_SIZE + BODY_DATA_SIZE <=
    Z.of_nat (length (objectMatrices (this w'))) ->
  let field := collisionField (objectMatrices (this w')) index in
  collisions (this w') !! KeyNum uuid =
  Some ((fun e => indexToUuid (this w) !! KeyNum e) <$>
          filter (fun e => e <> -1) field) /\
  (forall (live : list Z) (k : nat),
     field = live ++ replicate k (-1) ->
     Forall (fun e => e <> -1 /\ is_Some (indexToUuid (this w) !! KeyNum e)) live ->
     collisions (this w') !! KeyNum uuid =
     Some (Some <$> specScan field (indexToUuid (this w)))).
Proof.
  intros Hrun Hidx Hlo Hhi field.
  destruct (tickBody_Normal_rebuild uuid w w' Hrun) as (w3 & Hreb & Hi).
  apply rebuildCollisions_Normal in Hreb as [Hcol Hbuf].
  rewrite Hidx, Hi, <- Hbuf in Hcol.
  rewrite scanCollisions_in_range in Hcol by done.
  split; [exact Hcol |].
  intros live k Hfield Hlive. rewrite Hcol. f_equal.
  fold field. rewrite Hfield. by apply scan_agrees_when_terminated.
Qed.

End Tick.

(** * The scenarios, run on the integer platform *)

Module Scenarios.
Import IntegerModel.

Ltac run := vm_compute; reflexivity.

Lemma returns_Normal {A} (c : Completion A) :
  returns c = true -> c = Normal (worldOf c).
Proof. by destruct c. Qed.



(** Scenario 2 of the specification: the collision field of slot 3 is
    [5; -1; ...] and handle 5 is bound to slot 5. *)
Lemma tickBody_collisions_witness :
  tickBody 7 collidingWorld = Normal (worldOf (tickBody 7 collidingWorld)) /\
  uuidToIndex (this collidingWorld) !! KeyNum 7 = Some 3 /\
  0 <= 3 * BODY_DATA_SIZE /\
  3 * BODY_DATA_SIZE + BODY_DATA_SIZE <=
    Z.of_nat (length (objectMatrices (this (worldOf (tickBody 7 collidingWorld))))) /\
  collisions (this (worldOf (tickBody 7 collidingWorld))) !! KeyNum 7 =
  Some [Some 5].
Proof.
  assert (returns (tickBody 7 collidingWorld) = true) as Hr by run.
  assert (tickBody 7 collidingWorld = Normal (worldOf (tickBody 7 collidingWorld)))
    as H1 by exact (returns_Normal _ Hr).
  assert (uuidToIndex (this collidingWorld) !! KeyNum 7 = Some 3) as H2 by run.
  assert (0 <= 3 * BODY_DATA_SIZE) as H3 by (vm_compute; discriminate).
  assert (3 * BODY_DATA_SIZE + BODY_DATA_SIZE <=
          Z.of_nat (length (objectMatrices
                              (this (worldOf (tickBody 7 collidingWorld))))))
    as H4 by (vm_compute; discriminate).
  do 4 (split; [assumption |]).
  destruct (tickBody_collisions 7 3 collidingWorld _ H1 H2 H3 H4) as [Hcol _].
  exact (eq_trans Hcol ltac:(run)).
Defined.

(** C2, counterexample.  With the field [-1; 5; -1; ...] the tick does not
    halt at the leading sentinel and reports handle 5, where the scan of
    the specification reports nothing; with the field [9; -1; ...], slot 9
    being unbound, the tick appends [undefined] instead of skipping the
    entry. *)
Lemma collision_scan_differs_from_specification :
  (collisionField (objectMatrices (this leadingSentinelWorld)) 3 =
   -1 :: 5 :: replicate 6 (-1) /\
   returns (tick leadingSentinelWorld) = true /\
   collisions (this (worldOf (tick leadingSentinelWorld))) !! KeyNum 7 =
   Some [Some 5] /\
   specScan (collisionField (objectMatrices (this leadingSentinelWorld)) 3)
     (indexToUuid (this leadingSentinelWorld)) = []) /\
  (collisionField (objectMatrices (this staleEntryWorld)) 3 =
   9 :: replicate 7 (-1) /\
   indexToUuid (this staleEntryWorld) !! KeyNum 9 = None /\
   returns (tick staleEntryWorld) = true /\
   collisions (this (worldOf (tick staleEntryWorld))) !! KeyNum 7 = Some [None] /\
   specScan (collisionField (objectMatrices (this staleEntryWorld)) 3)
     (indexToUuid (this staleEntryWorld)) = []).
Proof.
  split.
  - do 3 (split; [run |]). run.
  - do 4 (split; [run |]). run.
Qed.

(** C3, at a concrete input: a body is added and removed at once, its
    BODY_READY arrives afterwards and binds the dead handle; the next tick
    with the buffer at hand throws a TypeError at line 162, the handle's
    options being gone. *)
Lemma late_BODY_READY_then_tick_throws :
  bodyUuids (this scenario5) = [0] /\
  uuidToIndex (this scenario5) !! KeyNum 0 = Some 3 /\
  indexToUuid (this scenario5) !! KeyNum 3 = Some 0 /\
  bodyOptions (this scenario5) !! KeyNum 0 = None /\
  thrown (tick scenario5) = Some TypeError.
Proof. do 4 (split; [run |]). run. Qed.

(** A sequence with a slot reused after its handle was removed. *)
Lemma registry_bijective_when_binds_fresh_witness :
  freshBinds reuseSequence (constructor false scene) = true /\
  let s := this (registryRun reuseSequence (constructor false scene)) in
  mutuallyInverse s /\ handlesRoundTrip s /\ slotsDistinct s /\ liveListExact s.
Proof.
  assert (freshBinds reuseSequence (constructor false scene) = true) as H by run.
  split; [exact H |].
  exact (registry_bijective_when_binds_fresh false scene reuseSequence H).
Defined.

(** C4, counterexample.  Two BODY_READY messages that name the same slot:
    handles 1 and 2 are both live and both resolve to slot 0, and handle 1
    does not round-trip. *)
Lemma rebinding_a_slot_breaks_the_bijection :
  ~ handlesRoundTrip clashed /\ ~ slotsDistinct clashed.
Proof.
  assert (bodyUuids clashed = [1; 2]) as Hb by run.
  assert (uuidToIndex clashed !! KeyNum 1 = Some 0) as H1 by run.
  assert (uuidToIndex clashed !! KeyNum 2 = Some 0) as H2 by run.
  assert (indexToUuid clashed !! KeyNum 0 = Some 2) as H0 by run.
  split.
  - intros H. specialize (H 1 0). rewrite Hb in H.
    specialize (H ltac:(set_solver) H1). congruence.
  - intros H. specialize (H 1 2 0). rewrite Hb in H.
    specialize (H ltac:(set_solver) ltac:(set_solver) H1 H2). discriminate H.
Qed.

(** C5, at a concrete input: a shape set added to body 0 gets handle 0
    and is listed; [removeShapes] for it returns normally and the list of
    body 0 still holds it. *)
Theorem removeShapes_keeps_the_shape :
  (addShapes 0 (started 1 None)).1 = 0 /\
  shapes (this (addShapes 0 (started 1 None)).2) !! KeyNum 0 = Some [0] /\
  returns (removeShapes 0 0 (addShapes 0 (started 1 None)).2) = true /\
  shapes (this (worldOf (removeShapes 0 0 (addShapes 0 (started 1 None)).2)))
    !! KeyNum 0 = Some [0].
Proof. do 3 (split; [run |]). run. Qed.

(** C6, at a concrete input: handle 1 is bound to slot 0 and
    [bodyInitialized] answers false for it, while for handle 0 bound to
    slot 3 it answers true. *)
Theorem bodyInitialized_false_for_slot_0 :
  let w := worldOf (onmessage (BODY_READY 0 3)
             (worldOf (onmessage (BODY_READY 1 0) (started 2 None)))) in
  uuidToIndex (this w) !! KeyNum 1 = Some 0 /\
  indexToUuid (this w) !! KeyNum 0 = Some 1 /\
  bodyUuids (this w) = [1; 0] /\
  bodyInitialized 1 w = false /\
  bodyInitialized 0 w = true.
Proof. intros w. do 4 (split; [run |]). run. Qed.

Lemma tick_skips_detached_buffer_witness :
  byteLength (objectMatrices (this waitingWorld)) = 0 /\
  let w' := worldOf (tick waitingWorld) in
  simulationState w' = simulationState waitingWorld /\
  exists extra, posted w' = posted waitingWorld ++ extra /\
                Forall (fun m => isTransfer m = false) extra.
Proof.
  assert (byteLength (objectMatrices (this waitingWorld)) = 0) as H by run.
  split; [exact H |].
  exact (tick_skips_detached_buffer waitingWorld H).
Defined.

Lemma removeBody_idempotent_witness :
  NoDup (bodyUuids (this collidingWorld)) /\
  indexToUuid (this collidingWorld) !! KeyName "undefined" = None /\
  this (removeBody 7 (removeBody 7 collidingWorld)) =
  this (removeBody 7 collidingWorld).
Proof.
  assert (NoDup (bodyUuids (this collidingWorld))) as H1
    by (apply (bool_decide_unpack _); run).
  assert (indexToUuid (this collidingWorld) !! KeyName "undefined" = None)
    as H2 by run.
  do 2 (split; [assumption |]).
  exact (proj1 (removeBody_idempotent 7 collidingWorld H1 H2)).
Defined.

(** C8, counterexample.  The worker acknowledges handle 1 twice, so the
    live body list holds it twice; the first [removeBody] takes one
    occurrence out, the second one the other: the second call is not a
    no-op. *)
Lemma removeBody_twice_differs_when_listed_twice :
  bodyUuids (this doublyAcknowledged) = [1; 1] /\
  bodyUuids (this (removeBody 1 doublyAcknowledged)) = [1] /\
  bodyUuids (this (removeBody 1 (removeBody 1 doublyAcknowledged))) = [] /\
  this (removeBody 1 (removeBody 1 doublyAcknowledged)) <>
  this (removeBody 1 doublyAcknowledged).
Proof.
  assert (bodyUuids (this (removeBody 1 doublyAcknowledged)) = [1]) as H1 by run.
  assert (bodyUuids (this (removeBody 1 (removeBody 1 doublyAcknowledged))) = [])
    as H2 by run.
  split; [run |]. do 2 (split; [assumption |]).
  intros H. rewrite H in H2. rewrite H1 in H2. discriminate H2.
Qed.

Lemma debug_request_downgraded_witness :
  hasSharedArrayBuffer (started 1 None) = false /\
  debugEnabled (this (started 1 None)) = false /\
  ready (this (started 1 None)) = true /\
  debugEnabled (this (downgraded (started 1 None))) = false /\
  debugRequested (this (downgraded (started 1 None))) = false /\
  tick (setDebug true (started 1 None)) = tick (downgraded (started 1 None)).
Proof.
  assert (hasSharedArrayBuffer (started 1 None) = false) as H1 by run.
  assert (debugEnabled (this (started 1 None)) = false) as H2 by run.
  assert (ready (this (started 1 None)) = true) as H3 by run.
  do 3 (split; [assumption |]).
  destruct (debug_request_downgraded_without_shared_memory (started 1 None) H1 H2)
    as (_ & He & Hr & _ & _ & _ & Htick).
  destruct (Htick H3) as [Heq _].
  split; [exact He |]. split; [exact Hr | exact Heq].
Defined.

Lemma setDebug_deferred_witness :
  ready (this freshWorld) = false /\
  tick (setDebug true freshWorld) = Normal (setDebug true freshWorld) /\
  ready (this readyWorld) = true /\
  hasSharedArrayBuffer readyWorld = true /\
  debugEnabled (this (setDebug true readyWorld)) = false /\
  debugMesh (this (setDebug true readyWorld)) = None /\
  debugEnabled (this (worldOf (tick (setDebug true readyWorld)))) = true /\
  (exists m, debugMesh (this (worldOf (tick (setDebug true readyWorld)))) = Some m /\
             attached m = true) /\
  filter (fun m => isSetDebug m = true)
    (posted (worldOf (tick (setDebug true readyWorld)))) = [Post_SET_DEBUG true].
Proof.
  assert (ready (this freshWorld) = false) as H1 by run.
  destruct (setDebug_deferred_to_ready_tick true freshWorld)
    as (_ & _ & _ & Hearly & _).
  split; [exact H1 |]. split; [exact (Hearly H1) |].
  assert (ready (this readyWorld) = true) as H2 by run.
  assert (hasSharedArrayBuffer readyWorld = true) as H3 by run.
  assert (debugEnabled (this readyWorld) = false) as H4 by run.
  do 2 (split; [assumption |]). do 2 (split; [run |]).
  destruct (setDebug_deferred_to_ready_tick true readyWorld)
    as (_ & _ & _ & _ & Hready).
  destruct (Hready H2) as (Hsab & Hon & _).
  split; [exact (Hsab H3) |].
  destruct (Hon H3 eq_refl H4) as (Hmesh & Hposted & _).
  split; [exact Hmesh |]. exact (eq_trans Hposted ltac:(run)).
Defined.

End Scenarios.

(** * Further properties of the methods *)

Section Lifecycle.
Context {three : THREE} {cfg : BUFFER_CONFIG}.

Lemma elem_of_removeAt_other (x y : Z) (l : list Z) :
  y <> x -> y ∈ removeAt (indexOf x l) l <-> y ∈ l.
Proof.
  intros Hne. induction l as [|z l IH].
  - done.
  - rewrite removeAt_cons. case_decide as Hz.
    + subst z. rewrite elem_of_cons. naive_solver.
    + rewrite !elem_of_cons, IH. done.
Qed.

Lemma removeAt_snoc_fresh (x : Z) (l : list Z) :
  x ∉ l -> removeAt (indexOf x (l ++ [x])) (l ++ [x]) = l.
Proof.
  induction l as [|z l IH]; intros Hx.
  - cbn. by rewrite decide_True.
  - apply not_elem_of_cons in Hx as [Hne Hx].
    change ((z :: l) ++ [x]) with (z :: (l ++ [x])).
    rewrite removeAt_cons, decide_False by done. by rewrite IH.
Qed.

(** [removeBody] forgets the handle everywhere: it resolves to no slot,
    has no object, options, collision list or cached velocity, is reported
    as not initialised, and the slot it was bound to resolves to no
    handle; one REMOVE_BODY message is posted. *)
Theorem removeBody_forgets_handle (uuid : Z) (w : World) :
  let w' := removeBody uuid w in
  uuidToIndex (this w') !! KeyNum uuid = None /\
  indexToUuid (this w') !! toPropertyKey (uuidToIndex (this w) !! KeyNum uuid) = None /\
  object3Ds (this w') !! KeyNum uuid = None /\
  bodyOptions (this w') !! KeyNum uuid = None /\
  collisions (this w') !! KeyNum uuid = None /\
  getLinearVelocity uuid w' = None /\
  getAngularVelocity uuid w' = None /\
  bodyInitialized uuid w' = false /\
  posted w' = posted w ++ [Post_REMOVE_BODY uuid].
Proof.
  cbn zeta. unfold getLinearVelocity, getAngularVelocity, bodyInitialized.
  rewrite removeBody_this. cbn [uuidToIndex indexToUuid object3Ds bodyOptions
    collisions bodyLinearVelocities bodyAngularVelocities].
  rewrite !lookup_delete_eq. by repeat split.
Qed.

(** With a live body list free of duplicates, the removed handle is no
    longer listed, so the tick does not visit it again. *)
Theorem removeBody_unlists_handle (uuid : Z) (w : World) :
  NoDup (bodyUuids (this w)) -> uuid ∉ bodyUuids (this (removeBody uuid w)).
Proof.
  intros Hnd. rewrite removeBody_bodyUuids, elem_of_removeAt by done.
  naive_solver.
Qed.

(** [removeBody] of one handle leaves every other handle as it was: its
    slot, object, options, collision list, velocities and its place in the
    live body list; a slot other than the removed handle's keeps its
    handle. *)
Theorem removeBody_keeps_other_handles (uuid other : Z) (w : World) :
  other <> uuid ->
  let w' := removeBody uuid w in
  uuidToIndex (this w') !! KeyNum other = uuidToIndex (this w) !! KeyNum other /\
  object3Ds (this w') !! KeyNum other = object3Ds (this w) !! KeyNum other /\
  bodyOptions (this w') !! KeyNum other = bodyOptions (this w) !! KeyNum other /\
  collisions (this w') !! KeyNum other = collisions (this w) !! KeyNum other /\
  getLinearVelocity other w' = getLinearVelocity other w /\
  getAngularVelocity other w' = getAngularVelocity other w /\
  (other ∈ bodyUuids (this w') <-> other ∈ bodyUuids (this w)) /\
  (forall index : Z,
     uuidToIndex (this w) !! KeyNum uuid <> Some index ->
     indexToUuid (this w') !! KeyNum index = indexToUuid (this w) !! KeyNum index).
Proof.
  intros Hne. cbn zeta. unfold getLinearVelocity, getAngularVelocity.
  rewrite removeBody_this. cbn [uuidToIndex indexToUuid object3Ds bodyOptions
    collisions bodyLinearVelocities bodyAngularVelocities bodyUuids].
  assert (KeyNum uuid <> KeyNum other) as Hk by congruence.
  rewrite !(lookup_delete_ne _ (KeyNum uuid) (KeyNum other)) by exact Hk.
  do 6 (split; [reflexivity |]).
  split; [by apply elem_of_removeAt_other |].
  intros index Hidx. apply lookup_delete_ne.
  destruct (uuidToIndex (this w) !! KeyNum uuid); cbn; congruence.
Qed.

(** Binding and unbinding cancel: a BODY_READY for a handle and a slot
    that were both unbound, followed by [removeBody] of the handle, gives
    back both maps and the live body list as they were. *)
Theorem BODY_READY_then_removeBody_restores_registry (uuid index : Z) (w : World) :
  uuidToIndex (this w) !! KeyNum uuid = None ->
  indexToUuid (this w) !! KeyNum index = None ->
  uuid ∉ bodyUuids (this w) ->
  let w' := removeBody uuid (worldOf (onmessage (BODY_READY uuid index) w)) in
  uuidToIndex (this w') = uuidToIndex (this w) /\
  indexToUuid (this w') = indexToUuid (this w) /\
  bodyUuids (this w') = bodyUuids (this w).
Proof.
  intros Hu Hi Hl. cbn zeta.
  destruct (BODY_READY_world uuid index w) as (w1 & -> & Hb & Hui & Hiu & _).
  cbn [worldOf].
  rewrite removeBody_uuidToIndex, removeBody_indexToUuid, removeBody_bodyUuids.
  rewrite Hb, Hui, Hiu, lookup_insert_eq. cbn [toPropertyKey].
  rewrite !delete_insert_id by done. by rewrite removeAt_snoc_fresh.
Qed.

(** A BODY_READY binds its handle and its slot to each other, lists the
    handle last, and leaves the entries of every other handle and of every
    other slot as they were. *)
Theorem BODY_READY_binds_only_its_pair (uuid index h i : Z) (w : World) :
  h <> uuid -> i <> index ->
  let w' := worldOf (onmessage (BODY_READY uuid index) w) in
  uuidToIndex (this w') !! KeyNum uuid = Some index /\
  indexToUuid (this w') !! KeyNum index = Some uuid /\
  bodyUuids (this w') = bodyUuids (this w) ++ [uuid] /\
  uuidToIndex (this w') !! KeyNum h = uuidToIndex (this w) !! KeyNum h /\
  indexToUuid (this w') !! KeyNum i = indexToUuid (this w) !! KeyNum i.
Proof.
  intros Hh Hi. cbn zeta.
  destruct (BODY_READY_world uuid index w) as (w1 & -> & Hb & Hui & Hiu & _).
  cbn [worldOf]. rewrite Hb, Hui, Hiu, !lookup_insert_eq.
  rewrite !lookup_insert_ne by congruence. done.
Qed.

(** Two bodies added before any BODY_READY get consecutive handles, each
    with its own object and options, and stay pending: both maps and the
    live body list are untouched.  Their two BODY_READY messages, in
    either order, then bind each handle to its own slot. *)
Theorem two_pending_bodies_bind_to_their_slots (o1 o2 : ObjRef)
    (p1 p2 : BodyOptions) (s1 s2 : Z) (w : World) :
  s1 <> s2 ->
  let a1 := addBody o1 p1 w in
  let a2 := addBody o2 p2 a1.2 in
  a1.1 = nextBodyUuid (this w) /\ a2.1 = a1.1 + 1 /\
  object3Ds (this a2.2) !! KeyNum a1.1 = Some o1 /\
  object3Ds (this a2.2) !! KeyNum a2.1 = Some o2 /\
  bodyOptions (this a2.2) !! KeyNum a1.1 = Some p1 /\
  bodyOptions (this a2.2) !! KeyNum a2.1 = Some p2 /\
  uuidToIndex (this a2.2) = uuidToIndex (this w) /\
  indexToUuid (this a2.2) = indexToUuid (this w) /\
  bodyUuids (this a2.2) = bodyUuids (this w) /\
  forall first : bool,
    let w' :=
      if first
      then worldOf (onmessage (BODY_READY a2.1 s2)
                      (worldOf (onmessage (BODY_READY a1.1 s1) a2.2)))
      else worldOf (onmessage (BODY_READY a1.1 s1)
                      (worldOf (onmessage (BODY_READY a2.1 s2) a2.2))) in
    uuidToIndex (this w') !! KeyNum a1.1 = Some s1 /\
    uuidToIndex (this w') !! KeyNum a2.1 = Some s2 /\
    indexToUuid (this w') !! KeyNum s1 = Some a1.1 /\
    indexToUuid (this w') !! KeyNum s2 = Some a2.1.
Proof.
  intros Hs. cbn zeta.
  set (h := nextBodyUuid (this w)).
  assert (KeyNum (h + 1) <> KeyNum h) as Hk by (intros [=]; lia).
  assert (KeyNum h <> KeyNum (h + 1)) as Hk' by (intros [=]; lia).
  assert (KeyNum s1 <> KeyNum s2) as Hs1 by congruence.
  assert (KeyNum s2 <> KeyNum s1) as Hs2 by congruence.
  split; [reflexivity |]. split; [reflexivity |].
  split. { cbn. fold h. rewrite lookup_insert_ne by exact Hk. apply lookup_insert_eq. }
  split. { cbn. fold h. apply lookup_insert_eq. }
  split. { cbn. fold h. rewrite lookup_insert_ne by exact Hk. apply lookup_insert_eq. }
  split. { cbn. fold h. apply lookup_insert_eq. }
  do 3 (split; [reflexivity |]).
  intros [|]; cbn; fold h.
  - rewrite (lookup_insert_ne _ _ _ _ Hk), !lookup_insert_eq.
    rewrite (lookup_insert_ne _ _ _ _ Hs2), !lookup_insert_eq. done.
  - rewrite (lookup_insert_ne _ _ _ _ Hk'), !lookup_insert_eq.
    rewrite (lookup_insert_ne _ _ _ _ Hs1), !lookup_insert_eq. done.
Qed.

End Lifecycle.

Section Exchange.
Context {three : THREE} {cfg : BUFFER_CONFIG}.

(** ** What the steps of an iteration keep *)

Lemma float32Set_length (buffer buffer' : list Z) (elements : list Num)
    (offset : option Z) :
  float32Set buffer elements offset = Some buffer' ->
  length buffer' = length buffer.
Proof.
  unfold float32Set. case_decide as Hr; [done |]. intros [= <-].
  rewrite !length_app, length_take, length_fmap, length_drop. lia.
Qed.

Lemma applySimulationTransform_this (object3D : option ObjRef)
    (offset : option Z) (w : World) :
  this (worldOf (applySimulationTransform object3D offset w)) = this w /\
  posted (worldOf (applySimulationTransform object3D offset w)) = posted w.
Proof.
  unfold applySimulationTransform.
  destruct (deref (objects w) object3D) as [[r o]|]; [| done].
  destruct (deref (objects w) (parent o)) as [[? p]|]; [| done].
  by destruct (decompose _) as [[pos quat] ?].
Qed.

Lemma writeWorldTransform_this (object3D : option ObjRef)
    (offset : option Z) (w : World) :
  let w' := worldOf (writeWorldTransform object3D offset w) in
  bodyLinearVelocities (this w') = bodyLinearVelocities (this w) /\
  bodyAngularVelocities (this w') = bodyAngularVelocities (this w) /\
  collisions (this w') = collisions (this w) /\
  length (objectMatrices (this w')) = length (objectMatrices (this w)) /\
  posted w' = posted w.
Proof.
  unfold writeWorldTransform.
  destruct (deref (objects w) object3D) as [[r o]|]; [| done].
  change (objects (set_objects ?x _)) with x.
  destruct (deref _ (Some r)) as [[? o']|]; [| done].
  change (this (set_objects ?x w)) with (this w).
  destruct (float32Set _ _ _) as [buffer|] eqn:Hset; [| done].
  cbn. repeat split. by apply float32Set_length in Hset.
Qed.

Lemma readVelocities_reads (uuid : Z) (offset : option Z) (w : World) :
  let w' := readVelocities uuid offset w in
  bodyLinearVelocities (this w') !! KeyNum uuid =
    (fun _ => floatAt (objectMatrices (this w)) (plusOffset offset 16)) <$>
      bodyLinearVelocities (this w) !! KeyNum uuid /\
  bodyAngularVelocities (this w') !! KeyNum uuid =
    (fun _ => floatAt (objectMatrices (this w)) (plusOffset offset 17)) <$>
      bodyAngularVelocities (this w) !! KeyNum uuid /\
  posted w' = posted w /\
  (forall h : Z, h <> uuid ->
     bodyLinearVelocities (this w') !! KeyNum h =
       bodyLinearVelocities (this w) !! KeyNum h /\
     bodyAngularVelocities (this w') !! KeyNum h =
       bodyAngularVelocities (this w) !! KeyNum h).
Proof.
  unfold readVelocities.
  destruct (decide (is_Some (bodyLinearVelocities (this w) !! KeyNum uuid)))
    as [[x Hx]|Hx].
  - change (bodyAngularVelocities (this (update_this ?f ?y)))
      with (bodyAngularVelocities (this w)).
    destruct (decide (is_Some (bodyAngularVelocities (this w) !! KeyNum uuid)))
      as [[y Hy]|Hy]; cbn.
    + rewrite !lookup_insert_eq, Hx, Hy. repeat split; by rewrite lookup_insert_ne by congruence.
    + rewrite !lookup_insert_eq, Hx.
      apply eq_None_not_Some in Hy. rewrite Hy.
      repeat split; by rewrite ?lookup_insert_ne by congruence.
  - apply eq_None_not_Some in Hx.
    destruct (decide (is_Some (bodyAngularVelocities (this w) !! KeyNum uuid)))
      as [[y Hy]|Hy]; cbn.
    + rewrite !lookup_insert_eq, Hx, Hy.
      repeat split; by rewrite ?lookup_insert_ne by congruence.
    + apply eq_None_not_Some in Hy. by rewrite Hx, Hy.
Qed.

Lemma rebuildCollisions_keeps (uuid : Z) (offset : option Z) (w : World) :
  let w' := worldOf (rebuildCollisions uuid offset w) in
  bodyLinearVelocities (this w') = bodyLinearVelocities (this w) /\
  bodyAngularVelocities (this w') = bodyAngularVelocities (this w) /\
  objectMatrices (this w') = objectMatrices (this w) /\
  posted w' = posted w /\
  (forall h : Z, h <> uuid ->
     collisions (this w') !! KeyNum h = collisions (this w) !! KeyNum h).
Proof.
  unfold rebuildCollisions.
  destruct (collisions (this w) !! KeyNum uuid); [| done].
  cbn. repeat split. intros h Hh. by rewrite lookup_insert_ne by congruence.
Qed.

(** The world an iteration leaves behind, completed or not. *)
Lemma tickBody_keeps (uuid : Z) (w : World) :
  let w' := worldOf (tickBody uuid w) in
  length (objectMatrices (this w')) = length (objectMatrices (this w)) /\
  posted w' = posted w /\
  (forall h : Z, h <> uuid ->
     collisions (this w') !! KeyNum h = collisions (this w) !! KeyNum h /\
     bodyLinearVelocities (this w') !! KeyNum h =
       bodyLinearVelocities (this w) !! KeyNum h /\
     bodyAngularVelocities (this w') !! KeyNum h =
       bodyAngularVelocities (this w) !! KeyNum h).
Proof.
  cbn zeta. unfold tickBody.
  destruct (bodyOptions (this w) !! KeyNum uuid) as [options|]; [| done].
  set (offset := slotOffset (uuidToIndex (this w) !! KeyNum uuid)).
  set (object3D := object3Ds (this w) !! KeyNum uuid).
  assert (forall w1 : World,
            this w1 = this w -> posted w1 = posted w ->
            let w' := worldOf
                        (let! w := writeWorldTransform object3D offset w1 in
                         rebuildCollisions uuid offset (readVelocities uuid offset w)) in
            length (objectMatrices (this w')) = length (objectMatrices (this w)) /\
            posted w' = posted w /\
            (forall h : Z, h <> uuid ->
               collisions (this w') !! KeyNum h = collisions (this w) !! KeyNum h /\
               bodyLinearVelocities (this w') !! KeyNum h =
                 bodyLinearVelocities (this w) !! KeyNum h /\
               bodyAngularVelocities (this w') !! KeyNum h =
                 bodyAngularVelocities (this w) !! KeyNum h)) as Hrest.
  { intros w1 Ht Hp. cbn zeta. rewrite worldOf_andThen.
    destruct (writeWorldTransform_this object3D offset w1)
      as (Hl & Ha & Hc & Hlen & Hpost).
    rewrite Ht in Hl, Ha, Hc, Hlen. rewrite Hp in Hpost.
    destruct (writeWorldTransform object3D offset w1) as [w2|e w2];
      cbn [worldOf] in *.
    2: { rewrite Hl, Ha, Hc. by repeat split. }
    destruct (rebuildCollisions_keeps uuid offset (readVelocities uuid offset w2))
      as (Rl & Ra & Rb & Rp & Rc).
    destruct (readVelocities_reads uuid offset w2) as (_ & _ & Vp & Vo).
    destruct (readVelocities_keeps uuid offset w2) as (_ & Vb & _ & Vc).
    cbn zeta in *. rewrite Rb, Vb, Rp, Vp. split; [done |]. split; [done |].
    intros h Hh. rewrite (Rc h Hh), Vc, Hc, Rl, Ra.
    destruct (Vo h Hh) as [-> ->]. by rewrite Hl, Ha. }
  rewrite worldOf_andThen.
  destruct (decide (default DYNAMIC (type options) = DYNAMIC)) as [Hdyn|Hdyn].
  - destruct (applySimulationTransform_this object3D offset w) as [Ht Hp].
    destruct (applySimulationTransform object3D offset w) as [w1|e w1];
      cbn [worldOf] in *.
    + by apply Hrest.
    + rewrite Ht. by repeat split.
  - by apply Hrest.
Qed.

Lemma tickBodies_keeps (uuids : list Z) (w : World) :
  let w' := worldOf (tickBodies uuids w) in
  length (objectMatrices (this w')) = length (objectMatrices (this w)) /\
  posted w' = posted w /\
  (forall h : Z, h ∉ uuids ->
     collisions (this w') !! KeyNum h = collisions (this w) !! KeyNum h /\
     bodyLinearVelocities (this w') !! KeyNum h =
       bodyLinearVelocities (this w) !! KeyNum h /\
     bodyAngularVelocities (this w') !! KeyNum h =
       bodyAngularVelocities (this w) !! KeyNum h).
Proof.
  revert w. induction uuids as [|uuid rest IH]; intros w; cbn zeta.
  - by repeat split.
  - cbn [tickBodies]. rewrite worldOf_andThen.
    destruct (tickBody_keeps uuid w) as (Hlen & Hp & Ho). cbn zeta in *.
    destruct (tickBody uuid w) as [w1|e w1]; cbn [worldOf] in *.
    + destruct (IH w1) as (Hlen1 & Hp1 & Ho1). cbn zeta in *.
      rewrite Hlen1, Hp1. split; [done |]. split; [done |].
      intros h Hh. apply not_elem_of_cons in Hh as [Hne Hh].
      destruct (Ho1 h Hh) as (-> & -> & ->). by apply Ho.
    + split; [done |]. split; [done |].
      intros h Hh. apply not_elem_of_cons in Hh as [Hne Hh]. by apply Ho.
Qed.

(** A handle that is not in the live body list (a body still pending, or
    one removed) is not visited by the tick: its collision list and its
    cached velocities are what they were. *)
Theorem tick_leaves_unlisted_handles (uuid : Z) (w : World) :
  uuid ∉ bodyUuids (this w) ->
  let w' := worldOf (tick w) in
  collisions (this w') !! KeyNum uuid = collisions (this w) !! KeyNum uuid /\
  getLinearVelocity uuid w' = getLinearVelocity uuid w /\
  getAngularVelocity uuid w' = getAngularVelocity uuid w.
Proof.
  intros Hnot. cbn zeta. unfold getLinearVelocity, getAngularVelocity, tick.
  destruct (ready (this w)); [| done]. cbn zeta.
  destruct (syncDebug_simulation w) as (Hs & Hb & _).
  injection Hs as Hbuf Hcol Hlin Hang Hobj.
  rewrite <- Hcol, <- Hlin, <- Hang. rewrite <- Hb in Hnot.
  clear Hbuf Hcol Hlin Hang Hobj Hb. revert Hnot.
  generalize (syncDebug w). clear w. intros w Hnot.
  rewrite worldOf_andThen.
  assert (let w1 := worldOf (exchangeBuffer w) in
          collisions (this w1) !! KeyNum uuid = collisions (this w) !! KeyNum uuid /\
          bodyLinearVelocities (this w1) !! KeyNum uuid =
            bodyLinearVelocities (this w) !! KeyNum uuid /\
          bodyAngularVelocities (this w1) !! KeyNum uuid =
            bodyAngularVelocities (this w) !! KeyNum uuid) as Hex.
  { cbn zeta. unfold exchangeBuffer. case_decide as Hlen; [| done].
    rewrite worldOf_andThen.
    destruct (tickBodies_keeps (bodyUuids (this w)) w) as (_ & _ & Ho).
    cbn zeta in Ho. specialize (Ho uuid Hnot).
    destruct (tickBodies (bodyUuids (this w)) w) as [w1|e w1]; cbn [worldOf] in *;
      exact Ho. }
  cbn zeta in Hex.
  destruct (exchangeBuffer w) as [w1|e w1]; cbn [worldOf] in *; [| exact Hex].
  destruct (debugRendering_simulation w1) as [Hd _].
  injection Hd as _ Dcol Dlin Dang _.
  rewrite Dcol, Dlin, Dang. exact Hex.
Qed.

(** The steps of an iteration that completes. *)
Lemma tickBody_Normal_steps (uuid : Z) (w w' : World) :
  tickBody uuid w = Normal w' ->
  let offset := slotOffset (uuidToIndex (this w) !! KeyNum uuid) in
  exists (w2 : World) (r : ObjRef) (o'' : Object3D),
    object3Ds (this w) !! KeyNum uuid = Some r /\
    objects w2 !! r = Some o'' /\
    bodyLinearVelocities (this w2) = bodyLinearVelocities (this w) /\
    bodyAngularVelocities (this w2) = bodyAngularVelocities (this w) /\
    collisions (this w2) = collisions (this w) /\
    float32Set (objectMatrices (this w)) (matrixWorld o'') offset =
      Some (objectMatrices (this w2)) /\
    rebuildCollisions uuid offset (readVelocities uuid offset w2) = Normal w'.
Proof.
  unfold tickBody.
  destruct (bodyOptions (this w) !! KeyNum uuid) as [options|]; [| done].
  cbn zeta. set (offset := slotOffset (uuidToIndex (this w) !! KeyNum uuid)).
  intros Hrun.
  assert (exists w1, this w1 = this w /\
            (let! w := writeWorldTransform (object3Ds (this w) !! KeyNum uuid)
                         offset w1 in
             rebuildCollisions uuid offset (readVelocities uuid offset w)) =
            Normal w') as (w1 & Ht & Hrun1).
  { case_decide.
    - destruct (applySimulationTransform_this
                  (object3Ds (this w) !! KeyNum uuid) offset w) as [Ht _].
      destruct (applySimulationTransform _ offset w) as [w1|e w1]; [| done].
      by exists w1.
    - by exists w. }
  unfold writeWorldTransform in Hrun1.
  destruct (object3Ds (this w) !! KeyNum uuid) as [r|]; [| done].
  unfold deref in Hrun1.
  destruct (objects w1 !! r) as [o|]; [| done].
  cbn [fmap option_fmap option_map] in Hrun1.
  change (objects (set_objects ?x _)) with x in Hrun1.
  destruct (updateMatrices r (objects w1) !! r) as [o''|] eqn:Ho''; [| done].
  cbn [fmap option_fmap option_map] in Hrun1.
  change (this (set_objects ?x w1)) with (this w1) in Hrun1.
  destruct (float32Set _ _ _) as [buffer|] eqn:Hset; [| done].
  cbn [andThen] in Hrun1. rewrite Ht in Hset.
  exists (update_this (set_objectMatrices buffer)
            (set_objects (updateMatrices r (objects w1)) w1)), r, o''.
  split; [done |]. split; [exact Ho'' |].
  split; [| split; [| split; [| split; [| exact Hrun1]]]]; cbn; by rewrite ?Ht.
Qed.

(** An iteration that completes refreshes the cached velocities of its
    handle from words 16 and 17 of the slot, and only where the handle
    has the property already ([hasOwnProperty]): a handle without a
    cached velocity gets none. *)
Theorem tickBody_reads_velocities (uuid : Z) (w w' : World) :
  tickBody uuid w = Normal w' ->
  let offset := slotOffset (uuidToIndex (this w) !! KeyNum uuid) in
  getLinearVelocity uuid w' =
    (fun _ => floatAt (objectMatrices (this w')) (plusOffset offset 16)) <$>
      getLinearVelocity uuid w /\
  getAngularVelocity uuid w' =
    (fun _ => floatAt (objectMatrices (this w')) (plusOffset offset 17)) <$>
      getAngularVelocity uuid w.
Proof.
  intros Hrun. cbn zeta. unfold getLinearVelocity, getAngularVelocity.
  destruct (tickBody_Normal_steps uuid w w' Hrun)
    as (w2 & r & o'' & _ & _ & Hl & Ha & _ & _ & Hreb).
  cbn zeta in Hreb.
  set (offset := slotOffset (uuidToIndex (this w) !! KeyNum uuid)) in *.
  destruct (rebuildCollisions_keeps uuid offset (readVelocities uuid offset w2))
    as (Rl & Ra & Rb & _ & _).
  rewrite Hreb in Rl, Ra, Rb. cbn [worldOf] in Rl, Ra, Rb.
  destruct (readVelocities_reads uuid offset w2) as (Vl & Va & _ & _).
  destruct (readVelocities_keeps uuid offset w2) as (_ & Vb & _ & _).
  cbn zeta in Vl, Va. rewrite Rl, Ra, Rb, Vb, Vl, Va, Hl, Ha. done.
Qed.

Lemma length_flat_map_le {A B} (f : A -> list B) (l : list A) :
  (forall x, length (f x) <= 1)%nat -> (length (flat_map f l) <= length l)%nat.
Proof.
  intros H. induction l as [|x l IH]; cbn; [done |].
  rewrite length_app. specialize (H x). lia.
Qed.

(** An iteration that completes leaves a collision list of at most
    [BODY_DATA_SIZE - 18] entries, whatever the buffer holds and wherever
    the slot lies. *)
Theorem tickBody_collisions_bounded (uuid : Z) (w w' : World) :
  tickBody uuid w = Normal w' ->
  exists l : list (option Z),
    collisions (this w') !! KeyNum uuid = Some l /\
    (length l <= Z.to_nat (BODY_DATA_SIZE - 18))%nat.
Proof.
  intros Hrun.
  destruct (tickBody_Normal_rebuild uuid w w' Hrun) as (w3 & Hreb & _).
  apply rebuildCollisions_Normal in Hreb as [-> _].
  eexists. split; [reflexivity |].
  unfold scanCollisions.
  etransitivity; [apply length_flat_map_le |].
  - intros j. case_decide; cbn; lia.
  - by rewrite length_seqZ.
Qed.



(** ** The whole tick *)

Lemma syncDebug_bodyOptions (w : World) :
  bodyOptions (this (syncDebug w)) = bodyOptions (this w) /\
  ready (this (syncDebug w)) = ready (this w).
Proof.
  unfold syncDebug. case_decide; [| done].
  destruct w as [s objs msgs ws calls sab cursor]. destruct s. cbn.
  destruct debugRequested0; cbn.
  - unfold enableDebug. cbn. destruct sab; cbn; [| done].
    destruct debugMesh0 as [m|]; cbn; [by destruct (attached m) | done].
  - unfold disableDebug. cbn. by destruct debugMesh0.
Qed.

Lemma tickBodies_missing_options (uuids : list Z) (uuid : Z) (w : World) :
  uuid ∈ uuids -> bodyOptions (this w) !! KeyNum uuid = None ->
  returns (tickBodies uuids w) = false.
Proof.
  revert w. induction uuids as [|u rest IH]; intros w Hin Hopt.
  - by apply elem_of_nil in Hin.
  - cbn [tickBodies]. destruct (decide (u = uuid)) as [->|Hne].
    + unfold tickBody. by rewrite Hopt.
    + apply elem_of_cons in Hin as [->|Hin]; [done |].
      pose proof (tickBody_outside u w) as Ho.
      destruct (tickBody u w) as [w1|e w1]; cbn [worldOf andThen] in *; [| done].
      apply IH; [done |].
      apply (f_equal (fun x => bodyOptions (this x))) in Ho.
      cbn in Ho. by rewrite Ho.
Qed.

(** A listed handle whose options are gone makes every tick that owns the
    buffer throw: no later body is processed and the buffer is not handed
    back. *)
Theorem tick_throws_on_listed_handle_without_options (uuid : Z) (w : World) :
  ready (this w) = true ->
  byteLength (objectMatrices (this w)) <> 0 ->
  uuid ∈ bodyUuids (this w) ->
  bodyOptions (this w) !! KeyNum uuid = None ->
  returns (tick w) = false /\
  posted (worldOf (tick w)) = posted (syncDebug w).
Proof.
  intros Hr Hlen Hin Hopt. unfold tick. rewrite Hr. cbn zeta.
  destruct (syncDebug_simulation w) as (Hs & Hb & _).
  destruct (syncDebug_bodyOptions w) as [Ho _].
  injection Hs as Hbuf _ _ _ _.
  rewrite <- Hbuf in Hlen. rewrite <- Hb in Hin. rewrite <- Ho in Hopt.
  clear Hbuf Hb Ho Hr. revert Hlen Hin Hopt.
  generalize (syncDebug w). clear w. intros w Hlen Hin Hopt.
  unfold exchangeBuffer. rewrite decide_True by done.
  pose proof (tickBodies_missing_options _ uuid w Hin Hopt) as Hret.
  destruct (tickBodies_keeps (bodyUuids (this w)) w) as (_ & Hp & _).
  cbn zeta in Hp.
  destruct (tickBodies (bodyUuids (this w)) w) as [w1|e w1]; [done |].
  cbn. by split.
Qed.

(** A tick that returns, on a ready system that owns the buffer, has
    handed the buffer over: the last message posted is TRANSFER_DATA with
    a buffer of the size received, nothing but SET_DEBUG messages precede
    it, and the local buffer is detached, so that the next tick skips the
    exchange. *)
Theorem tick_hands_buffer_back (w w' : World) :
  ready (this w) = true ->
  byteLength (objectMatrices (this w)) <> 0 ->
  tick w = Normal w' ->
  byteLength (objectMatrices (this w')) = 0 /\
  exists (extra : list Posted) (buffer : list Z),
    posted w' = posted w ++ extra ++ [Post_TRANSFER_DATA buffer] /\
    Forall (fun m => isTransfer m = false) extra /\
    length buffer = length (objectMatrices (this w)).
Proof.
  intros Hr Hlen. unfold tick. rewrite Hr. cbn zeta.
  destruct (syncDebug_simulation w) as (Hs & _ & extra & Hp & Hextra).
  injection Hs as Hbuf _ _ _ _.
  rewrite <- Hbuf in Hlen. rewrite <- Hbuf. clear Hbuf Hr.
  revert Hlen Hp. generalize (syncDebug w). intros w1 Hlen Hp Hrun.
  unfold exchangeBuffer in Hrun. rewrite decide_True in Hrun by done.
  destruct (tickBodies_keeps (bodyUuids (this w1)) w1) as (Hl & Hpost & _).
  cbn zeta in Hl, Hpost.
  destruct (tickBodies (bodyUuids (this w1)) w1) as [w2|e w2]; [| done].
  cbn [andThen worldOf] in *.
  destruct (debugRendering_simulation (transferBuffer w2)) as [Hd Hdp].
  rewrite Hrun in Hd, Hdp. cbn [worldOf] in Hd, Hdp.
  injection Hd as Hdbuf _ _ _ _.
  split; [by rewrite Hdbuf |].
  exists extra, (objectMatrices (this w2)).
  split; [| split; [exact Hextra | exact Hl]].
  rewrite Hdp. cbn. by rewrite Hpost, Hp, <- app_assoc.
Qed.

(** With debug rendering off, a tick that throws has posted nothing and
    still holds a buffer of the same size: a failing iteration never sends
    a half processed buffer to the worker. *)
Theorem tick_throw_keeps_buffer (e : JsError) (w w' : World) :
  debugRequested (this w) = false ->
  debugEnabled (this w) = false ->
  tick w = Throw e w' ->
  ready (this w) = true /\
  byteLength (objectMatrices (this w)) <> 0 /\
  posted w' = posted w /\
  length (objectMatrices (this w')) = length (objectMatrices (this w)).
Proof.
  intros Hreq Hen. unfold tick.
  destruct (ready (this w)); [| done]. cbn zeta.
  rewrite (syncDebug_settled w) by congruence.
  unfold exchangeBuffer.
  assert (forall x : World, debugEnabled (this x) = false ->
            debugRendering x = Normal x) as Hdr.
  { intros x Hx. unfold debugRendering. by rewrite Hx. }
  case_decide as Hlen.
  2: { cbn [andThen]. by rewrite Hdr. }
  destruct (tickBodies_keeps (bodyUuids (this w)) w) as (Hl & Hp & _).
  pose proof (tickBodies_outside (bodyUuids (this w)) w) as Ho.
  cbn zeta in Hl, Hp.
  destruct (tickBodies (bodyUuids (this w)) w) as [w2|e2 w2];
    cbn [andThen worldOf] in *.
  - rewrite Hdr; [done |].
    change (debugEnabled (this (transferBuffer w2))) with (debugEnabled (this w2)).
    apply (f_equal (fun x => debugEnabled (this x))) in Ho.
    cbn in Ho. by rewrite Ho.
  - intros [= <- <-]. done.
Qed.

End Exchange.

Section Debugging.
Context {three : THREE} {cfg : BUFFER_CONFIG}.

(** With shared memory at hand [enableDebug] is idempotent: a second call
    changes nothing; the mesh is added to the scene and the worker is told
    once. *)
Theorem enableDebug_idempotent (w : World) :
  hasSharedArrayBuffer w = true ->
  enableDebug (enableDebug w) = enableDebug w /\
  debugEnabled (this (enableDebug w)) = true /\
  exists m, debugMesh (this (enableDebug w)) = Some m /\ attached m = true.
Proof.
  intros Hsab.
  destruct w as [s objs msgs ws calls sab cursor]. destruct s.
  cbn in Hsab. subst sab. unfold enableDebug. cbn.
  destruct debugMesh0 as [m|]; cbn.
  - destruct (attached m) eqn:Hm; cbn; rewrite ?Hm; cbn; eauto.
  - eauto.
Qed.

Lemma syncDebug_requested (w : World) :
  hasSharedArrayBuffer w = true ->
  debugRequested (this (syncDebug w)) = debugRequested (this w).
Proof.
  intros Hsab. unfold syncDebug. case_decide; [| done].
  destruct w as [s objs msgs ws calls sab cursor]. destruct s.
  cbn in *. subst sab. destruct debugRequested0; cbn.
  - unfold enableDebug. cbn.
    destruct debugMesh0 as [m|]; cbn; [by destruct (attached m) | done].
  - unfold disableDebug. cbn. by destruct debugMesh0.
Qed.

(** A ready tick settles the debug request: afterwards the requested and
    the actual flag agree, so the following tick neither enables nor
    disables anything and posts no further SET_DEBUG message. *)
Theorem tick_settles_debug_request (w : World) :
  ready (this w) = true ->
  hasSharedArrayBuffer w = true \/ debugEnabled (this w) = false ->
  debugRequested (this (worldOf (tick w))) = debugEnabled (this (worldOf (tick w))) /\
  syncDebug (worldOf (tick w)) = worldOf (tick w).
Proof.
  intros Hr Hcase.
  assert (debugRequested (this (worldOf (tick w))) =
          debugEnabled (this (worldOf (tick w)))) as Heq.
  { destruct (tick_ready_debug w Hr) as (-> & -> & _).
    destruct Hcase as [Hsab|Hen].
    - by rewrite syncDebug_requested, syncDebug_enabled.
    - destruct (hasSharedArrayBuffer w) eqn:Hsab.
      + by rewrite syncDebug_requested, syncDebug_enabled.
      + unfold syncDebug. rewrite Hen.
        destruct (debugRequested (this w)) eqn:Hreq.
        * rewrite decide_True by done.
          by rewrite enableDebug_downgrades.
        * rewrite decide_False by (intros H; by apply H). congruence. }
  split; [exact Heq | by apply syncDebug_settled].
Qed.

(** A tick of a ready system with debug rendering on reads the shared
    cursor, makes it the draw count of the debug geometry, marks both
    attributes for upload when it is not zero, and resets it to zero. *)
Theorem tick_publishes_debug_draw_range (w w' : World) (m : DebugMesh) :
  ready (this w) = true ->
  debugRequested (this w) = true ->
  debugEnabled (this w) = true ->
  debugMesh (this w) = Some m ->
  tick w = Normal w' ->
  debugIndex w' = 0 /\
  exists m',
    debugMesh (this w') = Some m' /\
    drawCount m' = Some (debugIndex w) /\
    attached m' = attached m /\
    positionNeedsUpdate m' =
      (if decide (debugIndex w = 0) then positionNeedsUpdate m else true) /\
    colorNeedsUpdate m' =
      (if decide (debugIndex w = 0) then colorNeedsUpdate m else true).
Proof.
  intros Hr Hreq Hen Hm. unfold tick. rewrite Hr. cbn zeta.
  rewrite (syncDebug_settled w) by congruence.
  pose proof (exchangeBuffer_outside w) as Ho.
  destruct (exchangeBuffer w) as [w1|e w1]; cbn [andThen worldOf] in *; [| done].
  assert (debugEnabled (this w1) = true) as Hen1.
  { apply (f_equal (fun x => debugEnabled (this x))) in Ho. cbn in Ho. congruence. }
  assert (debugMesh (this w1) = Some m) as Hm1.
  { apply (f_equal (fun x => debugMesh (this x))) in Ho. cbn in Ho. congruence. }
  assert (debugIndex w1 = debugIndex w) as Hi1.
  { apply (f_equal debugIndex) in Ho. exact Ho. }
  unfold debugRendering. rewrite Hen1, Hm1, Hi1. intros [= <-].
  split; [reflexivity |]. eexists. split; [reflexivity |]. cbn.
  split; [done |]. split; [done |].
  destruct (decide (debugIndex w = 0)) as [Hz|Hz].
  - rewrite bool_decide_eq_false_2 by (intros H; by apply H). done.
  - rewrite bool_decide_eq_true_2 by done. done.
Qed.

(** Debug rendering can be switched off and on again: [disableDebug]
    takes the mesh out of the scene and tells the worker, and the
    [enableDebug] that follows puts the same mesh back (no new mesh or
    shared buffer is made, the draw range and the cursor are kept) and
    tells the worker again.  Unlike [enableDebug], [disableDebug] posts its
    message on every call once the mesh exists. *)
Theorem disableDebug_then_enableDebug_reuses_mesh (w : World) (m : DebugMesh) :
  hasSharedArrayBuffer w = true ->
  debugMesh (this w) = Some m ->
  let w1 := disableDebug w in
  let w2 := enableDebug w1 in
  debugEnabled (this w1) = false /\
  debugMesh (this w1) = Some (set_attached false m) /\
  posted w1 = posted w ++ [Post_SET_DEBUG false] /\
  posted (disableDebug w1) = posted w ++ [Post_SET_DEBUG false; Post_SET_DEBUG false] /\
  debugEnabled (this w2) = true /\
  debugMesh (this w2) = Some (set_attached true m) /\
  debugIndex w2 = debugIndex w /\
  posted w2 = posted w ++ [Post_SET_DEBUG false; Post_SET_DEBUG true].
Proof.
  destruct w as [s objs msgs ws calls sab cursor]. destruct s.
  cbn. intros -> ->. unfold disableDebug, enableDebug. cbn.
  repeat split; by rewrite <- ?app_assoc.
Qed.

End Debugging.

Section Queues.
Context {three : THREE} {cfg : BUFFER_CONFIG}.

(** READY marks the system ready, calls [init2] on the queued body
    helpers that are alive and then on the queued shape helpers that are
    alive, in the order queued, and empties both queues; a second READY
    changes nothing, and a helper registered afterwards is initialised at
    once instead of being queued. *)
Theorem READY_flushes_helper_queues (w : World) (h : Helper) :
  let w' := worldOf (onmessage READY w) in
  onmessage READY w = Normal w' /\
  ready (this w') = true /\
  bodyHelpers (this w') = [] /\ shapeHelpers (this w') = [] /\
  init2Calls w' =
    init2Calls w
    ++ (helper_id <$> filter (fun h => alive h = true) (bodyHelpers (this w)))
    ++ (helper_id <$> filter (fun h => alive h = true) (shapeHelpers (this w))) /\
  onmessage READY w' = Normal w' /\
  init2Calls (registerBodyHelper h w') = init2Calls w' ++ [helper_id h] /\
  init2Calls (registerShapeHelper h w') = init2Calls w' ++ [helper_id h] /\
  bodyHelpers (this (registerBodyHelper h w')) = [] /\
  shapeHelpers (this (registerShapeHelper h w')) = [].
Proof.
  destruct w as [s objs msgs ws calls sab cursor]. destruct s.
  cbv zeta. unfold onmessage, registerBodyHelper, registerShapeHelper,
    init2Alive, update_this. cbn.
  rewrite <- app_assoc. rewrite !app_nil_r. by repeat split.
Qed.

(** Before READY a helper is queued and [init2] is not called; READY then
    calls it if the helper is alive, after the helpers queued before it. *)
Theorem helper_registered_before_READY_waits (w : World) (h : Helper) :
  ready (this w) = false ->
  init2Calls (registerBodyHelper h w) = init2Calls w /\
  bodyHelpers (this (registerBodyHelper h w)) = bodyHelpers (this w) ++ [h] /\
  init2Calls (worldOf (onmessage READY (registerBodyHelper h w))) =
    init2Calls w
    ++ (helper_id <$> filter (fun h => alive h = true) (bodyHelpers (this w)))
    ++ (if alive h then [helper_id h] else [])
    ++ (helper_id <$> filter (fun h => alive h = true) (shapeHelpers (this w))).
Proof.
  intros Hr. unfold registerBodyHelper. rewrite Hr.
  destruct w as [s objs msgs ws calls sab cursor]. destruct s. cbn.
  split; [done |]. split; [done |].
  rewrite filter_app, fmap_app, <- !app_assoc. do 2 f_equal.
  rewrite filter_cons, filter_nil.
  destruct (alive h); cbn; by rewrite ?decide_True, ?decide_False by done.
Qed.

(** A shape set is listed twice once the worker has acknowledged it:
    [addShapes] appends the new handle to the list of its body, creating
    the list when the body has none, and the SHAPES_READY for the same
    handle appends it again. *)
Theorem addShapes_then_SHAPES_READY_lists_twice (bodyUuid : Z) (w : World) :
  let a := addShapes bodyUuid w in
  let before := default [] (shapes (this w) !! KeyNum bodyUuid) in
  a.1 = nextShapeUuid (this w) /\
  nextShapeUuid (this a.2) = a.1 + 1 /\
  shapes (this a.2) !! KeyNum bodyUuid = Some (before ++ [a.1]) /\
  returns (onmessage (SHAPES_READY bodyUuid a.1) a.2) = true /\
  shapes (this (worldOf (onmessage (SHAPES_READY bodyUuid a.1) a.2)))
    !! KeyNum bodyUuid = Some (before ++ [a.1; a.1]).
Proof.
  cbn zeta. unfold addShapes.
  destruct (shapes (this w) !! KeyNum bodyUuid) as [l|] eqn:Hl; cbn.
  - rewrite ?Hl. cbn. rewrite ?lookup_insert_eq, ?Hl. cbn.
    rewrite ?lookup_insert_eq, ?Hl. cbn. rewrite <- app_assoc. by repeat split.
  - rewrite ?Hl. cbn. rewrite ?lookup_insert_eq, ?Hl. cbn.
    rewrite ?lookup_insert_eq, ?Hl. cbn. by repeat split.
Qed.

End Queues.

Section Bodies.
Context {three : THREE} {cfg : BUFFER_CONFIG}.

(** [updateBody] takes effect at the next iteration: once the options of
    a body name the type KINEMATIC or STATIC, the iteration for it moves
    no scene object, whatever the type was before; the options are stored
    even for a handle that has none. *)
Theorem updateBody_stops_simulation_driving (uuid : Z) (options : BodyOptions)
    (w : World) (r : ObjRef) :
  type options = Some KINEMATIC \/ type options = Some STATIC ->
  let w' := worldOf (tickBody uuid (updateBody uuid options w)) in
  bodyOptions (this w') !! KeyNum uuid = Some options /\
  poseOf <$> objects w' !! r = poseOf <$> objects w !! r /\
  scale <$> objects w' !! r = scale <$> objects w !! r.
Proof.
  intros Htype. cbn zeta.
  assert (default DYNAMIC (type options) <> DYNAMIC) as Hkin
    by (destruct Htype as [-> | ->]; done).
  split.
  - pose proof (tickBody_outside uuid (updateBody uuid options w)) as Ho.
    apply (f_equal (fun x => bodyOptions (this x))) in Ho. cbn in Ho.
    rewrite Ho. apply lookup_insert_eq.
  - apply placement_pose. unfold tickBody.
    change (bodyOptions (this (updateBody uuid options w)))
      with (<[KeyNum uuid := options]> (bodyOptions (this w))).
    rewrite lookup_insert_eq, decide_False by exact Hkin.
    cbn [andThen]. rewrite tickBody_rest_placement. done.
Qed.

(** With no live body and debug rendering off, the tick that follows a
    TRANSFER_DATA message sends the received buffer straight back,
    unchanged, records the step duration, and leaves the scene alone. *)
Theorem tick_without_bodies_returns_the_buffer (buffer : list Z)
    (duration : Num) (w : World) :
  ready (this w) = true ->
  bodyUuids (this w) = [] ->
  debugRequested (this w) = false ->
  debugEnabled (this w) = false ->
  buffer <> [] ->
  let w' := worldOf (tick (worldOf (onmessage (TRANSFER_DATA buffer duration) w))) in
  returns (tick (worldOf (onmessage (TRANSFER_DATA buffer duration) w))) = true /\
  posted w' = posted w ++ [Post_TRANSFER_DATA buffer] /\
  objectMatrices (this w') = [] /\
  stepDuration (this w') = duration /\
  objects w' = objects w.
Proof.
  intros Hr Hb Hreq Hen Hbuf. cbv zeta.
  change (worldOf (onmessage (TRANSFER_DATA buffer duration) w))
    with (update_this (set_stepDuration duration)
            (update_this (set_objectMatrices buffer) w)).
  set (w0 := update_this (set_stepDuration duration)
               (update_this (set_objectMatrices buffer) w)).
  assert (tick w0 = Normal (transferBuffer w0)) as ->.
  { unfold tick. change (ready (this w0)) with (ready (this w)). rewrite Hr.
    cbn zeta. rewrite (syncDebug_settled w0) by (cbn; congruence).
    unfold exchangeBuffer. change (objectMatrices (this w0)) with buffer.
    rewrite decide_True
      by (unfold byteLength; destruct buffer; [done | cbn [length]; lia]).
    change (bodyUuids (this w0)) with (bodyUuids (this w)). rewrite Hb.
    cbn [tickBodies andThen]. unfold debugRendering.
    change (debugEnabled (this (transferBuffer w0))) with (debugEnabled (this w)).
    by rewrite Hen. }
  by repeat split.
Qed.

End Bodies.

Section Sessions.
Context {three : THREE} {cfg : BUFFER_CONFIG}.

Lemma session_snoc (sab : bool) (scene : gmap ObjRef Object3D)
    (cs : list Call) (c : Call) :
  session sab scene (cs ++ [c]) = call c (session sab scene cs).
Proof. unfold session. by rewrite foldl_app. Qed.

(** ** What the tick leaves to the other methods *)

Lemma enableDebug_control (w : World) :
  controlState (enableDebug w) = controlState w.
Proof.
  destruct w as [s objs msgs ws calls sab cursor]. destruct s.
  unfold enableDebug. cbn. destruct sab; cbn; [| done].
  destruct debugMesh0 as [m|]; cbn; [by destruct (attached m) | done].
Qed.

Lemma disableDebug_control (w : World) :
  controlState (disableDebug w) = controlState w.
Proof.
  destruct w as [s objs msgs ws calls sab cursor]. destruct s.
  unfold disableDebug. cbn. by destruct debugMesh0.
Qed.

Lemma syncDebug_control (w : World) :
  controlState (syncDebug w) = controlState w.
Proof.
  unfold syncDebug. case_decide; [| done].
  destruct (debugRequested (this w));
    [apply enableDebug_control | apply disableDebug_control].
Qed.

Lemma debugRendering_control (w : World) :
  controlState (worldOf (debugRendering w)) = controlState w.
Proof.
  unfold debugRendering. destruct (debugEnabled (this w)); [| done].
  by destruct (debugMesh (this w)).
Qed.

Lemma tick_control (w : World) :
  controlState (worldOf (tick w)) = controlState w.
Proof.
  unfold tick. destruct (ready (this w)); [| done]. cbn zeta.
  rewrite worldOf_andThen, <- (syncDebug_control w).
  pose proof (exchangeBuffer_outside (syncDebug w)) as Ho.
  apply (f_equal controlState) in Ho.
  change (controlState (outsideSimulation ?x)) with (controlState x) in Ho.
  destruct (exchangeBuffer (syncDebug w)) as [w1|e w1]; cbn [worldOf] in *;
    [| exact Ho].
  by rewrite debugRendering_control.
Qed.

(** ** The system is ready exactly when READY has arrived *)

Lemma call_keeps_ready (c : Call) (w : World) :
  c <> Receive READY -> ready (this (call c w)) = ready (this w).
Proof.
  intros Hc. destruct c; try reflexivity; cbn [call].
  - destruct data; try reflexivity; [done |].
    cbn. by destruct (shapes (this w) !! KeyNum bodyUuid).
  - exact (f_equal (fun x => x.1.1.1.1.2) (tick_control w)).
  - exact (f_equal (fun x => x.1.1.1.1.2) (enableDebug_control w)).
  - exact (f_equal (fun x => x.1.1.1.1.2) (disableDebug_control w)).
  - unfold addShapes. cbn. by destruct (shapes (this w) !! KeyNum bodyUuid).
  - unfold removeShapes. cbn.
    destruct (shapes (this w) !! KeyName "bodyUuid"); [| done].
    by destruct (shapes (this w) !! KeyNum bodyUuid).
  - unfold registerBodyHelper. by destruct (ready (this w)) eqn:Hr.
  - unfold registerShapeHelper. by destruct (ready (this w)) eqn:Hr.
Qed.

Lemma call_ready (c : Call) (w : World) :
  ready (this (call c w)) = true <-> c = Receive READY \/ ready (this w) = true.
Proof.
  assert (c = Receive READY \/ c <> Receive READY) as [->|Hc].
  { destruct c; try (right; discriminate).
    destruct data; try (right; discriminate). by left. }
  - split; [by left | done].
  - rewrite call_keeps_ready by done. naive_solver.
Qed.

(** In every session the system is ready exactly when a READY message has
    been received: no method sets the flag, and nothing clears it. *)
Theorem ready_iff_READY_received (sab : bool) (scene : gmap ObjRef Object3D)
    (cs : list Call) :
  ready (this (session sab scene cs)) = true <-> Receive READY ∈ cs.
Proof.
  induction cs as [|c cs IH] using rev_ind.
  - cbn. split; [done | intros H; by apply elem_of_nil in H].
  - rewrite session_snoc, call_ready, IH, elem_of_app, list_elem_of_singleton.
    naive_solver.
Qed.

(** ** Only numbers become keys *)

Lemma tick_control_fields (w : World) :
  uuidToIndex (this (worldOf (tick w))) = uuidToIndex (this w) /\
  indexToUuid (this (worldOf (tick w))) = indexToUuid (this w) /\
  object3Ds (this (worldOf (tick w))) = object3Ds (this w) /\
  shapes (this (worldOf (tick w))) = shapes (this w) /\
  nextBodyUuid (this (worldOf (tick w))) = nextBodyUuid (this w).
Proof.
  pose proof (tick_control w) as H. unfold controlState in H.
  injection H as _ _ _ H1 H2 H3 _ H4 _ H5 _ _ _. done.
Qed.

Lemma call_namesAbsent (c : Call) (w : World) :
  namesAbsent w -> namesAbsent (call c w).
Proof.
  intros H name. destruct (H name) as (H1 & H2 & H3).
  destruct c; try (by repeat split); cbn [call].
  - destruct data; try (by repeat split); cbn.
    + by rewrite !lookup_insert_ne.
    + destruct (shapes (this w) !! KeyNum bodyUuid); cbn; [| done].
      by rewrite lookup_insert_ne.
  - destruct (tick_control_fields w) as (-> & -> & _ & -> & _). done.
  - pose proof (enableDebug_control w) as Hc. unfold controlState in Hc.
    injection Hc as _ _ _ -> -> _ _ -> _ _ _ _ _. done.
  - pose proof (disableDebug_control w) as Hc. unfold controlState in Hc.
    injection Hc as _ _ _ -> -> _ _ -> _ _ _ _ _. done.
  - split; [| split]; [| | done].
    + rewrite removeBody_uuidToIndex. by rewrite lookup_delete_ne.
    + rewrite removeBody_indexToUuid. apply lookup_delete_None. by right.
  - unfold addShapes. cbn.
    destruct (shapes (this w) !! KeyNum bodyUuid); cbn;
      by rewrite ?lookup_insert_ne.
  - unfold removeShapes. cbn.
    destruct (shapes (this w) !! KeyName "bodyUuid"); cbn; [| done].
    destruct (shapes (this w) !! KeyNum bodyUuid); cbn; [| done].
    by rewrite lookup_insert_ne.
  - unfold registerBodyHelper. by destruct (ready (this w)).
  - unfold registerShapeHelper. by destruct (ready (this w)).
Qed.

Lemma session_namesAbsent (sab : bool) (scene : gmap ObjRef Object3D)
    (cs : list Call) :
  namesAbsent (session sab scene cs).
Proof.
  induction cs as [|c cs IH] using rev_ind.
  - intros name. by repeat split.
  - rewrite session_snoc. by apply call_namesAbsent.
Qed.

(** In every session both maps of the registry and the shapes object have
    numeric keys only; in particular the slot-to-handle map never has a
    key named undefined, so [removeBody] of an unbound handle deletes
    nothing from it. *)
Theorem session_keys_are_numeric (sab : bool) (scene : gmap ObjRef Object3D)
    (cs : list Call) (name : string) (uuid : Z) :
  let w := session sab scene cs in
  uuidToIndex (this w) !! KeyName name = None /\
  indexToUuid (this w) !! KeyName name = None /\
  shapes (this w) !! KeyName name = None /\
  (uuidToIndex (this w) !! KeyNum uuid = None ->
   indexToUuid (this (removeBody uuid w)) = indexToUuid (this w)).
Proof.
  cbn zeta. destruct (session_namesAbsent sab scene cs name) as (H1 & H2 & H3).
  do 3 (split; [assumption |]).
  intros Hu. rewrite removeBody_indexToUuid, Hu. cbn [toPropertyKey].
  apply delete_id. apply (session_namesAbsent sab scene cs "undefined").
Qed.

(** In every session [removeShapes] returns after posting its message and
    leaves every shape list as it is: nothing is ever removed from the
    shapes object. *)
Theorem removeShapes_never_removes (sab : bool) (scene : gmap ObjRef Object3D)
    (cs : list Call) (bodyUuid shapesUuid : Z) :
  let w := session sab scene cs in
  removeShapes bodyUuid shapesUuid w =
    Normal (postMessage (Post_REMOVE_SHAPES bodyUuid shapesUuid) w) /\
  shapes (this (worldOf (removeShapes bodyUuid shapesUuid w))) = shapes (this w).
Proof.
  cbn zeta.
  rewrite removeShapes_shapes by apply (session_namesAbsent sab scene cs "bodyUuid").
  done.
Qed.

(** ** Handles are new *)

Lemma tickBody_absent (uuid h : Z) (w : World) :
  let w' := worldOf (tickBody uuid w) in
  (collisions (this w) !! KeyNum h = None ->
   collisions (this w') !! KeyNum h = None) /\
  (bodyLinearVelocities (this w) !! KeyNum h = None ->
   bodyLinearVelocities (this w') !! KeyNum h = None) /\
  (bodyAngularVelocities (this w) !! KeyNum h = None ->
   bodyAngularVelocities (this w') !! KeyNum h = None).
Proof.
  cbn zeta. destruct (decide (h = uuid)) as [->|Hne].
  2: { destruct (tickBody_keeps uuid w) as (_ & _ & Ho).
       destruct (Ho h Hne) as (-> & -> & ->). done. }
  unfold tickBody.
  destruct (bodyOptions (this w) !! KeyNum uuid) as [options|]; [| done].
  set (offset := slotOffset (uuidToIndex (this w) !! KeyNum uuid)).
  set (object3D := object3Ds (this w) !! KeyNum uuid).
  assert (forall w1 : World, this w1 = this w ->
            let w' := worldOf
                        (let! w := writeWorldTransform object3D offset w1 in
                         rebuildCollisions uuid offset (readVelocities uuid offset w)) in
            (collisions (this w) !! KeyNum uuid = None ->
             collisions (this w') !! KeyNum uuid = None) /\
            (bodyLinearVelocities (this w) !! KeyNum uuid = None ->
             bodyLinearVelocities (this w') !! KeyNum uuid = None) /\
            (bodyAngularVelocities (this w) !! KeyNum uuid = None ->
             bodyAngularVelocities (this w') !! KeyNum uuid = None)) as Hrest.
  { intros w1 Ht. cbn zeta. rewrite worldOf_andThen.
    destruct (writeWorldTransform_this object3D offset w1) as (Hl & Ha & Hc & _ & _).
    rewrite Ht in Hl, Ha, Hc.
    destruct (writeWorldTransform object3D offset w1) as [w2|e w2];
      cbn [worldOf] in *.
    2: { by rewrite Hl, Ha, Hc. }
    destruct (rebuildCollisions_keeps uuid offset (readVelocities uuid offset w2))
      as (Rl & Ra & _ & _ & _).
    destruct (readVelocities_reads uuid offset w2) as (Vl & Va & _ & _).
    destruct (readVelocities_keeps uuid offset w2) as (_ & _ & _ & Vc).
    cbn zeta in *. rewrite Rl, Ra, Vl, Va, Hl, Ha.
    split; [| split; intros ->; done].
    intros Hnone. unfold rebuildCollisions. rewrite Vc, Hc, Hnone.
    cbn [worldOf]. by rewrite Vc, Hc. }
  rewrite worldOf_andThen.
  destruct (decide (default DYNAMIC (type options) = DYNAMIC)) as [Hdyn|Hdyn].
  - destruct (applySimulationTransform_this object3D offset w) as [Ht _].
    destruct (applySimulationTransform object3D offset w) as [w1|e w1];
      cbn [worldOf] in *.
    + by apply Hrest.
    + by rewrite Ht.
  - by apply Hrest.
Qed.

Lemma tickBodies_absent (uuids : list Z) (h : Z) (w : World) :
  let w' := worldOf (tickBodies uuids w) in
  (collisions (this w) !! KeyNum h = None ->
   collisions (this w') !! KeyNum h = None) /\
  (bodyLinearVelocities (this w) !! KeyNum h = None ->
   bodyLinearVelocities (this w') !! KeyNum h = None) /\
  (bodyAngularVelocities (this w) !! KeyNum h = None ->
   bodyAngularVelocities (this w') !! KeyNum h = None).
Proof.
  revert w. induction uuids as [|uuid rest IH]; intros w; cbn zeta; [done |].
  cbn [tickBodies]. rewrite worldOf_andThen.
  destruct (tickBody_absent uuid h w) as (Hc & Hl & Ha). cbn zeta in *.
  destruct (tickBody uuid w) as [w1|e w1]; cbn [worldOf] in *; [| done].
  destruct (IH w1) as (Hc1 & Hl1 & Ha1). cbn zeta in *. naive_solver.
Qed.

Lemma tick_absent (h : Z) (w : World) :
  let w' := worldOf (tick w) in
  (collisions (this w) !! KeyNum h = None ->
   collisions (this w') !! KeyNum h = None) /\
  (bodyLinearVelocities (this w) !! KeyNum h = None ->
   bodyLinearVelocities (this w') !! KeyNum h = None) /\
  (bodyAngularVelocities (this w) !! KeyNum h = None ->
   bodyAngularVelocities (this w') !! KeyNum h = None).
Proof.
  cbn zeta. unfold tick. destruct (ready (this w)); [| done]. cbn zeta.
  destruct (syncDebug_simulation w) as (Hs & _ & _).
  injection Hs as _ Hcol Hlin Hang _. rewrite <- Hcol, <- Hlin, <- Hang.
  clear Hcol Hlin Hang. generalize (syncDebug w). clear w. intros w.
  rewrite worldOf_andThen.
  assert (let w1 := worldOf (exchangeBuffer w) in
          (collisions (this w) !! KeyNum h = None ->
           collisions (this w1) !! KeyNum h = None) /\
          (bodyLinearVelocities (this w) !! KeyNum h = None ->
           bodyLinearVelocities (this w1) !! KeyNum h = None) /\
          (bodyAngularVelocities (this w) !! KeyNum h = None ->
           bodyAngularVelocities (this w1) !! KeyNum h = None)) as Hex.
  { cbn zeta. unfold exchangeBuffer. case_decide as Hlen; [| done].
    rewrite worldOf_andThen.
    pose proof (tickBodies_absent (bodyUuids (this w)) h w) as Hb. cbn zeta in Hb.
    destruct (tickBodies (bodyUuids (this w)) w) as [w1|e w1]; cbn [worldOf] in *;
      exact Hb. }
  cbn zeta in Hex.
  destruct (exchangeBuffer w) as [w1|e w1]; cbn [worldOf] in *; [| exact Hex].
  destruct (debugRendering_simulation w1) as [Hd _].
  injection Hd as _ Dcol Dlin Dang _. rewrite Dcol, Dlin, Dang. exact Hex.
Qed.

Lemma handlesFresh_same (w w' : World) :
  object3Ds (this w') = object3Ds (this w) ->
  collisions (this w') = collisions (this w) ->
  bodyLinearVelocities (this w') = bodyLinearVelocities (this w) ->
  bodyAngularVelocities (this w') = bodyAngularVelocities (this w) ->
  nextBodyUuid (this w') = nextBodyUuid (this w) ->
  handlesFresh w -> handlesFresh w'.
Proof.
  intros Ho Hc Hl Ha Hn H h Hh. rewrite Ho, Hc, Hl, Ha. apply H. by rewrite <- Hn.
Qed.

Lemma call_handlesFresh (c : Call) (w : World) :
  handlesFresh w -> handlesFresh (call c w).
Proof.
  intros H. destruct c; cbn [call].
  - destruct data; cbn.
    + by apply (handlesFresh_same w).
    + by apply (handlesFresh_same w).
    + destruct (shapes (this w) !! KeyNum bodyUuid); by apply (handlesFresh_same w).
    + by apply (handlesFresh_same w).
    + exact H.
  - intros h Hh. destruct (tick_control_fields w) as (_ & _ & Ho & _ & Hn).
    rewrite Hn in Hh. rewrite Ho. destruct (H h Hh) as (H1 & H2 & H3 & H4).
    destruct (tick_absent h w) as (Tc & Tl & Ta). cbn zeta in *. auto.
  - by apply (handlesFresh_same w).
  - pose proof (enableDebug_control w) as Hc. unfold controlState in Hc.
    injection Hc as _ _ _ _ _ Ho _ _ _ Hn _ _ _.
    destruct (enableDebug_simulation w) as (Hs & _ & _).
    injection Hs as _ Hcol Hlin Hang _.
    by apply (handlesFresh_same w).
  - pose proof (disableDebug_control w) as Hc. unfold controlState in Hc.
    injection Hc as _ _ _ _ _ Ho _ _ _ Hn _ _ _.
    destruct (disableDebug_simulation w) as (Hs & _ & _).
    injection Hs as _ Hcol Hlin Hang _.
    by apply (handlesFresh_same w).
  - intros h Hh. cbn in Hh. cbn.
    assert (KeyNum (nextBodyUuid (this w)) <> KeyNum h) as Hk
      by (intros [=]; lia).
    rewrite !(lookup_insert_ne _ _ _ _ Hk). apply H. lia.
  - by apply (handlesFresh_same w).
  - intros h Hh. destruct (H h Hh) as (H1 & H2 & H3 & H4).
    rewrite removeBody_this. cbn. rewrite !lookup_delete_None. auto.
  - unfold addShapes. cbn.
    destruct (shapes (this w) !! KeyNum bodyUuid); by apply (handlesFresh_same w).
  - unfold removeShapes. cbn.
    destruct (shapes (this w) !! KeyName "bodyUuid"); [| by apply (handlesFresh_same w)].
    destruct (shapes (this w) !! KeyNum bodyUuid); by apply (handlesFresh_same w).
  - by apply (handlesFresh_same w).
  - by apply (handlesFresh_same w).
  - unfold registerBodyHelper. destruct (ready (this w)); by apply (handlesFresh_same w).
  - unfold registerShapeHelper. destruct (ready (this w)); by apply (handlesFresh_same w).
  - by apply (handlesFresh_same w).
  - by apply (handlesFresh_same w).
  - by apply (handlesFresh_same w).
  - by apply (handlesFresh_same w).
Qed.

(** In every session the handle that [addBody] is about to return is new:
    no object, collision list or cached velocity is registered under it or
    under any later handle, so [addBody] never overwrites another body. *)
Theorem addBody_returns_a_new_handle (sab : bool) (scene : gmap ObjRef Object3D)
    (cs : list Call) (object3D : ObjRef) (options : BodyOptions) :
  let w := session sab scene cs in
  let h := (addBody object3D options w).1 in
  0 <= h /\
  object3Ds (this w) !! KeyNum h = None /\
  collisions (this w) !! KeyNum h = None /\
  getLinearVelocity h w = None /\
  getAngularVelocity h w = None.
Proof.
  cbn zeta.
  change (addBody object3D options (session sab scene cs)).1
    with (nextBodyUuid (this (session sab scene cs))).
  assert (handlesFresh (session sab scene cs) /\
          0 <= nextBodyUuid (this (session sab scene cs))) as [Hf Hn].
  { induction cs as [|c cs IH] using rev_ind.
    - split; [by intros h Hh | cbn; lia].
    - rewrite session_snoc. destruct IH as [IH1 IH2].
      split; [by apply call_handlesFresh |].
      destruct c; try exact IH2; cbn [call].
      + destruct data; try exact IH2.
        cbn. by destruct (shapes (this (session sab scene cs)) !! KeyNum bodyUuid).
      + destruct (tick_control_fields (session sab scene cs)) as (_ & _ & _ & _ & ->).
        exact IH2.
      + pose proof (enableDebug_control (session sab scene cs)) as Hc.
        unfold controlState in Hc. injection Hc as _ _ _ _ _ _ _ _ _ -> _ _ _.
        exact IH2.
      + pose proof (disableDebug_control (session sab scene cs)) as Hc.
        unfold controlState in Hc. injection Hc as _ _ _ _ _ _ _ _ _ -> _ _ _.
        exact IH2.
      + cbn. lia.
      + unfold addShapes. cbn.
        by destruct (shapes (this (session sab scene cs)) !! KeyNum bodyUuid).
      + unfold removeShapes. cbn.
        destruct (shapes (this (session sab scene cs)) !! KeyName "bodyUuid");
          [| exact IH2].
        by destruct (shapes (this (session sab scene cs)) !! KeyNum bodyUuid).
      + unfold registerBodyHelper.
        by destruct (ready (this (session sab scene cs))).
      + unfold registerShapeHelper.
        by destruct (ready (this (session sab scene cs))). }
  split; [exact Hn |]. apply Hf. lia.
Qed.

(** ** The debug mesh *)

Lemma debugMeshReady_same (w w' : World) :
  debugEnabled (this w') = debugEnabled (this w) ->
  debugMesh (this w') = debugMesh (this w) ->
  debugMeshReady w -> debugMeshReady w'.
Proof. intros He Hm H. unfold debugMeshReady. by rewrite He, Hm. Qed.

Lemma debugState_same (w w' : World) :
  debugState w' = debugState w -> debugMeshReady w -> debugMeshReady w'.
Proof.
  intros H. injection H as He Hm _ _. by apply debugMeshReady_same.
Qed.

Lemma enableDebug_debugMeshReady (w : World) :
  debugMeshReady w -> debugMeshReady (enableDebug w).
Proof.
  destruct w as [s objs msgs ws calls sab cursor]. destruct s.
  unfold debugMeshReady, enableDebug. cbn. intros H. destruct sab; cbn.
  - destruct debugMesh0 as [m|]; cbn.
    + destruct (attached m) eqn:Hm; cbn; eauto.
    + eauto.
  - exact H.
Qed.

Lemma disableDebug_debugMeshReady (w : World) :
  debugMeshReady (disableDebug w).
Proof.
  destruct w as [s objs msgs ws calls sab cursor]. destruct s.
  unfold debugMeshReady, disableDebug. cbn. by destruct debugMesh0.
Qed.

Lemma tick_debugMeshReady (w : World) :
  debugMeshReady w -> debugMeshReady (worldOf (tick w)).
Proof.
  intros H. unfold tick. destruct (ready (this w)); [| exact H]. cbn zeta.
  assert (debugMeshReady (syncDebug w)) as Hs.
  { unfold syncDebug. case_decide; [| exact H].
    destruct (debugRequested (this w));
      [by apply enableDebug_debugMeshReady | apply disableDebug_debugMeshReady]. }
  clear H. revert Hs. generalize (syncDebug w). clear w. intros w H.
  rewrite worldOf_andThen.
  destruct (exchangeBuffer_debug w) as (He & _ & Hm & _). cbn zeta in He, Hm.
  destruct (exchangeBuffer w) as [w1|e w1]; cbn [worldOf] in *.
  2: { by apply (debugMeshReady_same w). }
  assert (debugMeshReady w1) as H1 by (by apply (debugMeshReady_same w)).
  clear H He Hm. unfold debugRendering.
  destruct (debugEnabled (this w1)) eqn:Hen; [| exact H1].
  destruct (H1 Hen) as (m & Hm & Ha). rewrite Hm. cbn [worldOf].
  intros _. cbn. eauto.
Qed.

Lemma call_debugMeshReady (c : Call) (w : World) :
  debugMeshReady w -> debugMeshReady (call c w).
Proof.
  intros H. destruct c; cbn [call].
  - apply (debugState_same w); [apply onmessage_debugState | exact H].
  - by apply tick_debugMeshReady.
  - apply (debugMeshReady_same w); [done | done | exact H].
  - by apply enableDebug_debugMeshReady.
  - apply disableDebug_debugMeshReady.
  - apply (debugState_same w); [apply addBody_debugState | exact H].
  - apply (debugState_same w); [apply updateBody_debugState | exact H].
  - apply (debugState_same w); [apply removeBody_debugState | exact H].
  - apply (debugState_same w); [apply addShapes_debugState | exact H].
  - apply (debugState_same w); [apply removeShapes_debugState | exact H].
  - apply (debugMeshReady_same w); [done | done | exact H].
  - apply (debugMeshReady_same w); [done | done | exact H].
  - unfold registerBodyHelper. destruct (ready (this w));
      (apply (debugMeshReady_same w); [done | done | exact H]).
  - unfold registerShapeHelper. destruct (ready (this w));
      (apply (debugMeshReady_same w); [done | done | exact H]).
  - apply (debugMeshReady_same w); [done | done | exact H].
  - apply (debugMeshReady_same w); [done | done | exact H].
  - exact H.
  - exact H.
Qed.

(** In every session debug rendering is on only with the debug mesh
    created and in the scene; the debug step of a tick therefore never
    throws. *)
Theorem debug_step_never_throws (sab : bool) (scene : gmap ObjRef Object3D)
    (cs : list Call) :
  let w := session sab scene cs in
  (debugEnabled (this w) = true ->
   exists m, debugMesh (this w) = Some m /\ attached m = true) /\
  returns (debugRendering w) = true.
Proof.
  cbn zeta.
  assert (debugMeshReady (session sab scene cs)) as H.
  { induction cs as [|c cs IH] using rev_ind.
    - intros He. done.
    - rewrite session_snoc. by apply call_debugMeshReady. }
  split; [exact H |].
  unfold debugRendering.
  destruct (debugEnabled (this (session sab scene cs))) eqn:He; [| done].
  destruct (H He) as (m & -> & _). done.
Qed.

(** ** The buffer is passed back and forth *)

Lemma buffers_unchanged (w w' : World) (extra : list Posted) :
  posted w' = posted w ++ extra ->
  Forall (fun m => isTransfer m = false) extra ->
  objectMatrices (this w') = objectMatrices (this w) ->
  buffersPosted w' = buffersPosted w /\ buffersHeld w' = buffersHeld w.
Proof.
  intros Hp Hextra Hb. unfold buffersPosted, buffersHeld. rewrite Hp, Hb.
  clear Hp Hb. split; [| done]. rewrite filter_app, length_app.
  replace (filter (fun m => isTransfer m = true) extra) with (@nil Posted); [cbn; lia |].
  symmetry. induction Hextra as [|m extra Hm _ IH]; [done |].
  rewrite filter_cons_False; [exact IH | congruence].
Qed.

Lemma tick_buffers (w : World) :
  (buffersPosted (worldOf (tick w)) + buffersHeld (worldOf (tick w)) <=
   buffersPosted w + buffersHeld w)%nat.
Proof.
  unfold tick. destruct (ready (this w)); [| done]. cbn zeta.
  destruct (syncDebug_simulation w) as (Hs & _ & extra & Hp & Hextra).
  injection Hs as Hbuf _ _ _ _.
  destruct (buffers_unchanged w (syncDebug w) extra Hp Hextra Hbuf) as [<- <-].
  clear. generalize (syncDebug w). clear w. intros w.
  assert (forall x : World,
            buffersPosted (worldOf (debugRendering x)) = buffersPosted x /\
            buffersHeld (worldOf (debugRendering x)) = buffersHeld x) as Hdr.
  { intros x. destruct (debugRendering_simulation x) as [Hd Hdp].
    injection Hd as Hdb _ _ _ _.
    apply (buffers_unchanged x _ []); [by rewrite app_nil_r | done | done]. }
  rewrite worldOf_andThen. unfold exchangeBuffer.
  case_decide as Hlen.
  2: { cbn [worldOf]. destruct (Hdr w) as [-> ->]. done. }
  destruct (tickBodies_keeps (bodyUuids (this w)) w) as (Hl & Hpost & _).
  cbn zeta in Hl, Hpost.
  assert (buffersHeld w = 1%nat) as Hheld.
  { unfold buffersHeld. by rewrite decide_False. }
  destruct (tickBodies (bodyUuids (this w)) w) as [w2|e w2];
    cbn [andThen worldOf] in *.
  - destruct (Hdr (transferBuffer w2)) as [-> ->]. rewrite Hheld.
    unfold buffersPosted, buffersHeld. cbn.
    rewrite Hpost, filter_app, length_app.
    rewrite decide_True by done.
    rewrite (filter_cons_True (fun m => isTransfer m = true)) by done.
    cbn [filter list_filter length]. rewrite ?filter_nil. cbn [length]. lia.
  - unfold buffersPosted, buffersHeld, byteLength in *. rewrite Hpost, Hl. lia.
Qed.

Lemma call_buffers (c : Call) (w : World) :
  (buffersPosted (call c w) + buffersHeld (call c w) <=
   buffersPosted w + buffersHeld w + (if deliversBuffer c then 1 else 0))%nat.
Proof.
  assert (forall (w' : World) (extra : list Posted),
            posted w' = posted w ++ extra ->
            Forall (fun m => isTransfer m = false) extra ->
            objectMatrices (this w') = objectMatrices (this w) ->
            (buffersPosted w' + buffersHeld w' <=
             buffersPosted w + buffersHeld w +
             (if deliversBuffer c then 1 else 0))%nat) as Hsame.
  { intros w' extra Hp He Hb.
    destruct (buffers_unchanged w w' extra Hp He Hb) as [-> ->]. lia. }
  assert (forall w' : World,
            posted w' = posted w ->
            objectMatrices (this w') = objectMatrices (this w) ->
            (buffersPosted w' + buffersHeld w' <=
             buffersPosted w + buffersHeld w +
             (if deliversBuffer c then 1 else 0))%nat) as Hquiet.
  { intros w' Hp Hb. apply (Hsame w' []); [by rewrite app_nil_r | done | done]. }
  assert (forall m : Posted, isTransfer m = false ->
            (buffersPosted (postMessage m w) + buffersHeld (postMessage m w) <=
             buffersPosted w + buffersHeld w +
             (if deliversBuffer c then 1 else 0))%nat) as Hpost.
  { intros m Hm. apply (Hsame _ [m]); [done | by constructor | done]. }
  destruct c; cbn [call].
  - destruct data; cbn [deliversBuffer].
    + by apply Hquiet.
    + by apply Hquiet.
    + cbn. destruct (shapes (this w) !! KeyNum bodyUuid); by apply Hquiet.
    + cbn. unfold buffersPosted, buffersHeld. cbn. case_decide; case_decide; lia.
    + by apply Hquiet.
  - pose proof (tick_buffers w). cbn [deliversBuffer]. lia.
  - by apply Hquiet.
  - destruct (enableDebug_simulation w) as (Hs & _ & extra & Hp & Hextra).
    injection Hs as Hbuf _ _ _ _. by apply (Hsame _ extra).
  - destruct (disableDebug_simulation w) as (Hs & _ & extra & Hp & Hextra).
    injection Hs as Hbuf _ _ _ _. by apply (Hsame _ extra).
  - apply (Hsame _ [Post_ADD_BODY (nextBodyUuid (this w))]);
      [done | by constructor | done].
  - apply (Hsame _ [Post_UPDATE_BODY uuid]); [done | by constructor | done].
  - apply (Hsame _ [Post_REMOVE_BODY uuid]); [done | by constructor | done].
  - unfold addShapes. cbn.
    destruct (shapes (this w) !! KeyNum bodyUuid);
      (refine (Hsame _ [Post_ADD_SHAPES bodyUuid (nextShapeUuid (this w))] _ _ _);
       [done | by constructor | done]).
  - unfold removeShapes. cbn.
    destruct (shapes (this w) !! KeyName "bodyUuid");
      [destruct (shapes (this w) !! KeyNum bodyUuid) |];
      (refine (Hsame _ [Post_REMOVE_SHAPES bodyUuid shapesUuid] _ _ _);
       [done | by constructor | done]).
  - by apply Hpost.
  - by apply Hpost.
  - unfold registerBodyHelper. destruct (ready (this w)); by apply Hquiet.
  - unfold registerShapeHelper. destruct (ready (this w)); by apply Hquiet.
  - by apply Hpost.
  - by apply Hpost.
  - by apply Hquiet.
  - by apply Hquiet.
Qed.

(** In every session the buffers posted to the worker, plus the one held
    if any, never outnumber the TRANSFER_DATA messages received: the
    system never posts a buffer it does not own, whatever is called in
    between and whichever ticks throw. *)
Theorem never_more_buffers_posted_than_received (sab : bool)
    (scene : gmap ObjRef Object3D) (cs : list Call) :
  (buffersPosted (session sab scene cs) + buffersHeld (session sab scene cs) <=
   buffersReceived cs)%nat.
Proof.
  induction cs as [|c cs IH] using rev_ind.
  - vm_compute. lia.
  - rewrite session_snoc.
    pose proof (call_buffers c (session sab scene cs)) as Hc.
    unfold buffersReceived in *. rewrite filter_app, length_app.
    rewrite filter_cons, filter_nil.
    destruct (deliversBuffer c) eqn:Hd.
    + rewrite decide_True by done. cbn [length]. lia.
    + rewrite decide_False by done. cbn [length]. lia.
Qed.

End Sessions.

(** * The properties above at concrete inputs *)

Module Coverage.
Import IntegerModel.

Ltac decided := vm_compute; reflexivity.

Lemma returns_true_Normal {A} (c : Completion A) :
  returns c = true -> c = Normal (worldOf c).
Proof. by destruct c. Qed.

Lemma thrown_Some_Throw {A} (c : Completion A) (e : JsError) :
  thrown c = Some e -> c = Throw e (worldOf c).
Proof. destruct c; cbn; congruence. Qed.

(** Handles 7 and 5 are live; 7 is removed. *)
Lemma removeBody_unlists_handle_witness :
  NoDup (bodyUuids (this collidingWorld)) /\
  7 ∉ bodyUuids (this (removeBody 7 collidingWorld)).
Proof.
  assert (NoDup (bodyUuids (this collidingWorld))) as H
    by (apply (bool_decide_unpack _); decided).
  split; [exact H |].
  exact (removeBody_unlists_handle 7 collidingWorld H).
Defined.

Lemma removeBody_keeps_other_handles_witness :
  5 <> 7 /\
  uuidToIndex (this (removeBody 7 collidingWorld)) !! KeyNum 5 = Some 5 /\
  (5 ∈ bodyUuids (this (removeBody 7 collidingWorld)) <->
   5 ∈ bodyUuids (this collidingWorld)).
Proof.
  assert (5 <> 7) as H by lia.
  split; [exact H |].
  destruct (removeBody_keeps_other_handles 7 5 collidingWorld H)
    as (H1 & _ & _ & _ & _ & _ & H2 & _).
  assert (uuidToIndex (this collidingWorld) !! KeyNum 5 = Some 5) as H3 by decided.
  split; [exact (eq_trans H1 H3) | exact H2].
Defined.

(** Handle 0 is added, acknowledged at slot 3 and removed. *)
Lemma BODY_READY_then_removeBody_restores_registry_witness :
  uuidToIndex (this (started 1 None)) !! KeyNum 0 = None /\
  indexToUuid (this (started 1 None)) !! KeyNum 3 = None /\
  0 ∉ bodyUuids (this (started 1 None)) /\
  let w' := removeBody 0 (worldOf (onmessage (BODY_READY 0 3) (started 1 None))) in
  uuidToIndex (this w') = uuidToIndex (this (started 1 None)) /\
  indexToUuid (this w') = indexToUuid (this (started 1 None)) /\
  bodyUuids (this w') = bodyUuids (this (started 1 None)).
Proof.
  assert (uuidToIndex (this (started 1 None)) !! KeyNum 0 = None) as H1 by decided.
  assert (indexToUuid (this (started 1 None)) !! KeyNum 3 = None) as H2 by decided.
  assert (0 ∉ bodyUuids (this (started 1 None))) as H3
    by (apply (bool_decide_unpack _); decided).
  do 3 (split; [assumption |]).
  exact (BODY_READY_then_removeBody_restores_registry 0 3 (started 1 None) H1 H2 H3).
Defined.

(** Handle 5 is acknowledged at slot 5 while handle 7 holds slot 3. *)
Lemma BODY_READY_binds_only_its_pair_witness :
  7 <> 5 /\ 3 <> 5 /\
  let w := worldOf (onmessage (BODY_READY 7 3) (started 8 None)) in
  let w' := worldOf (onmessage (BODY_READY 5 5) w) in
  uuidToIndex (this w') !! KeyNum 5 = Some 5 /\
  indexToUuid (this w') !! KeyNum 5 = Some 5 /\
  bodyUuids (this w') = bodyUuids (this w) ++ [5] /\
  uuidToIndex (this w') !! KeyNum 7 = uuidToIndex (this w) !! KeyNum 7 /\
  indexToUuid (this w') !! KeyNum 3 = indexToUuid (this w) !! KeyNum 3.
Proof.
  assert (7 <> 5) as H1 by lia.
  assert (3 <> 5) as H2 by lia.
  do 2 (split; [assumption |]).
  exact (BODY_READY_binds_only_its_pair 5 5 7 3
           (worldOf (onmessage (BODY_READY 7 3) (started 8 None))) H1 H2).
Defined.

(** Two bodies added to a ready system; the worker acknowledges the
    second one first. *)
Lemma two_pending_bodies_bind_to_their_slots_witness :
  3 <> 0 /\
  let a1 := addBody 2%positive {| type := None |} readyWorld in
  let a2 := addBody 3%positive {| type := Some STATIC |} a1.2 in
  let w' := worldOf (onmessage (BODY_READY a1.1 3)
                       (worldOf (onmessage (BODY_READY a2.1 0) a2.2))) in
  a1.1 = 0 /\ a2.1 = 1 /\
  uuidToIndex (this w') !! KeyNum a1.1 = Some 3 /\
  uuidToIndex (this w') !! KeyNum a2.1 = Some 0 /\
  indexToUuid (this w') !! KeyNum 3 = Some a1.1 /\
  indexToUuid (this w') !! KeyNum 0 = Some a2.1.
Proof.
  assert (3 <> 0) as H by lia.
  split; [exact H |].
  destruct (two_pending_bodies_bind_to_their_slots 2%positive 3%positive
              {| type := None |} {| type := Some STATIC |} 3 0 readyWorld H)
    as (G1 & G2 & _ & _ & _ & _ & _ & _ & _ & G).
  cbn zeta.
  split; [exact G1 |]. split; [exact (eq_trans G2 ltac:(rewrite G1; reflexivity)) |].
  exact (G false).
Defined.

(** Handle 0 was added and never acknowledged: the tick passes it by. *)
Lemma tick_leaves_unlisted_handles_witness :
  0 ∉ bodyUuids (this collidingWorld) /\
  collisions (this (worldOf (tick collidingWorld))) !! KeyNum 0 = Some [] /\
  getLinearVelocity 0 (worldOf (tick collidingWorld)) = Some (Some 0).
Proof.
  assert (0 ∉ bodyUuids (this collidingWorld)) as H
    by (apply (bool_decide_unpack _); decided).
  split; [exact H |].
  destruct (tick_leaves_unlisted_handles 0 collidingWorld H) as (H1 & H2 & _).
  assert (collisions (this collidingWorld) !! KeyNum 0 = Some []) as G1 by decided.
  assert (getLinearVelocity 0 collidingWorld = Some (Some 0)) as G2 by decided.
  split; [exact (eq_trans H1 G1) | exact (eq_trans H2 G2)].
Defined.

(** Handle 7 at slot 3, whose words 16 and 17 are zero. *)
Lemma tickBody_reads_velocities_witness :
  tickBody 7 collidingWorld = Normal (worldOf (tickBody 7 collidingWorld)) /\
  getLinearVelocity 7 (worldOf (tickBody 7 collidingWorld)) = Some (Some 0) /\
  getAngularVelocity 7 (worldOf (tickBody 7 collidingWorld)) = Some (Some 0).
Proof.
  assert (returns (tickBody 7 collidingWorld) = true) as Hr by decided.
  assert (tickBody 7 collidingWorld = Normal (worldOf (tickBody 7 collidingWorld)))
    as H by exact (returns_true_Normal _ Hr).
  split; [exact H |].
  destruct (tickBody_reads_velocities 7 collidingWorld _ H) as [H1 H2].
  split; [exact (eq_trans H1 ltac:(decided)) | exact (eq_trans H2 ltac:(decided))].
Defined.

Lemma tickBody_collisions_bounded_witness :
  tickBody 7 collidingWorld = Normal (worldOf (tickBody 7 collidingWorld)) /\
  exists l : list (option Z),
    collisions (this (worldOf (tickBody 7 collidingWorld))) !! KeyNum 7 = Some l /\
    (length l <= 8)%nat.
Proof.
  assert (returns (tickBody 7 collidingWorld) = true) as Hr by decided.
  assert (tickBody 7 collidingWorld = Normal (worldOf (tickBody 7 collidingWorld)))
    as H by exact (returns_true_Normal _ Hr).
  split; [exact H |].
  exact (tickBody_collisions_bounded 7 collidingWorld _ H).
Defined.


(** The body removed before its BODY_READY arrived is listed without
    options. *)
Lemma tick_throws_on_listed_handle_without_options_witness :
  ready (this scenario5) = true /\
  byteLength (objectMatrices (this scenario5)) <> 0 /\
  0 ∈ bodyUuids (this scenario5) /\
  bodyOptions (this scenario5) !! KeyNum 0 = None /\
  returns (tick scenario5) = false /\
  posted (worldOf (tick scenario5)) = posted (syncDebug scenario5).
Proof.
  assert (ready (this scenario5) = true) as H1 by decided.
  assert (byteLength (objectMatrices (this scenario5)) <> 0) as H2
    by (vm_compute; discriminate).
  assert (0 ∈ bodyUuids (this scenario5)) as H3
    by (apply (bool_decide_unpack _); decided).
  assert (bodyOptions (this scenario5) !! KeyNum 0 = None) as H4 by decided.
  do 4 (split; [assumption |]).
  exact (tick_throws_on_listed_handle_without_options 0 scenario5 H1 H2 H3 H4).
Defined.

Lemma tick_hands_buffer_back_witness :
  ready (this collidingWorld) = true /\
  byteLength (objectMatrices (this collidingWorld)) <> 0 /\
  tick collidingWorld = Normal (worldOf (tick collidingWorld)) /\
  byteLength (objectMatrices (this (worldOf (tick collidingWorld)))) = 0 /\
  exists (extra : list Posted) (buffer : list Z),
    posted (worldOf (tick collidingWorld)) =
      posted collidingWorld ++ extra ++ [Post_TRANSFER_DATA buffer] /\
    Forall (fun m => isTransfer m = false) extra /\
    length buffer = length (objectMatrices (this collidingWorld)).
Proof.
  assert (ready (this collidingWorld) = true) as H1 by decided.
  assert (byteLength (objectMatrices (this collidingWorld)) <> 0) as H2
    by (vm_compute; discriminate).
  assert (returns (tick collidingWorld) = true) as Hr by decided.
  assert (tick collidingWorld = Normal (worldOf (tick collidingWorld))) as H3
    by exact (returns_true_Normal _ Hr).
  do 3 (split; [assumption |]).
  exact (tick_hands_buffer_back collidingWorld _ H1 H2 H3).
Defined.

Lemma tick_throw_keeps_buffer_witness :
  debugRequested (this scenario5) = false /\
  debugEnabled (this scenario5) = false /\
  tick scenario5 = Throw TypeError (worldOf (tick scenario5)) /\
  posted (worldOf (tick scenario5)) = posted scenario5 /\
  length (objectMatrices (this (worldOf (tick scenario5)))) =
  length (objectMatrices (this scenario5)).
Proof.
  assert (debugRequested (this scenario5) = false) as H1 by decided.
  assert (debugEnabled (this scenario5) = false) as H2 by decided.
  assert (thrown (tick scenario5) = Some TypeError) as Ht by decided.
  assert (tick scenario5 = Throw TypeError (worldOf (tick scenario5))) as H3
    by exact (thrown_Some_Throw _ _ Ht).
  do 3 (split; [assumption |]).
  destruct (tick_throw_keeps_buffer TypeError scenario5 _ H1 H2 H3)
    as (_ & _ & G1 & G2).
  split; [exact G1 | exact G2].
Defined.

Lemma enableDebug_idempotent_witness :
  hasSharedArrayBuffer readyWorld = true /\
  enableDebug (enableDebug readyWorld) = enableDebug readyWorld /\
  debugEnabled (this (enableDebug readyWorld)) = true.
Proof.
  assert (hasSharedArrayBuffer readyWorld = true) as H by decided.
  split; [exact H |].
  destruct (enableDebug_idempotent readyWorld H) as (G1 & G2 & _).
  split; [exact G1 | exact G2].
Defined.

Lemma tick_settles_debug_request_witness :
  ready (this (setDebug true readyWorld)) = true /\
  hasSharedArrayBuffer (setDebug true readyWorld) = true /\
  debugRequested (this (setDebug true readyWorld)) = true /\
  debugEnabled (this (setDebug true readyWorld)) = false /\
  debugRequested (this debuggingWorld) = debugEnabled (this debuggingWorld) /\
  syncDebug debuggingWorld = debuggingWorld.
Proof.
  assert (ready (this (setDebug true readyWorld)) = true) as H1 by decided.
  assert (hasSharedArrayBuffer (setDebug true readyWorld) = true) as H2 by decided.
  do 2 (split; [assumption |]). do 2 (split; [decided |]).
  exact (tick_settles_debug_request (setDebug true readyWorld) H1 (or_introl H2)).
Defined.

(** The worker has drawn 12 vertices since the last tick. *)
Lemma tick_publishes_debug_draw_range_witness :
  ready (this drawingWorld) = true /\
  debugRequested (this drawingWorld) = true /\
  debugEnabled (this drawingWorld) = true /\
  debugMesh (this drawingWorld) = Some drawnMesh /\
  tick drawingWorld = Normal (worldOf (tick drawingWorld)) /\
  debugIndex (worldOf (tick drawingWorld)) = 0 /\
  exists m',
    debugMesh (this (worldOf (tick drawingWorld))) = Some m' /\
    drawCount m' = Some 12 /\
    attached m' = true /\
    positionNeedsUpdate m' = true /\
    colorNeedsUpdate m' = true.
Proof.
  assert (ready (this drawingWorld) = true) as H1 by decided.
  assert (debugRequested (this drawingWorld) = true) as H2 by decided.
  assert (debugEnabled (this drawingWorld) = true) as H3 by decided.
  assert (debugMesh (this drawingWorld) = Some drawnMesh) as H4 by decided.
  assert (returns (tick drawingWorld) = true) as Hr by decided.
  assert (tick drawingWorld = Normal (worldOf (tick drawingWorld))) as H5
    by exact (returns_true_Normal _ Hr).
  do 5 (split; [assumption |]).
  exact (tick_publishes_debug_draw_range drawingWorld _ drawnMesh H1 H2 H3 H4 H5).
Defined.

(** Debug rendering, on with 12 vertices pending, is switched off and on. *)
Lemma disableDebug_then_enableDebug_reuses_mesh_witness :
  hasSharedArrayBuffer drawingWorld = true /\
  debugMesh (this drawingWorld) = Some drawnMesh /\
  debugMesh (this (enableDebug (disableDebug drawingWorld))) = Some drawnMesh /\
  debugIndex (enableDebug (disableDebug drawingWorld)) = 12.
Proof.
  assert (hasSharedArrayBuffer drawingWorld = true) as H1 by decided.
  assert (debugMesh (this drawingWorld) = Some drawnMesh) as H2 by decided.
  do 2 (split; [assumption |]).
  destruct (disableDebug_then_enableDebug_reuses_mesh drawingWorld drawnMesh H1 H2)
    as (_ & _ & _ & _ & _ & G1 & G2 & _).
  split; [exact G1 | exact G2].
Defined.

Lemma helper_registered_before_READY_waits_witness :
  ready (this freshWorld) = false /\
  init2Calls (registerBodyHelper aliveHelper freshWorld) = [] /\
  bodyHelpers (this (registerBodyHelper aliveHelper freshWorld)) = [aliveHelper] /\
  init2Calls (worldOf (onmessage READY (registerBodyHelper aliveHelper freshWorld)))
  = [1].
Proof.
  assert (ready (this freshWorld) = false) as H by decided.
  split; [exact H |].
  exact (helper_registered_before_READY_waits freshWorld aliveHelper H).
Defined.

(** The DYNAMIC body 7, whose slot holds a translation, is made KINEMATIC
    before the iteration: its object stays at the origin. *)
Lemma updateBody_stops_simulation_driving_witness :
  type {| type := Some KINEMATIC |} = Some KINEMATIC /\
  type <$> bodyOptions (this dynamicWorld) !! KeyNum 7 = Some None /\
  poseOf <$> objects (worldOf (tickBody 7
                        (updateBody 7 {| type := Some KINEMATIC |} dynamicWorld)))
               !! 9%positive =
  Some ((Some 0, Some 0, Some 0), (split identity).1.2).
Proof.
  split; [reflexivity |]. split; [decided |].
  destruct (updateBody_stops_simulation_driving 7 {| type := Some KINEMATIC |}
              dynamicWorld 9%positive (or_introl eq_refl)) as (_ & H & _).
  exact (eq_trans H ltac:(decided)).
Defined.

Lemma tick_without_bodies_returns_the_buffer_witness :
  ready (this readyWorld) = true /\
  bodyUuids (this readyWorld) = [] /\
  debugRequested (this readyWorld) = false /\
  debugEnabled (this readyWorld) = false /\
  emptyBuffer <> [] /\
  let w' := worldOf (tick (worldOf (onmessage (TRANSFER_DATA emptyBuffer (Some 16))
                                      readyWorld))) in
  posted w' = posted readyWorld ++ [Post_TRANSFER_DATA emptyBuffer] /\
  objectMatrices (this w') = [] /\
  stepDuration (this w') = Some 16.
Proof.
  assert (ready (this readyWorld) = true) as H1 by decided.
  assert (bodyUuids (this readyWorld) = []) as H2 by decided.
  assert (debugRequested (this readyWorld) = false) as H3 by decided.
  assert (debugEnabled (this readyWorld) = false) as H4 by decided.
  assert (emptyBuffer <> []) as H5 by (vm_compute; discriminate).
  do 5 (split; [assumption |]).
  destruct (tick_without_bodies_returns_the_buffer (three := three) emptyBuffer (Some 16)
              readyWorld H1 H2 H3 H4 H5) as (_ & G1 & G2 & G3 & _).
  cbn zeta. split; [exact G1 |]. split; [exact G2 | exact G3].
Defined.

(** A handle that was never acknowledged is removed: the slot-to-handle
    map is left alone. *)
Lemma session_keys_are_numeric_witness :
  uuidToIndex (this (session true scene debugSession)) !! KeyNum 4 = None /\
  indexToUuid (this (removeBody 4 (session true scene debugSession))) =
  indexToUuid (this (session true scene debugSession)).
Proof.
  assert (uuidToIndex (this (session true scene debugSession)) !! KeyNum 4 = None)
    as H by decided.
  split; [exact H |].
  destruct (session_keys_are_numeric true scene debugSession "undefined" 4)
    as (_ & _ & _ & G).
  exact (G H).
Defined.

(** A session in which debug rendering is on. *)
Lemma debug_step_never_throws_witness :
  debugEnabled (this (session true scene debugSession)) = true /\
  (exists m, debugMesh (this (session true scene debugSession)) = Some m /\
             attached m = true) /\
  returns (debugRendering (session true scene debugSession)) = true.
Proof.
  assert (debugEnabled (this (session true scene debugSession)) = true) as H by decided.
  split; [exact H |].
  destruct (debug_step_never_throws true scene debugSession) as [G1 G2].
  split; [exact (G1 H) | exact G2].
Defined.

End Coverage.
